(** * NOTEBOOK-LMS: the notebook server of [server.py]

    A shallow embedding of the interactive execution core of the teaching
    platform: the session registry ([NotebookServer.connect],
    [NotebookServer.disconnect]), the execution engine
    ([NotebookServer.execute]), the completion entry point
    ([NotebookServer.get_completions]), the message router
    ([NotebookServer.handle_message]) and the process-wide feature flag
    ([global_settings]).

    The Python libraries the server calls (the interpreter behind
    [ast.parse], [exec] and [eval], pandas, matplotlib's renderer, jedi and
    the JSON decoder) are an interface, [PyRuntime]; the theorems about
    the server are proved for every implementation of it.  A small
    interpreter for a fragment of Python, [Mini], implements the interface
    and runs the examples, among them the cells that reach into the
    process and the two cells that overlap. *)

From Stdlib Require Import ZArith NArith String Ascii List Floats Lia.
From Stdlib.Strings Require Import Byte.
From stdpp Require Import gmap strings list pretty.

Set Warnings "-register-all".
Local Open Scope string_scope.

(** ** Python values that cross the wire: decoded JSON *)

(** What [json.loads] returns: [None], [bool], [int], [float], [str], [list]
    and [dict] (keys are strings; the association list keeps one entry per
    key, as the decoder builds the dict). *)
Inductive json : Type :=
| JNull
| JBool (b : bool)
| JInt (n : Z)
| JFloat (f : float)
| JString (s : string)
| JArray (items : list json)
| JObject (fields : list (string * json)).

(** [d.get(key)] on a dict: the value, or [None]. *)
Fixpoint dict_get (key : string) (fields : list (string * json)) : option json :=
  match fields with
  | [] => None
  | (k, v) :: rest => if String.eqb k key then Some v else dict_get key rest
  end.

(** [value == 'literal'] for a decoded value and a string literal. *)
Definition json_eq_str (v : option json) (lit : string) : bool :=
  match v with
  | Some (JString s) => String.eqb s lit
  | _ => false
  end.

(** ** Exceptions and results *)

(** A raised exception: its class name, whether the class derives from
    [Exception] (as opposed to deriving from [BaseException] only, like
    [SystemExit] and [KeyboardInterrupt]), [str(e)], and the text
    [traceback.format_exc()] gives for it. *)
Record exn : Type := Exn {
  exn_class : string;
  exn_is_Exception : bool;
  exn_str : string;
  exn_format_exc : string
}.

Inductive result (A : Type) : Type :=
| Ok (a : A)
| Raise (e : exn).
Arguments Ok {A} a.
Arguments Raise {A} e.

Definition nl : string := String "010"%char EmptyString.
Definition dquote : string := String "034"%char EmptyString.
Definition squote : string := String "039"%char EmptyString.

Definition traceback_of (cls msg : string) : string :=
  "Traceback (most recent call last):" ++ nl ++ cls
    ++ (if String.eqb msg "" then "" else ": " ++ msg) ++ nl.

Definition KeyError (key : string) : exn :=
  let msg := squote ++ key ++ squote in
  Exn "KeyError" true msg (traceback_of "KeyError" msg).

Definition AttributeError (msg : string) : exn :=
  Exn "AttributeError" true msg (traceback_of "AttributeError" msg).

Definition TypeError (msg : string) : exn :=
  Exn "TypeError" true msg (traceback_of "TypeError" msg).

(** What an operation on a closed [io.StringIO] raises. *)
Definition closed_file : exn :=
  Exn "ValueError" true "I/O operation on closed file"
    (traceback_of "ValueError" "I/O operation on closed file").

(** [d[key]] on a dict: the value, or [KeyError]. *)
Definition dict_index (key : string) (fields : list (string * json)) : result json :=
  match dict_get key fields with
  | Some v => Ok v
  | None => Raise (KeyError key)
  end.

(** ** A state monad with exceptions

    [M S A] is a computation over the mutable state [S] that returns an [A]
    or raises; the state a raising computation leaves is kept, as Python
    keeps the mutations made before a fault. *)
Definition M (S A : Type) : Type := S -> result A * S.

Definition ret {S A} (a : A) : M S A := fun s => (Ok a, s).

Definition bind {S A B} (c : M S A) (k : A -> M S B) : M S B :=
  fun s =>
    match c s with
    | (Ok a, s') => k a s'
    | (Raise e, s') => (Raise e, s')
    end.

Definition raise {S A} (e : exn) : M S A := fun s => (Raise e, s).

Definition lift {S A} (r : result A) : M S A := fun s => (r, s).

Definition get_state {S} : M S S := fun s => (Ok s, s).

Definition modify {S} (f : S -> S) : M S unit := fun s => (Ok tt, f s).

Notation "x <- c ;; k" := (bind c (fun x => k))
  (at level 100, c at next level, right associativity).
Notation "c ;; k" := (bind c (fun _ => k))
  (at level 100, right associativity).

(** [try: body except Exception: handler]: only exceptions whose class
    derives from [Exception] reach the handler; the others propagate. *)
Definition try_except_Exception {S A} (body : M S A) (handler : exn -> M S A) : M S A :=
  fun s =>
    match body s with
    | (Ok a, s') => (Ok a, s')
    | (Raise e, s') =>
        if exn_is_Exception e then handler e s' else (Raise e, s')
    end.

(** ** [io.StringIO] *)

Module StringIO.

(** A text buffer, its stream position, and whether it was closed. *)
Record t : Type := Make { value : string; pos : nat; closed : bool }.

Definition new : t := Make "" 0 false.

Fixpoint zeros (n : nat) : string :=
  match n with
  | O => ""
  | S n' => String "000"%char (zeros n')
  end.

(** [buf.write(s)] on an open buffer: an empty text changes nothing;
    another text goes at the stream position, over what is there, after
    padding with NUL when the position is past the end. *)
Definition write (s : string) (b : t) : t :=
  match s with
  | EmptyString => b
  | _ =>
      let padded := value b ++ zeros (pos b - String.length (value b)) in
      let stop := pos b + String.length s in
      Make (substring 0 (pos b) padded ++ s
              ++ substring stop (String.length padded - stop) padded)
           stop (closed b)
  end.

(** [buf.truncate(size)] on an open buffer keeps the stream position. *)
Definition truncate (size : nat) (b : t) : t :=
  Make (substring 0 size (value b)) (pos b) (closed b).

(** [buf.seek(p)] on an open buffer. *)
Definition seek (p : nat) (b : t) : t := Make (value b) p (closed b).

(** [buf.close()]: from then on [write], [truncate], [seek] and
    [getvalue] raise [ValueError]. *)
Definition close (b : t) : t := Make (value b) (pos b) true.

(** [buf.getvalue()] on an open buffer. *)
Definition getvalue (b : t) : string := value b.

(** The buffer is open and its position is at the end of its text, as
    for a buffer that was only ever written to. *)
Definition at_end (b : t) : Prop :=
  closed b = false /\ pos b = String.length (value b).

End StringIO.

(** ** [html.escape] *)

Definition escape_char (c : ascii) : string :=
  if Ascii.eqb c "&"%char then "&amp;"
  else if Ascii.eqb c "<"%char then "&lt;"
  else if Ascii.eqb c ">"%char then "&gt;"
  else if Ascii.eqb c "034"%char then "&quot;"
  else if Ascii.eqb c "039"%char then "&#x27;"
  else String c EmptyString.

(** [escape(s)] with the default [quote=True]. *)
Fixpoint escape (s : string) : string :=
  match s with
  | EmptyString => EmptyString
  | String c rest => escape_char c ++ escape rest
  end.

(** ** [base64.b64encode(...).decode()] *)

Definition b64_alphabet : string :=
  "ABCDEFGHIJKLMNOPQRSTUVWXYZabcdefghijklmnopqrstuvwxyz0123456789+/".

Definition b64_digit (n : N) : ascii :=
  match String.get (N.to_nat (n mod 64)) b64_alphabet with
  | Some c => c
  | None => "="%char
  end.

Fixpoint b64encode (data : list byte) : string :=
  match data with
  | [] => ""
  | [a] =>
      let n := (Byte.to_N a * 16)%N in
      String (b64_digit (n / 64)) (String (b64_digit n) "==")
  | [a; b] =>
      let n := ((Byte.to_N a * 256 + Byte.to_N b) * 4)%N in
      String (b64_digit (n / 4096)) (String (b64_digit (n / 64))
        (String (b64_digit n) "="))
  | a :: b :: c :: rest =>
      let n := (Byte.to_N a * 65536 + Byte.to_N b * 256 + Byte.to_N c)%N in
      String (b64_digit (n / 262144)) (String (b64_digit (n / 4096))
        (String (b64_digit (n / 64)) (String (b64_digit n) (b64encode rest))))
  end.

(** ** [matplotlib.pyplot]'s figure registry *)

Module Pyplot.
Section Figures.
Context {axes : Type}.

Record figure : Type := Figure { number : nat; fig_axes : list axes }.

(** The open figures, in the order pyplot keeps them: the last one is
    the current figure. *)
Definition registry : Type := list figure.

(** [plt.gcf()]: the current figure; a blank one is created, and
    becomes current, when none is open. *)
Definition gcf (figs : registry) : figure * registry :=
  match last figs with
  | Some fig => (fig, figs)
  | None => let fig := Figure 1 [] in (fig, [fig])
  end.

(** [plt.close(fig)]: the figure leaves the registry. *)
Definition close (fig : figure) (figs : registry) : registry :=
  List.filter (fun g => negb (Nat.eqb (number g) (number fig))) figs.

(** [if fig.axes:] *)
Definition populated (fig : figure) : bool :=
  match fig_axes fig with
  | [] => false
  | _ :: _ => true
  end.
End Figures.
Arguments figure : clear implicits.
Arguments registry : clear implicits.
End Pyplot.

(** ** Counting image tags in a fragment *)

(** The character occurs in the text. *)
Fixpoint occurs (c : ascii) (s : string) : bool :=
  match s with
  | EmptyString => false
  | String d rest => Ascii.eqb c d || occurs c rest
  end.

(** The number of positions of [s] at which [pat] starts. *)
Fixpoint count_occurrences (pat s : string) : nat :=
  match s with
  | EmptyString => 0
  | String _ rest =>
      (if String.prefix pat s then 1 else 0) + count_occurrences pat rest
  end.

(** How an embedded PNG image tag opens. *)
Definition img_open : string :=
  "<img src=" ++ dquote ++ "data:image/png;base64,".

Definition image_tags (fragment : string) : nat :=
  count_occurrences img_open fragment.

(** ** The Python runtime under the server *)

(** A websocket, by object identity. *)
Definition WebSocket : Type := nat.

(** [global_settings] *)
Record settings : Type := Settings { enable_autocomplete : bool }.

(** An entry of [server.sessions]: [{'locals': ..., 'websocket': ...}]. *)
Record session_of (value : Type) : Type := Session {
  locals : gmap string value;
  websocket : WebSocket
}.
Arguments Session {value} _ _.
Arguments locals {value} _.
Arguments websocket {value} _.

(** The process around a running cell.  The cell runs in the server's
    process, so the objects of the module are within its reach: the
    registry, of which [other_sessions] are the entries of the other
    sessions, and [global_settings].  [session_key] is the id the cell's
    own entry is registered under; that entry is not among
    [other_sessions]: its namespace is the one the cell runs on, and the
    model keeps it registered with its websocket whatever the cell
    does. *)
Record surroundings (value : Type) : Type := Surroundings {
  session_key : string;
  other_sessions : gmap string (session_of value);
  shared_settings : settings
}.
Arguments Surroundings {value} _ _ _.
Arguments session_key {value} _.
Arguments other_sessions {value} _.
Arguments shared_settings {value} _.

(** What a running cell can reach: the session's namespace (the dict passed
    to [exec] and [eval] as globals), the buffer that stands for
    [sys.stdout] while the cell runs, pyplot's open figures, and the
    process around it.  What the cell does to the outside on its own
    (sockets, files, the real standard output, the process itself) is
    not modelled. *)
Record machine (value axes : Type) : Type := Machine {
  session_locals : gmap string value;
  buf : StringIO.t;
  open_figures : Pyplot.registry axes;
  around : surroundings value
}.
Arguments Machine {value axes} _ _ _ _.
Arguments session_locals {value axes} _.
Arguments buf {value axes} _.
Arguments open_figures {value axes} _.
Arguments around {value axes} _.

Class PyRuntime : Type := {
  (** Python objects, the nodes of [ast], and what a figure holds. *)
  value : Type;
  stmt : Type;
  expr : Type;
  axes : Type;
  (** The modules every namespace is seeded with. *)
  plt : value;
  pd : value;
  (** [json.loads(message)]. *)
  json_loads : string -> result json;
  (** [ast.parse(code)], [tree.body]. *)
  ast_parse : json -> result (list stmt);
  (** [isinstance(node, ast.Expr)], and then [node.value]. *)
  Expr_value : stmt -> option expr;
  (** [exec(compile(ast.Module(body, type_ignores=[]), '<string>', 'exec'), ns)]. *)
  exec_module : list stmt -> M (machine value axes) unit;
  (** [exec(code, ns)] on source text. *)
  exec_source : json -> M (machine value axes) unit;
  (** [eval(compile(ast.Expression(e), '<string>', 'eval'), ns)]. *)
  eval_expression : expr -> M (machine value axes) value;
  (** [isinstance(result, pd.DataFrame)], [result is None]. *)
  is_DataFrame : value -> bool;
  is_None : value -> bool;
  (** [result.to_html()], [str(result)]: both may run code of the object. *)
  to_html : value -> M (machine value axes) string;
  py_str : value -> M (machine value axes) string;
  (** [fig.savefig(img_buf, format='png', bbox_inches='tight')]: the bytes
      left in [img_buf]. *)
  savefig_png : Pyplot.figure axes -> result (list byte);
  (** [jedi.Interpreter(code, [ns]).complete(line=.., column=..)], names only. *)
  jedi_complete : json -> gmap string value -> json -> json -> result (list string);
  (** Running source text is running the module it parses to. *)
  exec_source_parsed : forall code body m,
    ast_parse code = Ok body -> exec_source code m = exec_module body m
}.

(** ** The server *)

(** What the process does to the outside, in order. *)
Inductive event : Type :=
| Accept (ws : WebSocket)
| SendJson (ws : WebSocket) (data : json)
| Print (text : string)
| JediInterpreter (code : json).

(** An entry of [self.sessions], for the runtime at hand. *)
Abbreviation session := (session_of value).

Section Server.
Context `{rt : PyRuntime}.

(** The process: [server.sessions], [global_settings], pyplot's figures,
    and the trace of what it did. *)
Record server : Type := Server {
  sessions : gmap string session;
  global_settings : settings;
  figures : Pyplot.registry axes;
  trace : list event
}.

Definition set_sessions (f : gmap string session -> gmap string session)
    (srv : server) : server :=
  Server (f (sessions srv)) (global_settings srv) (figures srv) (trace srv).

Definition set_global_settings (g : settings) (srv : server) : server :=
  Server (sessions srv) g (figures srv) (trace srv).

Definition add_event (ev : event) (srv : server) : server :=
  Server (sessions srv) (global_settings srv) (figures srv) (trace srv ++ [ev]).

Definition emit (ev : event) : M server unit := modify (add_event ev).

(** The process as it starts: [NotebookServer.__init__] and the module's
    globals. *)
Definition initial_server : server :=
  Server ∅ (Settings true) [] [].

(** *** [NotebookServer.connect] *)
Definition connect (ws : WebSocket) (session_id : string) : M server unit :=
  emit (Accept ws) ;;
  srv <- get_state ;;
  (match sessions srv !! session_id with
   | None =>
       modify (set_sessions
         (insert session_id (Session {[ "plt" := plt; "pd" := pd ]} ws)))
   | Some _ => ret tt
   end) ;;
  emit (Print ("Client connected: " ++ session_id)).

(** *** [NotebookServer.disconnect] *)
Definition disconnect (session_id : string) : M server unit :=
  srv <- get_state ;;
  match sessions srv !! session_id with
  | Some _ =>
      modify (set_sessions (delete session_id)) ;;
      emit (Print ("Client disconnected: " ++ session_id))
  | None => ret tt
  end.

(** *** [NotebookServer.execute] *)

Definition mach : Type := machine value axes.

(** An operation on the buffer: [ValueError] when it was closed. *)
Definition buf_update (f : StringIO.t -> StringIO.t) : M mach unit :=
  fun m =>
    if StringIO.closed (buf m) then (Raise closed_file, m)
    else (Ok tt, Machine (session_locals m) (f (buf m)) (open_figures m) (around m)).

Definition buf_write (s : string) : M mach unit := buf_update (StringIO.write s).

(** [fig = plt.gcf()] *)
Definition plt_gcf : M mach (Pyplot.figure axes) :=
  fun m =>
    let '(fig, figs) := Pyplot.gcf (open_figures m) in
    (Ok fig, Machine (session_locals m) (buf m) figs (around m)).

(** [plt.close(fig)] *)
Definition plt_close (fig : Pyplot.figure axes) : M mach unit :=
  modify (fun m =>
    Machine (session_locals m) (buf m) (Pyplot.close fig (open_figures m))
      (around m)).

Definition session_expired : string :=
  "<div class=" ++ dquote ++ "error" ++ dquote
    ++ ">Session expired. Please refresh.</div>".

Definition error_div (text : string) : string :=
  "<div class=" ++ dquote ++ "error" ++ dquote ++ ">" ++ text ++ "</div>".

Definition img_tag (b64 : string) : string :=
  "<img src=" ++ dquote ++ "data:image/png;base64," ++ b64 ++ dquote ++ "><br>".

(** Lines 219-222: what is written for the value of the last expression. *)
Definition display (result : value) : M mach unit :=
  if is_DataFrame result then
    html <- to_html result ;; buf_write html
  else if negb (is_None result) then
    text <- py_str result ;; buf_write (escape text)
  else ret tt.

(** Lines 212-224: parse, then run the cell. *)
Definition run_cell (code : json) : M mach unit :=
  body <- lift (ast_parse code) ;;
  match last body with
  | Some node =>
      match Expr_value node with
      | Some e =>
          (if (1 <? List.length body)%nat then exec_module (removelast body)
           else ret tt) ;;
          result <- eval_expression e ;;
          display result
      | None => exec_source code
      end
  | None => exec_source code
  end.

(** Lines 225-232: the current figure, when it has axes, is saved as PNG,
    closed, and written as an image tag. *)
Definition show_figure : M mach unit :=
  fig <- plt_gcf ;;
  if Pyplot.populated fig then
    png <- lift (savefig_png fig) ;;
    plt_close fig ;;
    buf_write (img_tag (b64encode png))
  else ret tt.

(** Lines 233-238: the handler of [except Exception]. *)
Definition show_error (e : exn) : M mach unit :=
  buf_update (StringIO.truncate 0) ;;
  buf_update (StringIO.seek 0) ;;
  buf_write (error_div (escape (exn_format_exc e))).

(** Lines 210-238: the body of [with redirect_stdout(buf)]. *)
Definition run_redirected (code : json) : M mach unit :=
  try_except_Exception (run_cell code ;; show_figure) show_error.

(** The machine a cell of the session starts on: its namespace, a new
    buffer, and the process as it is. *)
Definition enter (session_id : string) (session_env : session) (srv : server)
    : mach :=
  Machine (locals session_env) StringIO.new (figures srv)
    (Surroundings session_id (delete session_id (sessions srv))
       (global_settings srv)).

(** The process after the cell: the namespace is the very dict the
    registry holds, so its mutations are in the registry; the other
    entries, the settings and pyplot's state are as the cell left them. *)
Definition leave (session_id : string) (session_env : session) (m : mach)
    (srv : server) : server :=
  Server (<[session_id := Session (session_locals m) (websocket session_env)]>
            (other_sessions (around m)))
         (shared_settings (around m)) (open_figures m) (trace srv).

(** [buf.getvalue()] *)
Definition buf_getvalue (b : StringIO.t) : result string :=
  if StringIO.closed b then Raise closed_file else Ok (StringIO.getvalue b).

Definition execute (session_id : string) (code : json) : M server string :=
  fun srv =>
    match sessions srv !! session_id with
    | None => (Ok session_expired, srv)
    | Some session_env =>
        match run_redirected code (enter session_id session_env srv) with
        | (Ok _, m) =>
            (buf_getvalue (buf m), leave session_id session_env m srv)
        | (Raise e, m) =>
            (Raise e, leave session_id session_env m srv)
        end
    end.

(** *** [NotebookServer.get_completions] *)

(** [line + 1] *)
Definition add_one (line : json) : result json :=
  match line with
  | JInt n => Ok (JInt (n + 1))
  | JBool b => Ok (JInt (Z.b2z b + 1))
  | JFloat f => Ok (JFloat (f + 1)%float)
  | JNull =>
      Raise (TypeError "unsupported operand type(s) for +: 'NoneType' and 'int'")
  | JString _ =>
      Raise (TypeError ("can only concatenate str (not " ++ dquote ++ "int"
                          ++ dquote ++ ") to str"))
  | JArray _ =>
      Raise (TypeError ("can only concatenate list (not " ++ dquote ++ "int"
                          ++ dquote ++ ") to list"))
  | JObject _ =>
      Raise (TypeError "unsupported operand type(s) for +: 'dict' and 'int'")
  end.

Definition get_completions (session_id : string) (code line column : json)
    : M server (list string) :=
  srv <- get_state ;;
  match locals <$> sessions srv !! session_id with
  | None => ret []
  | Some ns =>
      if decide (size ns = 0) then ret []
      else
        try_except_Exception
          (emit (JediInterpreter code) ;;
           line1 <- lift (add_one line) ;;
           lift (jedi_complete code ns line1 column))
          (fun e =>
             emit (Print ("Completion error: " ++ exn_str e)) ;;
             ret [])
  end.

(** *** [NotebookServer.handle_message] *)

Definition send_json (ws : WebSocket) (data : json) : M server unit :=
  emit (SendJson ws data).

(** [self.sessions.get(key, {}).get('websocket')] for a decoded key: a
    list or a dict cannot be hashed; a key that is not a string equals no
    session id. *)
Definition target_websocket (key : option json) (srv : server)
    : result (option WebSocket) :=
  match key with
  | Some (JString s) => Ok (websocket <$> sessions srv !! s)
  | Some (JArray _) => Raise (TypeError "unhashable type: 'list'")
  | Some (JObject _) => Raise (TypeError "unhashable type: 'dict'")
  | _ => Ok None
  end.

Definition output_message (cell_id : json) (output : string) : json :=
  JObject [("type", JString "output"); ("cell_id", cell_id);
           ("output", JString output)].

Definition completions_message (request_id : option json)
    (completions : list string) : json :=
  JObject [("type", JString "completions");
           ("request_id", default JNull request_id);
           ("completions", JArray (JString <$> completions))].

Definition design_applied_message (html : json) : json :=
  JObject [("type", JString "design_applied"); ("html", html)].

Definition handle_message (ws : WebSocket) (session_id : string)
    (message : string) : M server unit :=
  data <- lift (json_loads message) ;;
  match data with
  | JObject fields =>
      let msg_type := dict_get "type" fields in
      if json_eq_str msg_type "run_code" then
        code <- lift (dict_index "code" fields) ;;
        output <- execute session_id code ;;
        cell_id <- lift (dict_index "cell_id" fields) ;;
        send_json ws (output_message cell_id output)
      else if json_eq_str msg_type "get_completions" then
        srv <- get_state ;;
        completions <-
          (if negb (enable_autocomplete (global_settings srv)) then ret []
           else
             code <- lift (dict_index "code" fields) ;;
             line <- lift (dict_index "line" fields) ;;
             column <- lift (dict_index "column" fields) ;;
             get_completions session_id code line column) ;;
        send_json ws
          (completions_message (dict_get "request_id" fields) completions)
      else if json_eq_str msg_type "apply_design" then
        srv <- get_state ;;
        target_ws <- lift (target_websocket (dict_get "session_id" fields) srv) ;;
        match target_ws with
        | Some target =>
            html <- lift (dict_index "html" fields) ;;
            send_json target (design_applied_message html)
        | None => ret tt
        end
      else ret tt
  | _ => raise (AttributeError "object has no attribute 'get'")
  end.

(** *** [websocket_endpoint]: one connection, from accept to disconnect.
    The messages are those received before [WebSocketDisconnect]; an
    exception of a handler ends the loop without [disconnect]. *)
Fixpoint receive_loop (ws : WebSocket) (session_id : string)
    (messages : list string) : M server unit :=
  match messages with
  | [] => disconnect session_id
  | message :: rest =>
      handle_message ws session_id message ;;
      receive_loop ws session_id rest
  end.

Definition websocket_endpoint (ws : WebSocket) (session_id : string)
    (messages : list string) : M server unit :=
  connect ws session_id ;;
  receive_loop ws session_id messages.

(** *** [update_settings], the endpoint that writes the flag *)

(** [bool(v)] *)
Definition truthy (v : json) : bool :=
  match v with
  | JNull => false
  | JBool b => b
  | JInt n => negb (n =? 0)%Z
  | JFloat f => negb (PrimFloat.eqb f 0%float)
  | JString s => negb (String.eqb s "")
  | JArray items => match items with [] => false | _ => true end
  | JObject fields => match fields with [] => false | _ => true end
  end.

(** ['enable_autocomplete' in data] and, when it holds,
    [data['enable_autocomplete']]: membership is by key in a dict, by
    element in a list, by substring in a string, and undefined elsewhere;
    only a dict can be indexed by the key. *)
Definition setting_of (data : json) : result (option json) :=
  match data with
  | JObject fields => Ok (dict_get "enable_autocomplete" fields)
  | JArray items =>
      if existsb (fun v => json_eq_str (Some v) "enable_autocomplete") items
      then Raise (TypeError "list indices must be integers or slices, not str")
      else Ok None
  | JString s =>
      if (0 <? count_occurrences "enable_autocomplete" s)%nat
      then Raise (TypeError "string indices must be integers, not 'str'")
      else Ok None
  | _ => Raise (TypeError "argument is not iterable")
  end.

Definition unauthorized : nat * json :=
  (403%nat,
   JObject [("status", JString "error"); ("message", JString "Unauthorized")]).

Definition settings_response (g : settings) : nat * json :=
  (200%nat,
   JObject [("status", JString "ok");
            ("settings",
             JObject [("enable_autocomplete", JBool (enable_autocomplete g))])]).

(** The role is the [user_role] cookie, the body the text of the request;
    the result is the status and the body of the JSON response. *)
Definition update_settings (user_role : option string) (body : string)
    : M server (nat * json) :=
  if negb (match user_role with
           | Some role => String.eqb role "teacher"
           | None => false
           end)
  then ret unauthorized
  else
    data <- lift (json_loads body) ;;
    setting <- lift (setting_of data) ;;
    (match setting with
     | Some v => modify (set_global_settings (Settings (truthy v)))
     | None => ret tt
     end) ;;
    srv <- get_state ;;
    ret (settings_response (global_settings srv)).

(** *** Histories

    What happens to the process, one operation after the other: a channel
    opens, a channel closes, a message arrives on the channel of a session,
    the settings endpoint is called. *)
Inductive op : Type :=
| Connect (ws : WebSocket) (session_id : string)
| Disconnect (session_id : string)
| Message (ws : WebSocket) (session_id : string) (message : string)
| UpdateSettings (user_role : option string) (body : string).

(** The process after an operation, also when its handler raised. *)
Definition step (o : op) (srv : server) : server :=
  match o with
  | Connect ws session_id => snd (connect ws session_id srv)
  | Disconnect session_id => snd (disconnect session_id srv)
  | Message ws session_id message => snd (handle_message ws session_id message srv)
  | UpdateSettings user_role body => snd (update_settings user_role body srv)
  end.

Definition run (ops : list op) (srv : server) : server :=
  fold_left (fun s o => step o s) ops srv.



(** The operation is a call of the settings endpoint. *)
Definition is_update (o : op) : bool :=
  match o with
  | UpdateSettings _ _ => true
  | _ => false
  end.

(** The key of a lookup in the registry can be hashed. *)
Definition hashable (key : option json) : bool :=
  match key with
  | Some (JArray _) | Some (JObject _) => false
  | _ => true
  end.

(** *** Cells that keep to themselves *)

(** The machine in other surroundings. *)
Definition set_around (p : surroundings value) (m : mach) : mach :=
  Machine (session_locals m) (buf m) (open_figures m) p.

(** The computation keeps to the namespace, the buffer and the figures:
    run in other surroundings it does the same and leaves them as they
    are.  It neither looks at the rest of the process nor changes it. *)
Definition keeps_to_itself {A} (c : M mach A) : Prop :=
  forall (m : mach) (p : surroundings value),
    c (set_around p m) = (fst (c m), set_around p (snd (c m))).

(** The cell keeps to itself. *)
Definition confined (code : json) : Prop :=
  keeps_to_itself (run_redirected code).

(** The cell a message asks to run, when it asks for one. *)
Definition cell_of (message : string) : option json :=
  match json_loads message with
  | Ok (JObject fields) =>
      if json_eq_str (dict_get "type" fields) "run_code"
      then dict_get "code" fields else None
  | _ => None
  end.

Definition confined_message (message : string) : Prop :=
  forall code, cell_of message = Some code -> confined code.

(** The operation runs no cell, or a confined one. *)
Definition confined_op (o : op) : Prop :=
  match o with
  | Message _ _ message => confined_message message
  | _ => True
  end.

(** *** Two cells of one session at once

    [handle_message] hands [execute] to the executor (line 176) and the
    loop goes on with other connections while it runs: two [run_code]
    messages for one session that arrive on two connections (a second
    connection under an id shares the entry of the first) run on two
    threads, on the one namespace, with no lock between them.  Each
    thread runs the statements of its cell in order; which thread runs
    next is the scheduler's choice.  The model switches threads between
    statements only, which real threads also do within one; it follows
    the namespace, the figures and the surroundings, and leaves out what
    the two calls return.  A fault ends the thread it occurs in. *)
Inductive thread : Type :=
| FirstCell
| SecondCell.

Fixpoint overlapped (schedule : list thread) (a b : list stmt) (m : mach)
    : mach :=
  match schedule with
  | [] => m
  | FirstCell :: rest =>
      match a with
      | [] => overlapped rest a b m
      | st :: a' =>
          match exec_module [st] m with
          | (Ok _, m') => overlapped rest a' b m'
          | (Raise _, m') => overlapped rest [] b m'
          end
      end
  | SecondCell :: rest =>
      match b with
      | [] => overlapped rest a b m
      | st :: b' =>
          match exec_module [st] m with
          | (Ok _, m') => overlapped rest a b' m'
          | (Raise _, m') => overlapped rest a [] m'
          end
      end
  end.

(** The statements of a cell, one after the other, on one thread. *)
Fixpoint in_turn (body : list stmt) (m : mach) : mach :=
  match body with
  | [] => m
  | st :: rest =>
      match exec_module [st] m with
      | (Ok _, m') => in_turn rest m'
      | (Raise _, m') => m'
      end
  end.

(** The schedule that runs the first cell, then the second. *)
Definition first_then_second (a b : list stmt) : list thread :=
  (repeat FirstCell (List.length a) ++ repeat SecondCell (List.length b))%list.

(** The statements a thread runs for a cell: none when it does not
    parse. *)
Definition statements_of (code : json) : list stmt :=
  match ast_parse code with
  | Ok body => body
  | Raise _ => []
  end.

(** The process after two overlapping [execute] calls for one session. *)
Definition execute_overlapped (schedule : list thread) (session_id : string)
    (code_a code_b : json) (srv : server) : server :=
  match sessions srv !! session_id with
  | None => srv
  | Some session_env =>
      leave session_id session_env
        (overlapped schedule (statements_of code_a) (statements_of code_b)
           (enter session_id session_env srv))
        srv
  end.

(** *** Frames *)

(** The computation does not change what [proj] reads off the process,
    whether it returns or raises. *)
Definition keeps {A B : Type} (proj : server -> B) (c : M server A) : Prop :=
  forall srv, proj (snd (c srv)) = proj srv.

(** A projection that does not read the trace. *)
Definition ignores_trace {B} (proj : server -> B) : Prop :=
  forall ev srv, proj (add_event ev srv) = proj srv.

End Server.

(** ** A small runtime

    [Mini] implements [PyRuntime] for a fragment of Python: integers,
    strings, [None], [True] and [False], the two seeded modules, assignment,
    [raise] of a class, [print], [+], [/], [plt.plot()], [plt.figure()],
    [pd.DataFrame()], [import sys] with [sys.stdout.close()], and
    [import __main__] with what the module of the server holds:
    [__main__.server.sessions[id]["locals"][name]], read or assigned for
    another session, and [__main__.global_settings["enable_autocomplete"]];
    and for a fragment of JSON: everything but floats and the [u] escape.
    Source outside the fragment is refused by the parser, and what the
    fragment cannot compute raises [outside_fragment].  Traces name the
    exception without the frames, and the text of a module is without its
    file. *)
Module Mini.

(** *** JSON text *)

Definition is_space (c : ascii) : bool :=
  Ascii.eqb c " "%char || Ascii.eqb c "010"%char
  || Ascii.eqb c "013"%char || Ascii.eqb c "009"%char.

Definition is_digit (c : ascii) : bool :=
  let n := nat_of_ascii c in (48 <=? n)%nat && (n <=? 57)%nat.

Definition digit_value (c : ascii) : Z := Z.of_nat (nat_of_ascii c) - 48.

Fixpoint skip_spaces (s : string) : string :=
  match s with
  | String c rest => if is_space c then skip_spaces rest else s
  | EmptyString => s
  end.

(** The digits at the head of [s], read in base ten after [acc]. *)
Fixpoint read_digits (acc : Z) (s : string) : Z * string :=
  match s with
  | String c rest =>
      if is_digit c then read_digits (10 * acc + digit_value c) rest
      else (acc, s)
  | EmptyString => (acc, s)
  end.

(** A zero followed by a digit: not a number in JSON or in Python. *)
Definition leading_zero (s : string) : bool :=
  match s with
  | String "0" (String d _) => is_digit d
  | _ => false
  end.

(** The text of a JSON string up to the closing quote: no control
    character as it is, and after a backslash one of the escapes. *)
Fixpoint read_json_string (s : string) : option (string * string) :=
  match s with
  | EmptyString => None
  | String c rest =>
      if Ascii.eqb c "034"%char then Some (EmptyString, rest)
      else if (nat_of_ascii c <? 32)%nat then None
      else if Ascii.eqb c "\"%char then
        match rest with
        | String d rest' =>
            let ch :=
              if Ascii.eqb d "n"%char then Some "010"%char
              else if Ascii.eqb d "t"%char then Some "009"%char
              else if Ascii.eqb d "r"%char then Some "013"%char
              else if Ascii.eqb d "b"%char then Some "008"%char
              else if Ascii.eqb d "f"%char then Some "012"%char
              else if Ascii.eqb d "\"%char || Ascii.eqb d "034"%char
                      || Ascii.eqb d "/"%char then Some d
              else None in
            match ch, read_json_string rest' with
            | Some x, Some (text, after) => Some (String x text, after)
            | _, _ => None
            end
        | EmptyString => None
        end
      else
        match read_json_string rest with
        | Some (text, after) => Some (String c text, after)
        | None => None
        end
  end.

(** The text of a Python string literal up to the closing [quote], which
    is on the same line. *)
Fixpoint read_quoted (quote : ascii) (s : string) : option (string * string) :=
  match s with
  | EmptyString => None
  | String c rest =>
      if Ascii.eqb c quote then Some (EmptyString, rest)
      else if Ascii.eqb c "010"%char || Ascii.eqb c "013"%char then None
      else if Ascii.eqb c "\"%char then
        match rest with
        | String d rest' =>
            let ch :=
              if Ascii.eqb d "n"%char then Some "010"%char
              else if Ascii.eqb d "\"%char || Ascii.eqb d "034"%char
                      || Ascii.eqb d "039"%char then Some d
              else None in
            match ch, read_quoted quote rest' with
            | Some x, Some (text, after) => Some (String x text, after)
            | _, _ => None
            end
        | EmptyString => None
        end
      else
        match read_quoted quote rest with
        | Some (text, after) => Some (String c text, after)
        | None => None
        end
  end.

(** [d[key] = v] on the entries of a dict under construction. *)
Fixpoint dict_set (key : string) (v : json) (fields : list (string * json))
    : list (string * json) :=
  match fields with
  | [] => [(key, v)]
  | (k, old) :: rest =>
      if String.eqb k key then (k, v) :: rest
      else (k, old) :: dict_set key v rest
  end.

Definition strip_prefix (p s : string) : option string :=
  if String.prefix p s
  then Some (substring (String.length p) (String.length s - String.length p) s)
  else None.

Fixpoint json_value (fuel : nat) (s : string) : option (json * string) :=
  match fuel with
  | O => None
  | S fuel' =>
      let json_items :=
        fix items (n : nat) (acc : list json) (s : string)
            : option (json * string) :=
          match n with
          | O => None
          | S n' =>
              match json_value fuel' s with
              | Some (v, after) =>
                  match skip_spaces after with
                  | String "," rest => items n' (acc ++ [v])%list rest
                  | String "]" rest => Some (JArray (acc ++ [v])%list, rest)
                  | _ => None
                  end
              | None => None
              end
          end in
      let json_fields :=
        fix members (n : nat) (acc : list (string * json)) (s : string)
            : option (json * string) :=
          match n with
          | O => None
          | S n' =>
              match skip_spaces s with
              | String "034" rest =>
                  match read_json_string rest with
                  | Some (key, after) =>
                      match skip_spaces after with
                      | String ":" rest' =>
                          match json_value fuel' rest' with
                          | Some (v, after') =>
                              match skip_spaces after' with
                              | String "," rest'' =>
                                  members n' (dict_set key v acc) rest''
                              | String "}" rest'' =>
                                  Some (JObject (dict_set key v acc), rest'')
                              | _ => None
                              end
                          | None => None
                          end
                      | _ => None
                      end
                  | None => None
                  end
              | _ => None
              end
          end in
      match skip_spaces s with
      | String "034" rest =>
          match read_json_string rest with
          | Some (text, after) => Some (JString text, after)
          | None => None
          end
      | String "[" rest =>
          match skip_spaces rest with
          | String "]" rest' => Some (JArray [], rest')
          | _ => json_items fuel' [] rest
          end
      | String "{" rest =>
          match skip_spaces rest with
          | String "}" rest' => Some (JObject [], rest')
          | _ => json_fields fuel' [] rest
          end
      | String "-" (String c rest) =>
          if is_digit c then
            let '(n, after) := read_digits 0 (String c rest) in
            if leading_zero (String c rest) then None
            else Some (JInt (- n), after)
          else None
      | String c _ as s' =>
          if is_digit c then
            let '(n, after) := read_digits 0 s' in
            if leading_zero s' then None else Some (JInt n, after)
          else
            match strip_prefix "null" s', strip_prefix "true" s',
                  strip_prefix "false" s' with
            | Some after, _, _ => Some (JNull, after)
            | _, Some after, _ => Some (JBool true, after)
            | _, _, Some after => Some (JBool false, after)
            | _, _, _ => None
            end
      | EmptyString => None
      end
  end.

Definition JSONDecodeError : exn :=
  Exn "json.decoder.JSONDecodeError" true "Expecting value"
    (traceback_of "json.decoder.JSONDecodeError" "Expecting value").

Definition loads (text : string) : result json :=
  match json_value (S (String.length text)) text with
  | Some (v, after) =>
      match skip_spaces after with
      | EmptyString => Ok v
      | _ => Raise JSONDecodeError
      end
  | None => Raise JSONDecodeError
  end.

(** A JSON string literal, for messages written out in examples. *)
Definition q (s : string) : string := dquote ++ s ++ dquote.

(** *** Python source text *)

Inductive token : Type :=
| TName (x : string)
| TInt (n : Z)
| TStr (s : string)
| TOp (c : ascii)
| TNewline.

Definition is_name_start (c : ascii) : bool :=
  let n := nat_of_ascii c in
  ((65 <=? n)%nat && (n <=? 90)%nat) || ((97 <=? n)%nat && (n <=? 122)%nat)
  || (n =? 95)%nat.

Definition is_name_char (c : ascii) : bool := is_name_start c || is_digit c.

Fixpoint read_name (s : string) : string * string :=
  match s with
  | String c rest =>
      if is_name_char c
      then let '(x, after) := read_name rest in (String c x, after)
      else (EmptyString, s)
  | EmptyString => (EmptyString, s)
  end.

Definition is_operator (c : ascii) : bool :=
  existsb (Ascii.eqb c) ["="; "+"; "/"; "("; ")"; "."; ","; ";"; "["; "]"]%char.

Definition is_blank (c : ascii) : bool :=
  Ascii.eqb c " "%char || Ascii.eqb c "009"%char.

Fixpoint skip_blanks (s : string) : string :=
  match s with
  | String c rest => if is_blank c then skip_blanks rest else s
  | EmptyString => s
  end.

(** A line may start with blanks only when it holds nothing else. *)
Definition indent_ok (line : string) : bool :=
  match line with
  | String c _ =>
      if is_blank c then
        match skip_blanks line with
        | EmptyString => true
        | String d _ => Ascii.eqb d "010"%char
        end
      else true
  | EmptyString => true
  end.

Fixpoint tokens (fuel : nat) (s : string) : option (list token) :=
  match fuel with
  | O => None
  | S fuel' =>
      match s with
      | EmptyString => Some []
      | String c rest =>
          if is_blank c then tokens fuel' rest
          else if Ascii.eqb c "010"%char then
            if indent_ok rest then cons TNewline <$> tokens fuel' rest else None
          else if Ascii.eqb c "034"%char || Ascii.eqb c "039"%char then
            match read_quoted c rest with
            | Some (text, after) => cons (TStr text) <$> tokens fuel' after
            | None => None
            end
          else if is_digit c then
            let '(n, after) := read_digits 0 s in
            match after with
            | String d _ =>
                if is_name_char d || leading_zero s then None
                else cons (TInt n) <$> tokens fuel' after
            | EmptyString =>
                if leading_zero s then None else Some [TInt n]
            end
          else if is_name_start c then
            let '(x, after) := read_name s in
            cons (TName x) <$> tokens fuel' after
          else if is_operator c then cons (TOp c) <$> tokens fuel' rest
          else None
      end
  end.

(** The nodes of [ast] the fragment has: [Constant], [Name], [BinOp] with
    [Add] or [Div], [Call] of a name, [Call] of an attribute of a name,
    [Attribute], [Subscript], [Call] of an attribute of another
    expression. *)
Inductive expr : Type :=
| Num (n : Z)
| Str (s : string)
| NoneLit
| BoolLit (b : bool)
| Name (x : string)
| Add (a b : expr)
| Div (a b : expr)
| Call (f : string) (args : list expr)
| Method (obj attr : string) (args : list expr)
| Attr (e : expr) (attr : string)
| Subscript (e key : expr)
| CallAttr (e : expr) (attr : string) (args : list expr).

(** [Assign] to a name or to a subscript, [Raise] of a name, [Import] of
    a module, [Expr]. *)
Inductive stmt : Type :=
| Assign (x : string) (e : expr)
| AssignItem (obj key e : expr)
| RaiseStmt (cls : string)
| Import (name : string)
| ExprStmt (e : expr).

Definition keywords : list string :=
  ["False"; "None"; "True"; "and"; "as"; "assert"; "async"; "await";
   "break"; "class"; "continue"; "def"; "del"; "elif"; "else"; "except";
   "finally"; "for"; "from"; "global"; "if"; "import"; "in"; "is";
   "lambda"; "nonlocal"; "not"; "or"; "pass"; "raise"; "return"; "try";
   "while"; "with"; "yield"].

Definition is_keyword (x : string) : bool := existsb (String.eqb x) keywords.

(** The calls the fragment has. *)
Definition known_call (f : string) : bool := String.eqb f "print".
Definition known_attr (attr : string) : bool :=
  existsb (String.eqb attr) ["plot"; "figure"; "DataFrame"].

(** The attributes read, and the one called, after another expression. *)
Definition known_field (attr : string) : bool :=
  existsb (String.eqb attr) ["stdout"; "server"; "sessions"; "global_settings"].
Definition known_method (attr : string) : bool := String.eqb attr "close".

Fixpoint parse_expr (fuel : nat) (ts : list token) : option (expr * list token) :=
  match fuel with
  | O => None
  | S fuel' =>
      let arguments :=
        fix arguments (n : nat) (acc : list expr) (ts : list token)
            : option (list expr * list token) :=
          match n with
          | O => None
          | S n' =>
              match parse_expr fuel' ts with
              | Some (e, TOp ")" :: rest) => Some ((acc ++ [e])%list, rest)
              | Some (e, TOp "," :: TOp ")" :: rest) =>
                  Some ((acc ++ [e])%list, rest)
              | Some (e, TOp "," :: rest) => arguments n' (acc ++ [e])%list rest
              | _ => None
              end
          end in
      let call_arguments (ts : list token) :=
        match ts with
        | TOp ")" :: rest => Some ([], rest)
        | _ => arguments fuel' [] ts
        end in
      let atom (ts : list token) : option (expr * list token) :=
        match ts with
        | TInt n :: rest => Some (Num n, rest)
        | TStr s :: rest => Some (Str s, rest)
        | TOp "(" :: rest =>
            match parse_expr fuel' rest with
            | Some (e, TOp ")" :: rest') => Some (e, rest')
            | _ => None
            end
        | TName x :: TOp "." :: TName attr :: TOp "(" :: rest =>
            if is_keyword x || is_keyword attr || negb (known_attr attr) then None
            else
              match call_arguments rest with
              | Some (args, rest') => Some (Method x attr args, rest')
              | None => None
              end
        | TName f :: TOp "(" :: rest =>
            if negb (known_call f) then None
            else
              match call_arguments rest with
              | Some (args, rest') => Some (Call f args, rest')
              | None => None
              end
        | TName x :: rest =>
            if String.eqb x "None" then Some (NoneLit, rest)
            else if String.eqb x "True" then Some (BoolLit true, rest)
            else if String.eqb x "False" then Some (BoolLit false, rest)
            else if is_keyword x then None
            else Some (Name x, rest)
        | _ => None
        end in
      let trailers :=
        fix trailers (n : nat) (e : expr) (ts : list token)
            : option (expr * list token) :=
          match n, ts with
          | S n', TOp "." :: TName attr :: TOp "(" :: rest =>
              if is_keyword attr || negb (known_method attr) then None
              else
                match call_arguments rest with
                | Some (args, rest') => trailers n' (CallAttr e attr args) rest'
                | None => None
                end
          | S n', TOp "." :: TName attr :: rest =>
              if is_keyword attr || negb (known_field attr) then None
              else trailers n' (Attr e attr) rest
          | S n', TOp "[" :: rest =>
              match parse_expr fuel' rest with
              | Some (key, TOp "]" :: rest') =>
                  trailers n' (Subscript e key) rest'
              | _ => None
              end
          | _, TOp "." :: _ => None
          | _, TOp "[" :: _ => None
          | _, _ => Some (e, ts)
          end in
      let primary (ts : list token) :=
        match atom ts with
        | Some (e, rest) => trailers fuel' e rest
        | None => None
        end in
      let term_rest :=
        fix term_rest (n : nat) (lhs : expr) (ts : list token)
            : option (expr * list token) :=
          match n, ts with
          | S n', TOp "/" :: rest =>
              match primary rest with
              | Some (rhs, rest') => term_rest n' (Div lhs rhs) rest'
              | None => None
              end
          | O, TOp "/" :: _ => None
          | _, _ => Some (lhs, ts)
          end in
      let term (ts : list token) :=
        match primary ts with
        | Some (lhs, rest) => term_rest fuel' lhs rest
        | None => None
        end in
      let sum_rest :=
        fix sum_rest (n : nat) (lhs : expr) (ts : list token)
            : option (expr * list token) :=
          match n, ts with
          | S n', TOp "+" :: rest =>
              match term rest with
              | Some (rhs, rest') => sum_rest n' (Add lhs rhs) rest'
              | None => None
              end
          | O, TOp "+" :: _ => None
          | _, _ => Some (lhs, ts)
          end in
      match term ts with
      | Some (lhs, rest) => sum_rest fuel' lhs rest
      | None => None
      end
  end.

Definition parse_stmt (fuel : nat) (ts : list token) : option (stmt * list token) :=
  let expression :=
    match parse_expr fuel ts with
    | Some (Subscript obj key, TOp "=" :: rest) =>
        match parse_expr fuel rest with
        | Some (e, rest') => Some (AssignItem obj key e, rest')
        | None => None
        end
    | Some (e, rest) => Some (ExprStmt e, rest)
    | None => None
    end in
  match ts with
  | TName x :: TOp "=" :: rest =>
      if is_keyword x then None
      else
        match parse_expr fuel rest with
        | Some (e, rest') => Some (Assign x e, rest')
        | None => None
        end
  | TName x :: TName y :: rest =>
      if String.eqb x "raise" then
        if is_keyword y then None else Some (RaiseStmt y, rest)
      else if String.eqb x "import" then
        if is_keyword y then None else Some (Import y, rest)
      else expression
  | _ => expression
  end.

Fixpoint parse_stmts (fuel : nat) (ts : list token) : option (list stmt) :=
  match fuel with
  | O => None
  | S fuel' =>
      match ts with
      | [] => Some []
      | TNewline :: rest => parse_stmts fuel' rest
      | _ =>
          match parse_stmt fuel' ts with
          | Some (st, []) => Some [st]
          | Some (st, TNewline :: rest) => cons st <$> parse_stmts fuel' rest
          | Some (st, TOp ";" :: rest) => cons st <$> parse_stmts fuel' rest
          | _ => None
          end
      end
  end.

Definition SyntaxError : exn :=
  Exn "SyntaxError" true "invalid syntax (<unknown>, line 1)"
    (traceback_of "SyntaxError" "invalid syntax").

(** [ast.parse(code).body]; [ast.parse] of what is not text raises
    [TypeError]. *)
Definition parse (code : json) : result (list stmt) :=
  match code with
  | JString src =>
      if indent_ok src then
        match tokens (S (String.length src)) src with
        | Some ts =>
            match parse_stmts (S (List.length ts)) ts with
            | Some body => Ok body
            | None => Raise SyntaxError
            end
        | None => Raise SyntaxError
        end
      else Raise SyntaxError
  | _ => Raise (TypeError "expected str, bytes or AST object")
  end.

(** *** Objects *)

(** Besides the values of the fragment, the objects of the process a
    cell can get hold of: [sys.stdout], the server, its registry, the
    entry of a session, the namespace of a session, [global_settings]. *)
Inductive value : Type :=
| VInt (n : Z)
| VFloat (whole : Z)
| VStr (s : string)
| VNone
| VBool (b : bool)
| VEmptyList
| VModule (name : string)
| VBuiltin (name : string)
| VDataFrame
| VFigure (number : nat)
| VStdout
| VServer
| VSessions
| VSession (session_id : string)
| VLocals (session_id : string)
| VSettings.

(** An object of the process.  The fragment does not keep one in a name
    and does not print one. *)
Definition is_reference (v : value) : bool :=
  match v with
  | VStdout | VServer | VSessions | VSession _ | VLocals _ | VSettings => true
  | _ => false
  end.

(** An [Axes], by the number of [plot] calls made on it. *)
Definition axes : Type := nat.

Definition mach : Type := machine value axes.

Definition type_name (v : value) : string :=
  match v with
  | VInt _ => "int"
  | VFloat _ => "float"
  | VStr _ => "str"
  | VNone => "NoneType"
  | VBool _ => "bool"
  | VEmptyList => "list"
  | VModule _ => "module"
  | VBuiltin _ => "builtin_function_or_method"
  | VDataFrame => "DataFrame"
  | VFigure _ => "Figure"
  | VStdout => "_io.StringIO"
  | VServer => "NotebookServer"
  | VSessions | VSession _ | VLocals _ | VSettings => "dict"
  end.

(** [str(v)] for a value that is not an object of the process. *)
Definition str (v : value) : string :=
  match v with
  | VInt n => pretty n
  | VFloat n => pretty n ++ ".0"
  | VStr s => s
  | VNone => "None"
  | VBool b => if b then "True" else "False"
  | VStdout | VServer | VSessions | VSession _ | VLocals _ | VSettings => ""
  | VEmptyList => "[]"
  | VModule name => "<module " ++ squote ++ name ++ squote ++ ">"
  | VBuiltin name => "<built-in function " ++ name ++ ">"
  | VDataFrame => "Empty DataFrame" ++ nl ++ "Columns: []" ++ nl ++ "Index: []"
  | VFigure _ => "Figure(640x480)"
  end.

(** [DataFrame().to_html()] *)
Definition empty_table : string :=
  "<table border=" ++ q "1" ++ " class=" ++ q "dataframe" ++ ">" ++ nl
  ++ "  <thead>" ++ nl
  ++ "    <tr style=" ++ q "text-align: right;" ++ ">" ++ nl
  ++ "      <th></th>" ++ nl
  ++ "    </tr>" ++ nl
  ++ "  </thead>" ++ nl
  ++ "  <tbody>" ++ nl
  ++ "  </tbody>" ++ nl
  ++ "</table>".

Definition error (cls msg : string) : exn :=
  Exn cls true msg (traceback_of cls msg).

(** What the fragment leaves out answers with this exception. *)
Definition outside_fragment : exn :=
  error "NotImplementedError" "outside the fragment".

Definition base_only_classes : list string :=
  ["BaseException"; "SystemExit"; "KeyboardInterrupt"; "GeneratorExit"].

Definition exception_classes : list string :=
  ["Exception"; "ArithmeticError"; "AssertionError"; "AttributeError";
   "EOFError"; "ImportError"; "IndexError"; "KeyError"; "LookupError";
   "MemoryError"; "NameError"; "NotImplementedError"; "OSError";
   "OverflowError"; "RuntimeError"; "StopIteration"; "TypeError";
   "ValueError"; "ZeroDivisionError"].

(** Names [builtins] binds that the fragment does not implement. *)
Definition other_builtins : list string :=
  ["abs"; "all"; "any"; "ascii"; "bin"; "bool"; "breakpoint"; "bytearray";
   "bytes"; "callable"; "chr"; "classmethod"; "compile"; "complex";
   "copyright"; "credits"; "delattr"; "dict"; "dir"; "divmod"; "enumerate";
   "eval"; "exec"; "exit"; "filter"; "float"; "format"; "frozenset";
   "getattr"; "globals"; "hasattr"; "hash"; "help"; "hex"; "id"; "input";
   "int"; "isinstance"; "issubclass"; "iter"; "len"; "license"; "list";
   "locals"; "map"; "max"; "memoryview"; "min"; "next"; "object"; "oct";
   "open"; "ord"; "pow"; "property"; "quit"; "range"; "repr"; "reversed";
   "round"; "set"; "setattr"; "slice"; "sorted"; "staticmethod"; "str";
   "sum"; "super"; "tuple"; "type"; "vars"; "zip"; "Ellipsis";
   "NotImplemented"; "BaseExceptionGroup"; "ExceptionGroup";
   "BlockingIOError"; "BrokenPipeError"; "BufferError"; "BytesWarning";
   "ChildProcessError"; "ConnectionAbortedError"; "ConnectionError";
   "ConnectionRefusedError"; "ConnectionResetError"; "DeprecationWarning";
   "EncodingWarning"; "EnvironmentError"; "FileExistsError";
   "FileNotFoundError"; "FloatingPointError"; "FutureWarning"; "IOError";
   "ImportWarning"; "IndentationError"; "InterruptedError";
   "IsADirectoryError"; "ModuleNotFoundError"; "NotADirectoryError";
   "PendingDeprecationWarning"; "PermissionError"; "ProcessLookupError";
   "RecursionError"; "ReferenceError"; "ResourceWarning";
   "RuntimeWarning"; "StopAsyncIteration"; "SyntaxError"; "SyntaxWarning";
   "SystemError"; "TabError"; "TimeoutError"; "UnboundLocalError";
   "UnicodeDecodeError"; "UnicodeEncodeError"; "UnicodeError";
   "UnicodeTranslateError"; "UnicodeWarning"; "UserWarning"; "Warning"].

Definition mem (x : string) (l : list string) : bool := existsb (String.eqb x) l.

Definition NameError (x : string) : exn :=
  error "NameError" ("name " ++ squote ++ x ++ squote ++ " is not defined").

(** A name: the namespace first, then [builtins]. *)
Definition lookup_name (x : string) : M mach value :=
  fun m =>
    match session_locals m !! x with
    | Some v => (Ok v, m)
    | None =>
        if String.eqb x "print" then (Ok (VBuiltin "print"), m)
        else if mem x base_only_classes || mem x exception_classes
                || mem x other_builtins
        then (Raise outside_fragment, m)
        else (Raise (NameError x), m)
    end.

Definition is_number (v : value) : option Z :=
  match v with
  | VInt n | VFloat n => Some n
  | _ => None
  end.

Definition is_float (v : value) : bool :=
  match v with VFloat _ => true | _ => false end.

(** A float that is a whole number and exact. *)
Definition whole_float (n : Z) : result value :=
  if (Z.abs n <? 2 ^ 53)%Z then Ok (VFloat n) else Raise outside_fragment.

Definition operand_error (op : string) (a b : value) : exn :=
  error "TypeError"
    ("unsupported operand type(s) for " ++ op ++ ": " ++ squote ++ type_name a
       ++ squote ++ " and " ++ squote ++ type_name b ++ squote).

Definition concatenate_error (a b : value) : exn :=
  error "TypeError"
    ("can only concatenate " ++ type_name a ++ " (not " ++ q (type_name b)
       ++ ") to " ++ type_name a).

(** Arithmetic on booleans, and what can be done to an object of the
    process, is outside the fragment. *)
Definition beyond (v : value) : bool :=
  match v with
  | VBool _ => true
  | _ => is_reference v
  end.

(** [a + b] *)
Definition add (a b : value) : result value :=
  if beyond a || beyond b then Raise outside_fragment else
  match a, b with
  | VInt x, VInt y => Ok (VInt (x + y))
  | VStr x, VStr y => Ok (VStr (x ++ y))
  | VEmptyList, VEmptyList => Ok VEmptyList
  | VDataFrame, _ | _, VDataFrame => Raise outside_fragment
  | VStr _, _ | VEmptyList, _ => Raise (concatenate_error a b)
  | _, _ =>
      match is_number a, is_number b with
      | Some x, Some y => whole_float (x + y)
      | _, _ => Raise (operand_error "+" a b)
      end
  end.

(** [a / b].  A quotient that is not a whole number is outside the
    fragment: the text of such a float is not modelled. *)
Definition truediv (a b : value) : result value :=
  if beyond a || beyond b then Raise outside_fragment else
  match a, b with
  | VDataFrame, _ | _, VDataFrame => Raise outside_fragment
  | _, _ =>
      match is_number a, is_number b with
      | Some x, Some y =>
          if (y =? 0)%Z then
            Raise (error "ZeroDivisionError"
                     (if is_float a || is_float b
                      then "float division by zero" else "division by zero"))
          else if (x mod y =? 0)%Z then whole_float (x / y)
          else Raise outside_fragment
      | _, _ => Raise (operand_error "/" a b)
      end
  end.

Definition not_callable (v : value) : exn :=
  error "TypeError" (squote ++ type_name v ++ squote ++ " object is not callable").

(** [sys.stdout.write(text)], with [sys.stdout] redirected to the
    buffer. *)
Definition write_stdout (text : string) : M mach unit :=
  fun m =>
    if StringIO.closed (buf m) then (Raise closed_file, m)
    else
      (Ok tt,
       Machine (session_locals m) (StringIO.write text (buf m)) (open_figures m)
         (around m)).

(** [sys.stdout.close()] *)
Definition close_stdout : M mach unit :=
  modify (fun m =>
    Machine (session_locals m) (StringIO.close (buf m)) (open_figures m)
      (around m)).

Fixpoint join (sep : string) (l : list string) : string :=
  match l with
  | [] => ""
  | [x] => x
  | x :: rest => x ++ sep ++ join sep rest
  end.

(** [print] of its arguments *)
Definition print (args : list value) : M mach value :=
  if existsb is_reference args then raise outside_fragment
  else write_stdout (join " " (List.map str args) ++ nl) ;; ret VNone.

(** The current figure with one more [plot] on its axes, which are added
    when it has none. *)
Definition plot_on (fig : Pyplot.figure axes) : Pyplot.figure axes :=
  match Pyplot.fig_axes fig with
  | [] => Pyplot.Figure (Pyplot.number fig) [1%nat]
  | ax :: others => Pyplot.Figure (Pyplot.number fig) (S ax :: others)
  end.

(** [plt.plot()]: draws on the current figure, made when none is open. *)
Definition plt_plot : M mach value :=
  fun m =>
    let '(fig, figs) := Pyplot.gcf (open_figures m) in
    (Ok VEmptyList,
     Machine (session_locals m) (buf m) (removelast figs ++ [plot_on fig])%list
       (around m)).

Definition next_number (figs : Pyplot.registry axes) : nat :=
  S (foldr Nat.max 0%nat (List.map Pyplot.number figs)).

(** [plt.figure()]: a new blank figure, which becomes current. *)
Definition plt_figure : M mach value :=
  fun m =>
    let n := next_number (open_figures m) in
    (Ok (VFigure n),
     Machine (session_locals m) (buf m)
       (open_figures m ++ [Pyplot.Figure n []])%list (around m)).

Definition no_attribute (v : value) (attr : string) : exn :=
  error "AttributeError"
    (match v with
     | VModule name => "module " ++ squote ++ name ++ squote
     | _ => squote ++ type_name v ++ squote ++ " object"
     end ++ " has no attribute " ++ squote ++ attr ++ squote).

(** [obj.attr], as far as the fragment calls it. *)
Definition get_method (v : value) (attr : string) : result (M mach value) :=
  match v with
  | VModule name =>
      if String.eqb name "matplotlib.pyplot" then
        if String.eqb attr "plot" then Ok plt_plot
        else if String.eqb attr "figure" then Ok plt_figure
        else Raise (no_attribute v attr)
      else if String.eqb name "pandas" then
        if String.eqb attr "DataFrame" then Ok (ret VDataFrame)
        else Raise (no_attribute v attr)
      else Raise (no_attribute v attr)
  | VDataFrame | VFigure _ => Raise outside_fragment
  | _ => if is_reference v then Raise outside_fragment
         else Raise (no_attribute v attr)
  end.

(** *** The objects of the process *)

(** [obj.attr] for the attributes the fragment reads. *)
Definition get_attr (v : value) (attr : string) : result value :=
  match v with
  | VModule "sys" =>
      if String.eqb attr "stdout" then Ok VStdout else Raise outside_fragment
  | VModule "__main__" =>
      if String.eqb attr "server" then Ok VServer
      else if String.eqb attr "global_settings" then Ok VSettings
      else Raise outside_fragment
  | VServer =>
      if String.eqb attr "sessions" then Ok VSessions
      else Raise outside_fragment
  | _ => Raise outside_fragment
  end.

(** A key whose [repr] is the key between single quotes. *)
Definition plain (key : string) : bool :=
  forallb
    (fun c =>
       let n := nat_of_ascii c in
       (32 <=? n)%nat && (n <? 127)%nat && negb (n =? 39)%nat
       && negb (n =? 92)%nat)
    (list_ascii_of_string key).

Definition missing_key (key : string) : exn :=
  if plain key then KeyError key else outside_fragment.

(** [obj[key]] on the registry, an entry of another session, its
    namespace, and the settings. *)
Definition get_item (v key : value) : M mach value :=
  fun m =>
    let p := around m in
    match v, key with
    | VSessions, VStr session_id =>
        if String.eqb session_id (session_key p) then (Raise outside_fragment, m)
        else
          match other_sessions p !! session_id with
          | Some _ => (Ok (VSession session_id), m)
          | None => (Raise (missing_key session_id), m)
          end
    | VSession session_id, VStr field =>
        match other_sessions p !! session_id with
        | Some _ =>
            if String.eqb field "locals" then (Ok (VLocals session_id), m)
            else if String.eqb field "websocket" then (Raise outside_fragment, m)
            else (Raise (missing_key field), m)
        | None => (Raise outside_fragment, m)
        end
    | VLocals session_id, VStr name =>
        match other_sessions p !! session_id with
        | Some env =>
            match locals env !! name with
            | Some x => (Ok x, m)
            | None => (Raise (missing_key name), m)
            end
        | None => (Raise outside_fragment, m)
        end
    | VSettings, VStr name =>
        if String.eqb name "enable_autocomplete"
        then (Ok (VBool (enable_autocomplete (shared_settings p))), m)
        else (Raise (missing_key name), m)
    | _, _ => (Raise outside_fragment, m)
    end.

(** [obj[key] = x] on the namespace of another session, and on the flag
    of the settings with a boolean. *)
Definition set_item (v key x : value) : M mach unit :=
  fun m =>
    let p := around m in
    match v, key with
    | VLocals session_id, VStr name =>
        match other_sessions p !! session_id with
        | Some env =>
            if is_reference x then (Raise outside_fragment, m)
            else
              (Ok tt,
               Machine (session_locals m) (buf m) (open_figures m)
                 (Surroundings (session_key p)
                    (<[session_id := Session (<[name := x]> (locals env))
                                       (websocket env)]> (other_sessions p))
                    (shared_settings p)))
        | None => (Raise outside_fragment, m)
        end
    | VSettings, VStr name =>
        match x with
        | VBool b =>
            if String.eqb name "enable_autocomplete" then
              (Ok tt,
               Machine (session_locals m) (buf m) (open_figures m)
                 (Surroundings (session_key p) (other_sessions p) (Settings b)))
            else (Raise outside_fragment, m)
        | _ => (Raise outside_fragment, m)
        end
    | _, _ => (Raise outside_fragment, m)
    end.

(** *** Evaluation *)

Fixpoint eval (e : expr) : M mach value :=
  let eval_args :=
    fix eval_args (args : list expr) : M mach (list value) :=
      match args with
      | [] => ret []
      | a :: rest =>
          v <- eval a ;; vs <- eval_args rest ;; ret (v :: vs)
      end in
  match e with
  | Num n => ret (VInt n)
  | Str s => ret (VStr s)
  | NoneLit => ret VNone
  | BoolLit b => ret (VBool b)
  | Name x => lookup_name x
  | Add a b => x <- eval a ;; y <- eval b ;; lift (add x y)
  | Div a b => x <- eval a ;; y <- eval b ;; lift (truediv x y)
  | Call f args =>
      callee <- lookup_name f ;;
      vs <- eval_args args ;;
      match callee with
      | VBuiltin name =>
          if String.eqb name "print" then print vs
          else raise (not_callable callee)
      | _ => if is_reference callee then raise outside_fragment
             else raise (not_callable callee)
      end
  | Method obj attr args =>
      receiver <- lookup_name obj ;;
      method <- lift (get_method receiver attr) ;;
      vs <- eval_args args ;;
      match vs with
      | [] => method
      | _ :: _ => raise outside_fragment
      end
  | Attr e attr => receiver <- eval e ;; lift (get_attr receiver attr)
  | Subscript e key =>
      receiver <- eval e ;; k <- eval key ;; get_item receiver k
  | CallAttr e attr args =>
      receiver <- eval e ;;
      vs <- eval_args args ;;
      match receiver, vs with
      | VStdout, [] =>
          if String.eqb attr "close" then close_stdout ;; ret VNone
          else raise outside_fragment
      | _, _ => raise outside_fragment
      end
  end.

Definition bind_name (x : string) (v : value) : M mach unit :=
  if is_reference v then raise outside_fragment
  else
    modify (fun m =>
      Machine (<[x := v]> (session_locals m)) (buf m) (open_figures m)
        (around m)).

(** [import name] for the two modules the fragment has. *)
Definition import_module (name : string) : M mach unit :=
  if String.eqb name "sys" || String.eqb name "__main__"
  then bind_name name (VModule name)
  else raise outside_fragment.

(** [raise cls] *)
Definition raise_class (cls : string) : M mach unit :=
  fun m =>
    match session_locals m !! cls with
    | Some _ =>
        (Raise (error "TypeError" "exceptions must derive from BaseException"), m)
    | None =>
        if mem cls base_only_classes then
          (Raise (Exn cls false "" (traceback_of cls "")), m)
        else if mem cls exception_classes then (Raise (error cls ""), m)
        else if String.eqb cls "print" then
          (Raise (error "TypeError" "exceptions must derive from BaseException"), m)
        else if mem cls other_builtins then (Raise outside_fragment, m)
        else (Raise (NameError cls), m)
    end.

(** An expression, and a statement, that names no attribute and no
    subscript, and so no object of the process. *)
Fixpoint plain_expr (e : expr) : bool :=
  match e with
  | Num _ | Str _ | NoneLit | BoolLit _ | Name _ => true
  | Add a b | Div a b => plain_expr a && plain_expr b
  | Call _ args | Method _ _ args => forallb plain_expr args
  | Attr _ _ | Subscript _ _ | CallAttr _ _ _ => false
  end.

Definition plain_stmt (st : stmt) : bool :=
  match st with
  | Assign _ e | ExprStmt e => plain_expr e
  | RaiseStmt _ | Import _ => true
  | AssignItem _ _ _ => false
  end.

Definition exec_stmt (st : stmt) : M mach unit :=
  match st with
  | Assign x e => v <- eval e ;; bind_name x v
  | AssignItem obj key e =>
      v <- eval e ;; receiver <- eval obj ;; k <- eval key ;;
      set_item receiver k v
  | RaiseStmt cls => raise_class cls
  | Import name => import_module name
  | ExprStmt e => _ <- eval e ;; ret tt
  end.

Fixpoint exec_stmts (body : list stmt) : M mach unit :=
  match body with
  | [] => ret tt
  | st :: rest => exec_stmt st ;; exec_stmts rest
  end.

(** [exec] and [eval] bind [__builtins__] in the globals they are given. *)
Definition add_builtins : M mach unit :=
  modify (fun m =>
    match session_locals m !! "__builtins__" with
    | Some _ => m
    | None =>
        Machine (<["__builtins__" := VModule "builtins"]> (session_locals m))
                (buf m) (open_figures m) (around m)
    end).

Definition exec_module (body : list stmt) : M mach unit :=
  add_builtins ;; exec_stmts body.

Definition exec_source (code : json) : M mach unit :=
  match parse code with
  | Ok body => exec_module body
  | Raise e => raise e
  end.

Definition eval_expression (e : expr) : M mach value :=
  add_builtins ;; eval e.

Definition Expr_value (st : stmt) : option expr :=
  match st with
  | ExprStmt e => Some e
  | _ => None
  end.

Definition is_DataFrame (v : value) : bool :=
  match v with VDataFrame => true | _ => false end.

Definition is_None (v : value) : bool :=
  match v with VNone => true | _ => false end.

(** [str(result)] *)
Definition py_str (v : value) : M mach string :=
  if is_reference v then raise outside_fragment else ret (str v).

(** *** The renderer and the completion library *)

(** The PNG signature, then the figure's number and its count of axes. *)
Definition savefig_png (fig : Pyplot.figure axes) : result (list byte) :=
  let small (n : nat) := default x00 (Byte.of_nat (n mod 256)) in
  Ok [x89; x50; x4e; x47; x0d; x0a; x1a; x0a;
      small (Pyplot.number fig); small (List.length (Pyplot.fig_axes fig))].

(** The names of the namespace that start with the text before the
    cursor, for a cursor on the first line. *)
Definition jedi_complete (code : json) (ns : gmap string value)
    (line column : json) : result (list string) :=
  match code, line, column with
  | JString src, JInt 1, JInt col =>
      if ((0 <=? col) && (col <=? Z.of_nat (String.length src)))%Z then
        let typed := substring 0 (Z.to_nat col) src in
        Ok (List.filter (String.prefix typed) (fst <$> map_to_list ns))
      else Raise (error "ValueError" "`column` parameter is not in a valid range")
  | JString _, _, _ =>
      Raise (error "ValueError" "`line` parameter is not in a valid range")
  | _, _, _ => Raise (error "TypeError" "expected str")
  end.

#[export] Instance runtime : PyRuntime.
Proof.
  refine (Build_PyRuntime value stmt expr axes
            (VModule "matplotlib.pyplot") (VModule "pandas")
            loads parse Expr_value exec_module exec_source eval_expression
            is_DataFrame is_None (fun _ => ret empty_table) py_str
            savefig_png jedi_complete _).
  intros code body m H. unfold exec_source. rewrite H. reflexivity.
Defined.

End Mini.

(** ** Concrete processes and messages *)

Module Examples.

Import Mini.

Definition rt : PyRuntime := Mini.runtime.

(** One session, ["alice"], connected on websocket 7. *)
Definition started : @server rt := step (Connect 7 "alice") initial_server.

Definition alice_env : session_of Mini.value :=
  Session {[ "plt" := VModule "matplotlib.pyplot"; "pd" := VModule "pandas" ]} 7.

(** The JSON text of an object with the given members. *)
Fixpoint members (fields : list (string * string)) : string :=
  match fields with
  | [] => ""
  | [(k, v)] => q k ++ ":" ++ v
  | (k, v) :: rest => q k ++ ":" ++ v ++ "," ++ members rest
  end.

Definition object (fields : list (string * string)) : string :=
  "{" ++ members fields ++ "}".

Definition run_code_message (cell_id : string) (code : string) : string :=
  object [("type", q "run_code"); ("cell_id", q cell_id); ("code", q code)].

Definition get_completions_message (code : string) (column : string) : string :=
  object [("type", q "get_completions"); ("request_id", "3"); ("code", q code);
          ("line", "0"); ("column", column)].

Definition apply_design_message (session_id : string) : string :=
  object [("type", q "apply_design"); ("session_id", q session_id);
          ("html", q "<b>new look</b>")].

Definition ping_message : string := object [("type", q "ping")].

(** The body of a request that sets the flag. *)
Definition flag_body (flag : string) : string :=
  object [("enable_autocomplete", flag)].

(** The teacher turns the flag off. *)
Definition autocomplete_off : @server rt :=
  step (UpdateSettings (Some "teacher") (flag_body "false")) started.

(** The flag is turned off, then on; a message of an unknown kind and a
    second connection follow. *)
Definition reenabled : @server rt :=
  run [Message 7 "alice" ping_message; Connect 8 "carol"]
    (step (UpdateSettings (Some "teacher") (flag_body "true")) autocomplete_off).

(** [print("a"); 1/0] *)
Definition print_then_fault : json :=
  JString ("print(" ++ q "a" ++ "); 1/0").

Definition zero_division : exn :=
  Mini.error "ZeroDivisionError" "division by zero".

(** What [raise SystemExit] raises. *)
Definition system_exit : exn :=
  Exn "SystemExit" false "" (traceback_of "SystemExit" "").

(** The process around a cell of ["alice"] in [started]: no other
    session, the flag on. *)
Definition alice_alone : surroundings Mini.value :=
  Surroundings "alice" ∅ (Settings true).

(** The machine a cell of ["alice"] starts on in [started]. *)
Definition alice_machine : Mini.mach := enter "alice" alice_env started.

(** Her namespace once a cell ran in it. *)
Definition with_builtins : gmap string Mini.value :=
  <["__builtins__" := VModule "builtins"]> (locals alice_env).


(** The machine at the fault of [print("a"); 1/0]. *)
Definition at_fault : Mini.mach :=
  Machine with_builtins (StringIO.write ("a" ++ nl) StringIO.new) []
    alice_alone.

(** What the cell [plt.plot()] shows: the text of its value, the empty
    list, and the image of the figure. *)
Definition plot_fragment : string := "[]" ++ img_tag "iVBORw0KGgoBAQ==".

(** A cell that plots and then opens a second, blank figure. *)
Definition plot_then_new_figure : json := JString "plt.plot(); fig = plt.figure()".

(** The figures open after it: the plot, and the blank current figure. *)
Definition plot_and_blank : Pyplot.registry Mini.axes :=
  [Pyplot.Figure 1 [1%nat]; Pyplot.Figure 2 []].

(** A cell that plots on two figures. *)
Definition two_plots : json := JString "plt.plot(); plt.figure(); plt.plot()".

(** The machine after the cell [plt.plot()], before the figure step. *)
Definition after_plot : Mini.mach :=
  Machine with_builtins (StringIO.write "[]" StringIO.new)
    [Pyplot.Figure 1 [1%nat]] alice_alone.

End Examples.

(** ** The HTTP endpoints beside the notebook

    The endpoints of [server.py] that read or write what the notebook
    server uses, and the parts of the others that compute: the settings
    endpoints, [save_file], the comma lists of [get_teacher_info] and
    [get_student_assignments] with the query the latter builds, and the
    grade update of [grade_submission].  The database and the file system
    are not modelled: what is read from them is an argument, what is done
    to them an event or a result. *)

(** [pat in s] for two strings. *)
Definition contains (pat s : string) : bool :=
  match pat with
  | EmptyString => true
  | _ => (0 <? count_occurrences pat s)%nat
  end.

(** [sep.join(l)] *)
Fixpoint str_join (sep : string) (l : list string) : string :=
  match l with
  | [] => ""
  | [x] => x
  | x :: rest => x ++ sep ++ str_join sep rest
  end.

(** [d[key] = v] *)
Fixpoint dict_setitem (key : string) (v : json) (fields : list (string * json))
    : list (string * json) :=
  match fields with
  | [] => [(key, v)]
  | (k, old) :: rest =>
      if String.eqb k key then (k, v) :: rest
      else (k, old) :: dict_setitem key v rest
  end.

Section Endpoints.
Context `{rt : PyRuntime}.



(** *** [get_settings] (lines 619-624) *)

(** [if not user_role]: the cookie is absent or empty. *)
Definition get_settings (user_role : option string) : M server (nat * json) :=
  match user_role with
  | None | Some EmptyString => ret unauthorized
  | Some _ =>
      srv <- get_state ;;
      ret (200%nat,
           JObject [("enable_autocomplete",
                     JBool (enable_autocomplete (global_settings srv)))])
  end.

(** A call of the settings endpoint with the teacher's role. *)
Definition is_teacher_update (o : op) : bool :=
  match o with
  | UpdateSettings (Some role) _ => String.eqb role "teacher"
  | _ => false
  end.

End Endpoints.

(** *** [save_file] (lines 760-774) *)

(** What the endpoint does to the file system, in order: [open(name, "w")]
    creates or empties the file, [f.write(text)] fills it, and leaving the
    [with] block closes it. *)
Inductive file_event : Type :=
| FileOpen (name : string)
| FileWrite (text : string)
| FileClose.

Section SaveFile.
Context `{rt : PyRuntime}.

(** [os.path.isabs] on text, which depends on the platform; whether
    [open(name, "w")] fails on a name, and [f.write] on a text, which
    depend on the file system and on the encoding. *)
Variable isabs : string -> bool.
Variable open_fails : string -> option exn.
Variable write_fails : string -> option exn.

(** [".." in filename or os.path.isabs(filename)]: membership is by
    substring in text, by element in a list, by key in a dict, and
    undefined elsewhere; [isabs] takes text only. *)
Definition refused_name (filename : option json) : result bool :=
  match filename with
  | Some (JString name) => Ok (contains ".." name || isabs name)
  | Some (JArray items) =>
      if existsb (fun v => json_eq_str (Some v) "..") items then Ok true
      else Raise (TypeError "expected str, bytes or os.PathLike object, not list")
  | Some (JObject fields) =>
      match dict_get ".." fields with
      | Some _ => Ok true
      | None =>
          Raise (TypeError "expected str, bytes or os.PathLike object, not dict")
      end
  | _ => Raise (TypeError "argument is not iterable")
  end.

Definition only_teachers : nat * json :=
  (403%nat,
   JObject [("status", JString "error");
            ("message", JString "Only teachers can save local files.")]).

Definition invalid_filename : nat * json :=
  (400%nat,
   JObject [("status", JString "error"); ("message", JString "Invalid filename")]).

Definition saved (name : string) : nat * json :=
  (200%nat,
   JObject [("status", JString "ok");
            ("message", JString ("File " ++ squote ++ name ++ squote ++ " saved."))]).

Definition file_emit (ev : file_event) : M (list file_event) unit :=
  modify (fun log => (log ++ [ev])%list).

(** The state is the log of what was done to the file system. *)
Definition save_file (user_role : option string) (body : string)
    : M (list file_event) (nat * json) :=
  if negb (match user_role with
           | Some role => String.eqb role "admin" || String.eqb role "teacher"
           | None => false
           end)
  then ret only_teachers
  else
    data <- lift (json_loads body) ;;
    match data with
    | JObject fields =>
        let filename := dict_get "filename" fields in
        let content := dict_get "content" fields in
        refused <- lift (refused_name filename) ;;
        if refused : bool then ret invalid_filename
        else
          match filename with
          | Some (JString name) =>
              match open_fails name with
              | Some e => raise e
              | None =>
                  file_emit (FileOpen name) ;;
                  match content with
                  | Some (JString text) =>
                      match write_fails text with
                      | Some e => file_emit FileClose ;; raise e
                      | None =>
                          file_emit (FileWrite text) ;;
                          file_emit FileClose ;;
                          ret (saved name)
                      end
                  | _ =>
                      file_emit FileClose ;;
                      raise (TypeError "write() argument must be str")
                  end
              end
          | _ => raise (TypeError "expected str, bytes or os.PathLike object")
          end
    | _ => raise (AttributeError "object has no attribute 'get'")
    end.

(** The names opened in a log. *)
Definition opened (log : list file_event) : list string :=
  omap (fun ev => match ev with FileOpen name => Some name | _ => None end) log.

End SaveFile.

(** *** Comma lists (lines 503-506 and 648-649) *)

(** The characters [str.strip()] removes, read in UTF-8: the ASCII ones, *)
Definition is_ascii_space (c : ascii) : bool :=
  let n := nat_of_ascii c in
  ((9 <=? n)%nat && (n <=? 13)%nat) || ((28 <=? n)%nat && (n <=? 32)%nat).

(** U+0085 and U+00A0, *)
Definition two_byte_space (c d : ascii) : bool :=
  (nat_of_ascii c =? 194)%nat
  && ((nat_of_ascii d =? 133)%nat || (nat_of_ascii d =? 160)%nat).

(** and U+1680, U+2000 to U+200A, U+2028, U+2029, U+202F, U+205F, U+3000. *)
Definition three_byte_space (c d e : ascii) : bool :=
  let '(x, y, z) := (nat_of_ascii c, nat_of_ascii d, nat_of_ascii e) in
  ((x =? 225) && (y =? 154) && (z =? 128))%nat
  || ((x =? 226)%nat && (y =? 128)%nat
      && (((128 <=? z)%nat && (z <=? 138)%nat)
          || (z =? 168)%nat || (z =? 169)%nat || (z =? 175)%nat))
  || ((x =? 226) && (y =? 129) && (z =? 159))%nat
  || ((x =? 227) && (y =? 128) && (z =? 128))%nat.

(** Stripping from one end.  [two] and [three] tell whether the bytes
    met from that end, in the order they are met, make a removed character
    of two or of three bytes. *)
Section Stripping.

Variable two : ascii -> ascii -> bool.
Variable three : ascii -> ascii -> ascii -> bool.

(** The text starts with a character that [strip] removes. *)
Definition starts_removed (s : string) : bool :=
  match s with
  | String x rest =>
      is_ascii_space x
      || match rest with
         | String y rest1 =>
             two x y
             || match rest1 with
                | String z _ => three x y z
                | EmptyString => false
                end
         | EmptyString => false
         end
  | EmptyString => false
  end.

(** The text without the removed characters it starts with. *)
Fixpoint strip_front (s : string) : string :=
  match s with
  | String x rest =>
      if is_ascii_space x then strip_front rest
      else
        match rest with
        | String y rest1 =>
            if two x y then strip_front rest1
            else
              match rest1 with
              | String z rest2 =>
                  if three x y z then strip_front rest2 else s
              | EmptyString => s
              end
        | EmptyString => s
        end
  | EmptyString => s
  end.

End Stripping.

Definition starts_space : string -> bool :=
  starts_removed two_byte_space three_byte_space.

(** [s.lstrip()] *)
Definition lstrip : string -> string :=
  strip_front two_byte_space three_byte_space.

(** From the end of the text the bytes of a character are met last byte
    first. *)
Definition two_byte_space_rev (d c : ascii) : bool := two_byte_space c d.

Definition three_byte_space_rev (e d c : ascii) : bool := three_byte_space c d e.

Definition ends_space (s : string) : bool :=
  starts_removed two_byte_space_rev three_byte_space_rev (String.rev s).

(** [s.rstrip()] *)
Definition rstrip (s : string) : string :=
  String.rev
    (strip_front two_byte_space_rev three_byte_space_rev (String.rev s)).

(** [s.strip()] *)
Definition py_strip (s : string) : string := rstrip (lstrip s).

(** [s.split(',')] *)
Fixpoint split_comma (s : string) : list string :=
  match s with
  | EmptyString => [""]
  | String c rest =>
      if Ascii.eqb c ","%char then "" :: split_comma rest
      else
        match split_comma rest with
        | x :: others => String c x :: others
        | [] => [String c ""]
        end
  end.

(** [[s.strip() for s in field.split(',')] if field else []], for a
    column that holds text or [NULL]. *)
Definition comma_list (field : option string) : list string :=
  match field with
  | None | Some EmptyString => []
  | Some s => List.map py_strip (split_comma s)
  end.

(** *** The query of [get_student_assignments] (lines 648-667) *)

(** A parameter bound to a [?]. *)
Inductive sql_value : Type :=
| SqlInt (n : Z)
| SqlText (s : string).

(** [','.join('?' for _ in l)] *)
Definition placeholders {A} (l : list A) : string :=
  str_join "," (List.map (fun _ => "?") l).

Definition assignments_query (semester_placeholders subject_placeholders : string)
    : string :=
  nl ++ "        SELECT a.id, a.title, u.username as teacher_name" ++ nl
  ++ "        FROM assignments a" ++ nl
  ++ "        JOIN users u ON a.teacher_id = u.id" ++ nl
  ++ "        WHERE a.id NOT IN (" ++ nl
  ++ "            SELECT s.assignment_id FROM submissions s WHERE s.student_id = ?"
  ++ nl
  ++ "        ) AND a.semester IN (" ++ semester_placeholders
  ++ ") AND a.subject IN (" ++ subject_placeholders ++ ")" ++ nl
  ++ "    ".

(** What the endpoint sends to the database for the row of the student:
    nothing, and it answers with the empty list, when either list is
    empty; the query and its parameters otherwise.  [user_id] is
    [int(user_id)], which line 643 has computed. *)
Definition student_assignments_query (user_id : Z)
    (semesters subjects : option string) : option (string * list sql_value) :=
  let student_semesters := comma_list semesters in
  let student_subjects := comma_list subjects in
  match student_semesters, student_subjects with
  | [], _ | _, [] => None
  | _, _ =>
      Some (assignments_query (placeholders student_semesters)
              (placeholders student_subjects),
            (SqlInt user_id :: List.map SqlText student_semesters
               ++ List.map SqlText student_subjects)%list)
  end.

(** *** The grade update of [grade_submission] (lines 586-599) *)

Section Grading.

(** Python's [==] and subscript on decoded values. *)
Variable py_eq : json -> json -> bool.
Variable py_getitem : json -> json -> result json.

(** [data.get(key)] as a value: [None] when the key is missing. *)
Definition or_none (v : option json) : json := default JNull v.

(** Line 587. *)
Definition score_of (questions question_index status : json) : result json :=
  if json_eq_str (Some status) "correct" then
    match py_getitem questions question_index with
    | Ok question => py_getitem question (JString "marks")
    | Raise e => Raise e
    end
  else Ok (JInt 0).

(** Lines 591-596: the first grade of the question gets the status and
    the score; the result tells whether there was one. *)
Fixpoint update_first (grades : list json) (question_index status score : json)
    : result (list json * bool) :=
  match grades with
  | [] => Ok ([], false)
  | JObject grade :: rest =>
      if py_eq (or_none (dict_get "question_index" grade)) question_index then
        Ok (JObject (dict_setitem "score" score
                       (dict_setitem "status" status grade)) :: rest, true)
      else
        match update_first rest question_index status score with
        | Ok (rest', found) => Ok (JObject grade :: rest', found)
        | Raise e => Raise e
        end
  | _ :: _ => Raise (AttributeError "object has no attribute 'get'")
  end.

Definition new_grade (question_index status score : json) : json :=
  JObject [("question_index", question_index); ("status", status);
           ("score", score)].

(** Lines 586-599, from the decoded grades and questions to the grades
    that are stored. *)
Definition grade_update (grades questions question_index status : json)
    : result json :=
  match score_of questions question_index status with
  | Raise e => Raise e
  | Ok score =>
      match grades with
      | JArray items =>
          match update_first items question_index status score with
          | Ok (items', true) => Ok (JArray items')
          | Ok (items', false) =>
              Ok (JArray (items' ++ [new_grade question_index status score])%list)
          | Raise e => Raise e
          end
      | JObject [] | JString EmptyString =>
          Raise (AttributeError "object has no attribute 'append'")
      | JObject _ | JString _ =>
          Raise (AttributeError "object has no attribute 'get'")
      | _ => Raise (TypeError "object is not iterable")
      end
  end.

(** The loop goes past the grade: it is an object, of another question. *)
Definition passed_over (question_index : json) (g : json) : bool :=
  match g with
  | JObject grade =>
      negb (py_eq (or_none (dict_get "question_index" grade)) question_index)
  | _ => false
  end.

End Grading.

(** ** More concrete requests *)

Module Scenarios.

Import Mini.

(** A [run_code] message without its [cell_id]. *)
Definition run_without_cell_id : string :=
  Examples.object [("type", q "run_code"); ("code", q "x = 5")].

(** [print("a"); plt.plot()] *)
Definition print_then_plot : json :=
  JString ("print(" ++ q "a" ++ "); plt.plot()").

(** The machine after it, before the figure step. *)
Definition after_print_and_plot : Mini.mach :=
  Machine Examples.with_builtins
    (StringIO.write "[]" (StringIO.write ("a" ++ nl) StringIO.new))
    [Pyplot.Figure 1 [1%nat]] Examples.alice_alone.

(** The machine after the [print], and after the [plt.plot()] that
    follows it, before its value is written. *)
Definition after_print : Mini.mach :=
  Machine Examples.with_builtins (StringIO.write ("a" ++ nl) StringIO.new) []
    Examples.alice_alone.

Definition after_print_plotted : Mini.mach :=
  Machine Examples.with_builtins (StringIO.write ("a" ++ nl) StringIO.new)
    [Pyplot.Figure 1 [1%nat]] Examples.alice_alone.

(** What ["carol"] sends on her connection: a cell, then a design for
    ["alice"]. *)
Definition carol_messages : list string :=
  [Examples.run_code_message "c1" "x = 1"; Examples.apply_design_message "alice"].

(** A request that sets the flag to the text [false]. *)
Definition flag_as_text : string := Examples.flag_body (q "false").

(** What happens after it: a message of an unknown kind, and a student
    who calls the settings endpoint. *)
Definition later_ops : list op :=
  [Message 7 "alice" Examples.ping_message;
   UpdateSettings (Some "student") (Examples.flag_body "false")].

(** [os.path.isabs] of [posixpath]. *)
Definition posix_isabs (name : string) : bool := String.prefix "/" name.

(** A file system on which nothing fails. *)
Definition no_fault (text : string) : option exn := None.

(** A request to save that has no [content], and one that has. *)
Definition save_without_content : string :=
  Examples.object [("filename", q "notes.txt")].

Definition save_notes : string :=
  Examples.object [("filename", q "notes.txt"); ("content", q "x = 1")].

(** Python's [==] and subscript, on what the examples hold: [None],
    booleans, integers and text are compared, a boolean counting as 0 or
    1; a list is indexed by an integer, from the end when it is negative,
    and an object by a text. *)
Definition small_eq (a b : json) : bool :=
  match a, b with
  | JNull, JNull => true
  | JInt m, JInt n => (m =? n)%Z
  | JBool x, JInt n => (Z.b2z x =? n)%Z
  | JInt m, JBool y => (m =? Z.b2z y)%Z
  | JBool x, JBool y => Bool.eqb x y
  | JString s, JString t => String.eqb s t
  | _, _ => false
  end.

Definition small_getitem (container key : json) : result json :=
  match container, key with
  | JArray items, JInt n =>
      let len := Z.of_nat (List.length items) in
      let i := (if n <? 0 then len + n else n)%Z in
      match (if (0 <=? i)%Z then nth_error items (Z.to_nat i) else None) with
      | Some v => Ok v
      | None => Raise (error "IndexError" "list index out of range")
      end
  | JObject fields, JString key => dict_index key fields
  | _, _ => Raise (TypeError "indices must be integers or slices")
  end.

Definition grade (question_index : Z) (status : string) (score : Z) : json :=
  new_grade (JInt question_index) (JString status) (JInt score).

(** Two questions of five and three marks, and the grades of a
    submission: the first answer wrong, the second not yet right. *)
Definition two_questions : json :=
  JArray [JObject [("marks", JInt 5)]; JObject [("marks", JInt 3)]].

Definition first_grades : list json := [grade 0 "wrong" 0; grade 1 "wrong" 0].

(** A design for ["alice"] without its [html], and one whose
    [session_id] is a list. *)
Definition design_without_html : string :=
  Examples.object [("type", q "apply_design"); ("session_id", q "alice")].

Definition design_for_a_list : string :=
  Examples.object [("type", q "apply_design"); ("session_id", "[1]");
                   ("html", q "<b>new look</b>")].




Definition turn_flag_off : json :=
  JString
    "import __main__; __main__.global_settings['enable_autocomplete'] = False".

(** A cell that closes the redirected [sys.stdout] and then faults. *)
Definition close_then_fault : json :=
  JString "import sys; sys.stdout.close(); 1/0".

(** A cell that prints the opening of an image tag and plots. *)
Definition print_tag_and_plot : json :=
  JString ("print('<img src=" ++ dquote ++ "data:image/png;base64," ++ dquote
             ++ ">'); plt.plot()").




End Scenarios.

(** ** Facts about the buffer and the monad *)

Lemma append_cons (c : ascii) (s t : string) :
  String c s ++ t = String c (s ++ t).
Proof. reflexivity. Qed.

Lemma append_empty_l (t : string) : "" ++ t = t.
Proof. reflexivity. Qed.

Lemma append_empty_r (s : string) : s ++ "" = s.
Proof.
  induction s as [|c s IH]; [reflexivity |].
  now rewrite append_cons, IH.
Qed.

Lemma append_assoc (s t u : string) : (s ++ t) ++ u = s ++ t ++ u.
Proof.
  induction s as [|c s IH]; [reflexivity |].
  now rewrite !append_cons, IH.
Qed.

Lemma substring_zero_length (n : nat) (s : string) : substring n 0 s = "".
Proof.
  revert n. induction s as [|c s IH]; intros [|n]; simpl; try reflexivity.
  apply IH.
Qed.

Lemma substring_whole (s : string) : substring 0 (String.length s) s = s.
Proof. induction s as [|c s IH]; simpl; [reflexivity | now rewrite IH]. Qed.

(** Writing to a buffer whose position is at its end appends. *)
Lemma write_at_end (s : string) (b : StringIO.t) :
  StringIO.at_end b ->
  StringIO.getvalue (StringIO.write s b) = StringIO.value b ++ s.
Proof.
  intros [_ Hend]. destruct s as [|c s]; [now rewrite append_empty_r |].
  unfold StringIO.write, StringIO.getvalue.
  cbn [StringIO.value StringIO.pos]. rewrite Hend.
  generalize (String c s). clear c s. intros s.
  rewrite Nat.sub_diag. change (StringIO.zeros 0) with "".
  rewrite append_empty_r, substring_whole.
  replace (String.length (StringIO.value b)
           - (String.length (StringIO.value b) + String.length s))%nat
    with 0%nat by lia.
  now rewrite substring_zero_length, append_empty_r.
Qed.

(** After [truncate(0)] and [seek(0)], a write leaves its text alone. *)
Lemma write_after_reset (s : string) (b : StringIO.t) :
  StringIO.getvalue
    (StringIO.write s (StringIO.seek 0 (StringIO.truncate 0 b))) = s.
Proof.
  destruct s as [|c s]; [apply (substring_zero_length 0) |].
  unfold StringIO.write, StringIO.seek, StringIO.truncate, StringIO.getvalue.
  cbn [StringIO.value StringIO.pos].
  generalize (String c s). clear c s. intros s.
  rewrite (substring_zero_length 0 (StringIO.value b)).
  change (String.length "") with 0%nat. change (StringIO.zeros (0 - 0)) with "".
  rewrite !append_empty_l. change (String.length "") with 0%nat.
  replace (0 - (0 + String.length s))%nat with 0%nat by lia.
  now rewrite substring_zero_length, append_empty_r.
Qed.

(** [html.escape] and [base64.b64encode] on known texts. *)
Example escape_markup :
  escape ("<a href=" ++ dquote ++ "x" ++ dquote ++ ">Tom & Jerry's</a>")
    = "&lt;a href=&quot;x&quot;&gt;Tom &amp; Jerry&#x27;s&lt;/a&gt;".
Proof. reflexivity. Qed.

Example b64encode_vectors :
  b64encode [x4d; x61; x6e] = "TWFu"
  /\ b64encode [x4d; x61] = "TWE="
  /\ b64encode [x4d] = "TQ=="
  /\ b64encode [x89; x50; x4e; x47; x0d; x0a; x1a; x0a] = "iVBORw0KGgo=".
Proof. repeat split; reflexivity. Qed.

(** A write in the middle of a buffer goes over what is there; a write
    past the end pads, unless the text is empty. *)
Example write_overwrites :
  StringIO.getvalue (StringIO.write "XY" (StringIO.Make "abcdef" 2 false))
    = "abXYef"
  /\ StringIO.getvalue (StringIO.write "XY" (StringIO.Make "ab" 4 false))
     = "ab" ++ StringIO.zeros 2 ++ "XY"
  /\ StringIO.write "" (StringIO.Make "ab" 4 false) = StringIO.Make "ab" 4 false.
Proof. repeat split; reflexivity. Qed.

Ltac run_monad :=
  unfold bind, ret, lift, raise, get_state, modify, emit, send_json; simpl.

Lemma json_eq_str_true (v : option json) (lit : string) :
  v = Some (JString lit) -> json_eq_str v lit = true.
Proof. intros ->. simpl. apply String.eqb_refl. Qed.

Lemma json_eq_str_false (v : option json) (lit : string) :
  v <> Some (JString lit) -> json_eq_str v lit = false.
Proof.
  intros Hne. destruct v as [[| | | |s| |]|]; simpl; try reflexivity.
  destruct (String.eqb_spec s lit) as [->|]; [now destruct Hne | reflexivity].
Qed.

Lemma json_eq_str_other (v : option json) (lit lit' : string) :
  v = Some (JString lit) -> lit <> lit' -> json_eq_str v lit' = false.
Proof. intros -> Hne. simpl. now apply String.eqb_neq. Qed.

(** ** Unknown sessions *)

(** C3: for a session id that is not in the registry, [execute] returns the
    fixed session-expired fragment, without raising, [get_completions]
    returns the empty list, and both leave the process as it was: the
    registry gains no entry. *)
Theorem unknown_session_reports_expiry `{rt : PyRuntime}
    (srv : server) (session_id : string) (code line column : json) :
  sessions srv !! session_id = None ->
  execute session_id code srv = (Ok session_expired, srv)
  /\ get_completions session_id code line column srv = (Ok [], srv).
Proof.
  intros Hnone. split.
  - unfold execute. now rewrite Hnone.
  - unfold get_completions, bind, get_state. now rewrite Hnone.
Qed.

(** The session ["bob"] never connected to [Examples.started]. *)
Lemma unknown_session_reports_expiry_witness :
  execute "bob" (JString "pl") Examples.started
    = (Ok session_expired, Examples.started)
  /\ get_completions "bob" (JString "pl") (JInt 0) (JInt 2) Examples.started
    = (Ok [], Examples.started).
Proof.
  apply (unknown_session_reports_expiry (rt := Examples.rt)).
  reflexivity.
Defined.

(** ** The router *)

(** What the router does with a decoded [apply_design] message. *)
Lemma handle_apply_design `{rt : PyRuntime}
    (ws : WebSocket) (session_id message : string)
    (fields : list (string * json)) (srv : server) :
  json_loads message = Ok (JObject fields) ->
  dict_get "type" fields = Some (JString "apply_design") ->
  handle_message ws session_id message srv
    = (target_ws <- lift (target_websocket (dict_get "session_id" fields) srv) ;;
       match target_ws with
       | Some target =>
           html <- lift (dict_index "html" fields) ;;
           send_json target (design_applied_message html)
       | None => ret tt
       end) srv.
Proof.
  intros Hloads Htype. unfold handle_message. run_monad. rewrite Hloads.
  rewrite (json_eq_str_other _ _ "run_code" Htype) by discriminate.
  rewrite (json_eq_str_other _ _ "get_completions" Htype) by discriminate.
  now rewrite (json_eq_str_true _ _ Htype).
Qed.

Lemma apply_design_sent `{rt : PyRuntime}
    (ws : WebSocket) (session_id message : string)
    (fields : list (string * json)) (srv : server)
    (target : string) (env : session) (html : json) :
  json_loads message = Ok (JObject fields) ->
  dict_get "type" fields = Some (JString "apply_design") ->
  dict_get "session_id" fields = Some (JString target) ->
  sessions srv !! target = Some env ->
  dict_get "html" fields = Some html ->
  handle_message ws session_id message srv
    = (Ok tt,
       add_event (SendJson (websocket env) (design_applied_message html)) srv).
Proof.
  intros Hloads Htype Hid Henv Hhtml.
  rewrite (handle_apply_design _ _ _ _ _ Hloads Htype). run_monad.
  unfold target_websocket, dict_index. now rewrite Hid, Henv, Hhtml.
Qed.

(** What the router does with a decoded [run_code] message. *)
Lemma handle_run_code `{rt : PyRuntime}
    (ws : WebSocket) (session_id message : string)
    (fields : list (string * json)) (srv : server) :
  json_loads message = Ok (JObject fields) ->
  dict_get "type" fields = Some (JString "run_code") ->
  handle_message ws session_id message srv
    = (code <- lift (dict_index "code" fields) ;;
       output <- execute session_id code ;;
       cell_id <- lift (dict_index "cell_id" fields) ;;
       send_json ws (output_message cell_id output)) srv.
Proof.
  intros Hloads Htype. unfold handle_message. unfold bind at 1. unfold lift at 1.
  now rewrite Hloads, (json_eq_str_true _ _ Htype).
Qed.

Lemma json_eq_str_inv (v : option json) (lit : string) :
  json_eq_str v lit = true -> v = Some (JString lit).
Proof.
  destruct v as [[| | | |s| |]|]; simpl; try discriminate.
  intros Heq. apply String.eqb_eq in Heq. now subst.
Qed.

(** C10: a message that decodes to a JSON object whose [type] member is
    absent or is none of [run_code], [get_completions] and [apply_design]
    is handled by doing nothing: the handler returns without raising, and
    the process (trace of sent messages, registry with its namespaces,
    flag, figures) is as before. *)
Theorem unknown_type_is_ignored `{rt : PyRuntime}
    (ws : WebSocket) (session_id message : string)
    (fields : list (string * json)) (srv : server) :
  json_loads message = Ok (JObject fields) ->
  dict_get "type" fields <> Some (JString "run_code") ->
  dict_get "type" fields <> Some (JString "get_completions") ->
  dict_get "type" fields <> Some (JString "apply_design") ->
  handle_message ws session_id message srv = (Ok tt, srv).
Proof.
  intros Hloads Hrun Hcompl Hdesign.
  unfold handle_message. run_monad. rewrite Hloads.
  now rewrite (json_eq_str_false _ _ Hrun), (json_eq_str_false _ _ Hcompl),
    (json_eq_str_false _ _ Hdesign).
Qed.

Lemma unknown_type_is_ignored_witness :
  handle_message 7 "alice" Examples.ping_message Examples.started
    = (Ok tt, Examples.started).
Proof.
  apply (unknown_type_is_ignored (rt := Examples.rt) 7 "alice"
           Examples.ping_message [("type", JString "ping")]);
    [reflexivity | discriminate | discriminate | discriminate].
Defined.

(** C6, as the code has it: an [apply_design] message whose [session_id]
    names a registered session, which always holds a channel, and which
    has an [html] member makes the router send exactly one message to
    that channel, of type [design_applied] with the [html] as it came;
    without the [html] member the router raises [KeyError] and sends
    nothing.  When the [session_id] names no registered session (it is a
    string that is not registered, or a number, a boolean, [null], or
    absent) nothing is sent, nothing is kept for later, and the handler
    returns without raising.  A [session_id] that is an array or an
    object cannot be looked up: the router raises [TypeError]. *)
Theorem apply_design_delivers_or_drops `{rt : PyRuntime}
    (ws : WebSocket) (session_id message : string)
    (fields : list (string * json)) (srv : server) :
  json_loads message = Ok (JObject fields) ->
  dict_get "type" fields = Some (JString "apply_design") ->
  (forall target env,
     dict_get "session_id" fields = Some (JString target) ->
     sessions srv !! target = Some env ->
     (forall html,
        dict_get "html" fields = Some html ->
        handle_message ws session_id message srv
          = (Ok tt,
             add_event
               (SendJson (websocket env)
                  (JObject [("type", JString "design_applied"); ("html", html)]))
               srv))
     /\ (dict_get "html" fields = None ->
         handle_message ws session_id message srv
           = (Raise (KeyError "html"), srv)))
  /\ (hashable (dict_get "session_id" fields) = true ->
      (forall target,
         dict_get "session_id" fields = Some (JString target) ->
         sessions srv !! target = None) ->
      handle_message ws session_id message srv = (Ok tt, srv))
  /\ (hashable (dict_get "session_id" fields) = false ->
      exists e,
        handle_message ws session_id message srv = (Raise e, srv)
        /\ exn_class e = "TypeError").
Proof.
  intros Hloads Htype. split; [| split].
  - intros target env Hid Henv. split.
    + intros html Hhtml.
      now apply (apply_design_sent ws session_id message fields srv target env
                   html).
    + intros Hhtml. rewrite (handle_apply_design _ _ _ _ _ Hloads Htype).
      run_monad. unfold target_websocket, dict_index.
      now rewrite Hid, Henv, Hhtml.
  - intros Hhash Hnone.
    rewrite (handle_apply_design _ _ _ _ _ Hloads Htype). run_monad.
    unfold target_websocket.
    destruct (dict_get "session_id" fields) as [[| | | |target| |]|] eqn:Hid;
      try reflexivity; try discriminate.
    now rewrite (Hnone target eq_refl).
  - intros Hhash. rewrite (handle_apply_design _ _ _ _ _ Hloads Htype).
    run_monad. unfold target_websocket.
    destruct (dict_get "session_id" fields) as [[| | | |target| |]|];
      try discriminate; eexists; split; reflexivity.
Qed.

(** A design for ["alice"] reaches her channel, websocket 7, from whoever
    sends it; a design for ["bob"], who is not connected, is dropped. *)
Lemma apply_design_delivers_or_drops_witness :
  handle_message 9 "teacher" (Examples.apply_design_message "alice")
      Examples.started
    = (Ok tt,
       add_event
         (SendJson 7
            (JObject [("type", JString "design_applied");
                      ("html", JString "<b>new look</b>")]))
         Examples.started)
  /\ handle_message 9 "teacher" (Examples.apply_design_message "bob")
      Examples.started
    = (Ok tt, Examples.started).
Proof.
  split.
  - apply (proj1 (proj1 (apply_design_delivers_or_drops (rt := Examples.rt)
                    9 "teacher" (Examples.apply_design_message "alice")
                    [("type", JString "apply_design");
                     ("session_id", JString "alice");
                     ("html", JString "<b>new look</b>")]
                    Examples.started eq_refl eq_refl)
             "alice" Examples.alice_env eq_refl eq_refl)
             (JString "<b>new look</b>")).
    reflexivity.
  - apply (proj1 (proj2 (apply_design_delivers_or_drops (rt := Examples.rt)
                    9 "teacher" (Examples.apply_design_message "bob")
                    [("type", JString "apply_design");
                     ("session_id", JString "bob");
                     ("html", JString "<b>new look</b>")]
                    Examples.started eq_refl eq_refl))).
    + reflexivity.
    + intros target [= <-]. reflexivity.
Defined.

(** C6 as stated fails: a design for ["alice"], who is connected, that
    has no [html] is not delivered and is not dropped in silence either,
    the handler raises [KeyError]; and a design whose [session_id] is a
    list raises [TypeError]. *)
Lemma apply_design_without_payload_raises :
  sessions Examples.started !! "alice" = Some Examples.alice_env
  /\ handle_message 9 "teacher" Scenarios.design_without_html Examples.started
     = (Raise (KeyError "html"), Examples.started)
  /\ handle_message 9 "teacher" Scenarios.design_for_a_list Examples.started
     = (Raise (TypeError "unhashable type: 'list'"), Examples.started).
Proof. repeat split; reflexivity. Qed.

(** C9: a channel that connects with a session id already in the registry
    changes nothing but the trace: the registry, hence the session's
    namespace and its stored channel, is as before, the new channel is not
    recorded, and an [apply_design] for that id that arrives afterwards is
    sent to the channel stored at the first connect. *)
Theorem reconnect_keeps_stored_channel `{rt : PyRuntime}
    (srv : server) (session_id : string) (env : session) (ws_new : WebSocket) :
  sessions srv !! session_id = Some env ->
  connect ws_new session_id srv
    = (Ok tt,
       add_event (Print ("Client connected: " ++ session_id))
         (add_event (Accept ws_new) srv))
  /\ sessions (step (Connect ws_new session_id) srv) = sessions srv
  /\ (forall ws sender message fields html,
        json_loads message = Ok (JObject fields) ->
        dict_get "type" fields = Some (JString "apply_design") ->
        dict_get "session_id" fields = Some (JString session_id) ->
        dict_get "html" fields = Some html ->
        handle_message ws sender message (step (Connect ws_new session_id) srv)
          = (Ok tt,
             add_event (SendJson (websocket env) (design_applied_message html))
               (step (Connect ws_new session_id) srv))).
Proof.
  intros Henv.
  assert (Hconnect : connect ws_new session_id srv
            = (Ok tt,
               add_event (Print ("Client connected: " ++ session_id))
                 (add_event (Accept ws_new) srv))).
  { unfold connect. run_monad. now rewrite Henv. }
  split; [exact Hconnect |].
  unfold step. rewrite Hconnect. cbn [snd]. split; [reflexivity |].
  intros ws sender message fields html Hloads Htype Hid Hhtml.
  now apply (apply_design_sent ws sender message fields _ session_id env html).
Qed.

(** A second channel, websocket 8, connects as ["alice"]; a design for
    ["alice"] still goes to websocket 7. *)
Lemma reconnect_keeps_stored_channel_witness :
  sessions (step (Connect 8 "alice") Examples.started)
    = sessions Examples.started
  /\ handle_message 9 "teacher" (Examples.apply_design_message "alice")
      (step (Connect 8 "alice") Examples.started)
    = (Ok tt,
       add_event
         (SendJson 7 (design_applied_message (JString "<b>new look</b>")))
         (step (Connect 8 "alice") Examples.started)).
Proof.
  pose proof (reconnect_keeps_stored_channel (rt := Examples.rt)
                Examples.started "alice" Examples.alice_env 8 eq_refl)
    as (_ & Hsame & Hsend).
  split; [exact Hsame |].
  apply (Hsend 9 "teacher" (Examples.apply_design_message "alice")
           [("type", JString "apply_design"); ("session_id", JString "alice");
            ("html", JString "<b>new look</b>")]);
    reflexivity.
Defined.

(** ** What the operations leave alone *)

Section Frames.
Context `{rt : PyRuntime}.

Lemma keeps_ret {A B} (proj : server -> B) (a : A) : keeps proj (ret a).
Proof. intros srv. reflexivity. Qed.

Lemma keeps_raise {A B} (proj : server -> B) (e : exn) :
  keeps proj (raise (A := A) e).
Proof. intros srv. reflexivity. Qed.

Lemma keeps_lift {A B} (proj : server -> B) (r : result A) : keeps proj (lift r).
Proof. intros srv. reflexivity. Qed.

Lemma keeps_get_state {B} (proj : server -> B) : keeps proj get_state.
Proof. intros srv. reflexivity. Qed.

Lemma keeps_bind {A A' B} (proj : server -> B) (c : M server A)
    (k : A -> M server A') :
  keeps proj c -> (forall a, keeps proj (k a)) -> keeps proj (bind c k).
Proof.
  intros Hc Hk srv. unfold bind. specialize (Hc srv).
  destruct (c srv) as [[a|e] srv'] eqn:Hrun; simpl in *.
  - now rewrite Hk.
  - exact Hc.
Qed.

Lemma keeps_try {A B} (proj : server -> B) (c : M server A)
    (handler : exn -> M server A) :
  keeps proj c -> (forall e, keeps proj (handler e)) ->
  keeps proj (try_except_Exception c handler).
Proof.
  intros Hc Hh srv. unfold try_except_Exception. specialize (Hc srv).
  destruct (c srv) as [[a|e] srv'] eqn:Hrun; simpl in *; [exact Hc |].
  destruct (exn_is_Exception e); simpl; [now rewrite Hh | exact Hc].
Qed.

Lemma keeps_emit {B} (proj : server -> B) (ev : event) :
  ignores_trace proj -> keeps proj (emit ev).
Proof. intros Hproj srv. apply Hproj. Qed.

Lemma keeps_get_completions {B} (proj : server -> B)
    (session_id : string) (code line column : json) :
  ignores_trace proj ->
  keeps proj (get_completions session_id code line column).
Proof.
  intros Hproj. unfold get_completions.
  apply keeps_bind; [apply keeps_get_state |]. intros srv.
  destruct (locals <$> sessions srv !! session_id) as [ns|];
    [| apply keeps_ret].
  destruct (decide (size ns = 0)); [apply keeps_ret |].
  apply keeps_try.
  - apply keeps_bind; [now apply keeps_emit |]. intros _.
    apply keeps_bind; [apply keeps_lift |]. intros line1. apply keeps_lift.
  - intros e. apply keeps_bind; [now apply keeps_emit |]. intros _.
    apply keeps_ret.
Qed.

(** A message that asks for no cell, or for none it names, has none. *)
Lemma cell_of_run_code (message : string) (fields : list (string * json)) :
  json_loads message = Ok (JObject fields) ->
  dict_get "type" fields = Some (JString "run_code") ->
  cell_of message = dict_get "code" fields.
Proof.
  intros Hloads Htype. unfold cell_of.
  now rewrite Hloads, (json_eq_str_true _ _ Htype).
Qed.


(** The router keeps what [execute] keeps for the cell of the message,
    the trace apart. *)
Lemma keeps_handle_message {B} (proj : server -> B)
    (ws : WebSocket) (session_id message : string) :
  ignores_trace proj ->
  (forall code,
     cell_of message = Some code -> keeps proj (execute session_id code)) ->
  keeps proj (handle_message ws session_id message).
Proof.
  intros Hproj Hexec srv.
  destruct (json_loads message) as [data|e] eqn:Hloads.
  2:{ unfold handle_message, bind, lift. now rewrite Hloads. }
  destruct data as [| | | | | |fields];
    try (unfold handle_message, bind, lift; now rewrite Hloads).
  destruct (json_eq_str (dict_get "type" fields) "run_code") eqn:Htype.
  { apply json_eq_str_inv in Htype.
    rewrite (handle_run_code _ _ _ _ _ Hloads Htype).
    pose proof (cell_of_run_code _ _ Hloads Htype) as Hcell.
    unfold dict_index.
    destruct (dict_get "code" fields) as [code|]; [| reflexivity].
    unfold bind at 1. unfold lift at 1.
    apply keeps_bind; [now apply Hexec |]. intros output.
    apply keeps_bind; [apply keeps_lift |]. intros cell_id.
    now apply keeps_emit. }
  unfold handle_message. unfold bind at 1. unfold lift at 1.
  rewrite Hloads, Htype.
  destruct (json_eq_str (dict_get "type" fields) "get_completions").
  { apply keeps_bind; [apply keeps_get_state |]. intros srv0.
    apply keeps_bind; [| intros names; now apply keeps_emit].
    destruct (negb (enable_autocomplete (global_settings srv0)));
      [apply keeps_ret |].
    apply keeps_bind; [apply keeps_lift |]. intros code.
    apply keeps_bind; [apply keeps_lift |]. intros line.
    apply keeps_bind; [apply keeps_lift |]. intros column.
    now apply keeps_get_completions. }
  destruct (json_eq_str (dict_get "type" fields) "apply_design");
    [| apply keeps_ret].
  apply keeps_bind; [apply keeps_get_state |]. intros srv0.
  apply keeps_bind; [apply keeps_lift |]. intros [target|]; [| apply keeps_ret].
  apply keeps_bind; [apply keeps_lift |]. intros html. now apply keeps_emit.
Qed.


Lemma execute_keeps_trace (session_id : string) (code : json) :
  keeps trace (execute session_id code).
Proof.
  intros srv. unfold execute.
  destruct (sessions srv !! session_id) as [env|]; [| reflexivity].
  now destruct (run_redirected code (enter session_id env srv)) as [[u|e] m].
Qed.

(** *** Confined cells *)

Lemma set_around_same (m : mach) : set_around (around m) m = m.
Proof. now destruct m. Qed.

Lemma confined_keeps_around (code : json) (m : mach) :
  confined code -> around (snd (run_redirected code m)) = around m.
Proof.
  intros Hcode. specialize (Hcode m (around m)).
  rewrite set_around_same in Hcode. now rewrite Hcode.
Qed.

Lemma kti_ret {A} (a : A) : keeps_to_itself (ret a).
Proof. intros m p. reflexivity. Qed.

Lemma kti_raise {A} (e : exn) : keeps_to_itself (raise (A := A) e).
Proof. intros m p. reflexivity. Qed.

Lemma kti_lift {A} (r : result A) : keeps_to_itself (lift r).
Proof. intros m p. reflexivity. Qed.

Lemma kti_bind {A B} (c : M mach A) (k : A -> M mach B) :
  keeps_to_itself c -> (forall a, keeps_to_itself (k a)) ->
  keeps_to_itself (bind c k).
Proof.
  intros Hc Hk m p. unfold bind. rewrite Hc.
  destruct (c m) as [[a|e] m']; cbn [fst snd]; [apply Hk | reflexivity].
Qed.

Lemma kti_try {A} (c : M mach A) (handler : exn -> M mach A) :
  keeps_to_itself c -> (forall e, keeps_to_itself (handler e)) ->
  keeps_to_itself (try_except_Exception c handler).
Proof.
  intros Hc Hh m p. unfold try_except_Exception. rewrite Hc.
  destruct (c m) as [[a|e] m']; cbn [fst snd]; [reflexivity |].
  destruct (exn_is_Exception e); [apply Hh | reflexivity].
Qed.

Lemma kti_buf_update (f : StringIO.t -> StringIO.t) :
  keeps_to_itself (buf_update f).
Proof.
  intros [ns b figs p0] p. unfold buf_update, set_around. cbn.
  now destruct (StringIO.closed b).
Qed.

Lemma kti_show_figure : keeps_to_itself show_figure.
Proof.
  unfold show_figure. apply kti_bind.
  - intros [ns b figs p0] p. unfold plt_gcf, set_around. cbn.
    now destruct (Pyplot.gcf figs).
  - intros fig. destruct (Pyplot.populated fig); [| apply kti_ret].
    apply kti_bind; [apply kti_lift |]. intros png.
    apply kti_bind; [| intros _; apply kti_buf_update].
    intros m p. reflexivity.
Qed.

Lemma kti_show_error (e : exn) : keeps_to_itself (show_error e).
Proof.
  unfold show_error. apply kti_bind; [apply kti_buf_update |]. intros _.
  apply kti_bind; [apply kti_buf_update |]. intros _. apply kti_buf_update.
Qed.

Lemma kti_display (v : value) :
  keeps_to_itself (to_html v) -> keeps_to_itself (py_str v) ->
  keeps_to_itself (display v).
Proof.
  intros Hhtml Hstr. unfold display. destruct (is_DataFrame v).
  - apply kti_bind; [exact Hhtml |]. intros html. apply kti_buf_update.
  - destruct (negb (is_None v)); [| apply kti_ret].
    apply kti_bind; [exact Hstr |]. intros text. apply kti_buf_update.
Qed.

Lemma kti_bind_lift {A B} (r : result A) (k : A -> M mach B) :
  (forall a, r = Ok a -> keeps_to_itself (k a)) ->
  keeps_to_itself (bind (lift r) k).
Proof.
  intros Hk m p. unfold bind, lift.
  destruct r as [a|e]; [now apply Hk | reflexivity].
Qed.

(** A cell is confined when what the runtime runs for it is. *)
Lemma confined_by_parts (code : json) :
  (forall body,
     ast_parse code = Ok body ->
     keeps_to_itself (exec_source code)
     /\ keeps_to_itself (exec_module (removelast body))
     /\ forall node e,
          last body = Some node -> Expr_value node = Some e ->
          keeps_to_itself (eval_expression e)
          /\ forall v, keeps_to_itself (to_html v)
                       /\ keeps_to_itself (py_str v)) ->
  confined code.
Proof.
  intros Hparts. unfold confined, run_redirected.
  apply kti_try; [| apply kti_show_error].
  apply kti_bind; [| intros _; apply kti_show_figure].
  unfold run_cell. apply kti_bind_lift. intros body Hparse.
  destruct (Hparts body Hparse) as (Hsource & Hmodule & Hlast).
  destruct (last body) as [node|]; [| exact Hsource].
  destruct (Expr_value node) as [e|] eqn:Hexpr; [| exact Hsource].
  destruct (Hlast node e eq_refl Hexpr) as [Heval Hshow].
  apply kti_bind.
  - destruct (1 <? List.length body)%nat; [exact Hmodule | apply kti_ret].
  - intros _. apply kti_bind; [exact Heval |]. intros v.
    apply kti_display; apply (Hshow v).
Qed.

(** A confined cell changes no registry entry but its own, and not the
    flag. *)
Lemma execute_confined (session_id : string) (code : json) (srv : server) :
  confined code ->
  (forall other,
     other <> session_id ->
     sessions (snd (execute session_id code srv)) !! other
       = sessions srv !! other)
  /\ global_settings (snd (execute session_id code srv)) = global_settings srv.
Proof.
  intros Hcode. unfold execute.
  destruct (sessions srv !! session_id) as [env|]; [| now split].
  pose proof (confined_keeps_around code (enter session_id env srv) Hcode)
    as Haround.
  destruct (run_redirected code (enter session_id env srv)) as [[u|e] m];
    cbn [snd fst] in *; unfold leave; rewrite Haround; cbn;
    (split; [| reflexivity]); intros other Hne;
    now rewrite lookup_insert_ne, lookup_delete_ne.
Qed.

(** Only the assignment, and a cell that reaches for it, change the
    flag. *)
Lemma step_keeps_global_settings (o : op) (srv : server) :
  is_update o = false -> confined_op o ->
  global_settings (step o srv) = global_settings srv.
Proof.
  destruct o as [ws sid|sid|ws sid message|role body]; simpl;
    intros Hflag Hop; try discriminate.
  - unfold connect. run_monad. now destruct (sessions srv !! sid).
  - unfold disconnect. run_monad. now destruct (sessions srv !! sid).
  - apply (keeps_handle_message global_settings); [easy |].
    intros code Hcell srv0. now apply execute_confined, Hop.
Qed.

Lemma run_keeps_global_settings (ops : list op) (srv : server) :
  Forall (fun o => is_update o = false) ops ->
  Forall confined_op ops ->
  global_settings (run ops srv) = global_settings srv.
Proof.
  intros Hops. revert srv. induction Hops as [|o ops Ho _ IH];
    intros srv Hconf.
  - reflexivity.
  - apply Forall_cons_1 in Hconf as [Hop Hconf]. unfold run in *. simpl.
    rewrite IH by exact Hconf. now apply step_keeps_global_settings.
Qed.


(** What a teacher's request with an [enable_autocomplete] member does. *)
Lemma update_settings_assigns (body : string) (fields : list (string * json))
    (v : json) (srv : server) :
  json_loads body = Ok (JObject fields) ->
  dict_get "enable_autocomplete" fields = Some v ->
  update_settings (Some "teacher") body srv
    = (Ok (settings_response (Settings (truthy v))),
       set_global_settings (Settings (truthy v)) srv).
Proof.
  intros Hloads Hfield. unfold update_settings. run_monad.
  rewrite Hloads. simpl. now rewrite Hfield.
Qed.



End Frames.

(** ** Cells of the small runtime that keep to themselves *)

Section MiniConfinement.

Local Abbreviation runtime_value := (@value Examples.rt).
Local Abbreviation runtime_axes := (@axes Examples.rt).

Import Mini.

Local Abbreviation kti := (keeps_to_itself (rt := Examples.rt)).

(** The values and axes of the runtime are those of the interpreter. *)
Ltac on_machine :=
  intros [ns b figs p0] p; unfold set_around;
  cbn [session_locals buf open_figures around fst snd];
  change runtime_value with Mini.value in *;
  change runtime_axes with Mini.axes in *.

Lemma mini_lookup_name (x : string) : kti (lookup_name x).
Proof.
  on_machine. unfold lookup_name. cbn [session_locals].
  destruct (ns !! x); [reflexivity |].
  destruct (String.eqb x "print"); [reflexivity |].
  now destruct (mem x base_only_classes || mem x exception_classes
                || mem x other_builtins).
Qed.

Lemma mini_write_stdout (text : string) : kti (write_stdout text).
Proof.
  on_machine. unfold write_stdout. cbn [buf].
  now destruct (StringIO.closed b).
Qed.

Lemma mini_print (args : list value) : kti (print args).
Proof.
  unfold print. destruct (existsb is_reference args);
    [apply (kti_raise (rt := Examples.rt)) |].
  apply (kti_bind (rt := Examples.rt)); [apply mini_write_stdout |].
  intros _. apply (kti_ret (rt := Examples.rt)).
Qed.

Lemma mini_get_method (v : value) (attr : string) (method : M mach value) :
  get_method v attr = Ok method -> kti method.
Proof.
  unfold get_method.
  destruct v as [| | | | | |name| | | | | | | | |]; try discriminate.
  destruct (String.eqb name "matplotlib.pyplot").
  - destruct (String.eqb attr "plot").
    { intros [= <-]. on_machine. unfold plt_plot. cbn [open_figures].
      now destruct (Pyplot.gcf figs). }
    destruct (String.eqb attr "figure"); [| discriminate].
    intros [= <-]. intros m p. reflexivity.
  - destruct (String.eqb name "pandas"); [| discriminate].
    destruct (String.eqb attr "DataFrame"); [| discriminate].
    intros [= <-]. apply (kti_ret (rt := Examples.rt)).
Qed.

Lemma mini_bind_name (x : string) (v : value) : kti (bind_name x v).
Proof.
  unfold bind_name. destruct (is_reference v);
    [apply (kti_raise (rt := Examples.rt)) |].
  intros m p. reflexivity.
Qed.

Lemma mini_add_builtins : kti add_builtins.
Proof.
  on_machine. unfold add_builtins, modify. cbn [session_locals].
  now destruct (ns !! "__builtins__").
Qed.

Lemma mini_raise_class (cls : string) : kti (raise_class cls).
Proof.
  on_machine. unfold raise_class. cbn [session_locals].
  destruct (ns !! cls); [reflexivity |].
  destruct (mem cls base_only_classes); [reflexivity |].
  destruct (mem cls exception_classes); [reflexivity |].
  destruct (String.eqb cls "print"); [reflexivity |].
  now destruct (mem cls other_builtins).
Qed.

Lemma mini_import_module (name : string) : kti (import_module name).
Proof.
  unfold import_module.
  destruct (String.eqb name "sys" || String.eqb name "__main__");
    [apply mini_bind_name | apply (kti_raise (rt := Examples.rt))].
Qed.

(** Induction on expressions, with the arguments of a call. *)
Lemma expr_induction (P : expr -> Prop) :
  (forall n, P (Num n)) ->
  (forall s, P (Str s)) ->
  P NoneLit ->
  (forall b, P (BoolLit b)) ->
  (forall x, P (Name x)) ->
  (forall a b, P a -> P b -> P (Add a b)) ->
  (forall a b, P a -> P b -> P (Div a b)) ->
  (forall f args, Forall P args -> P (Call f args)) ->
  (forall obj attr args, Forall P args -> P (Method obj attr args)) ->
  (forall e attr, P e -> P (Attr e attr)) ->
  (forall e key, P e -> P key -> P (Subscript e key)) ->
  (forall e attr args, P e -> Forall P args -> P (CallAttr e attr args)) ->
  forall e, P e.
Proof.
  intros Hnum Hstr Hnone Hbool Hname Hadd Hdiv Hcall Hmethod Hattr Hsub
    Hcallattr.
  exact (fix IH (e : expr) : P e :=
           let all :=
             fix all (l : list expr) : Forall P l :=
               match l with
               | [] => @List.Forall_nil expr P
               | a :: rest => @List.Forall_cons expr P a rest (IH a) (all rest)
               end in
           match e with
           | Num n => Hnum n
           | Str s => Hstr s
           | NoneLit => Hnone
           | BoolLit b => Hbool b
           | Name x => Hname x
           | Add a b => Hadd a b (IH a) (IH b)
           | Div a b => Hdiv a b (IH a) (IH b)
           | Call f args => Hcall f args (all args)
           | Method obj attr args => Hmethod obj attr args (all args)
           | Attr e attr => Hattr e attr (IH e)
           | Subscript e key => Hsub e key (IH e) (IH key)
           | CallAttr e attr args => Hcallattr e attr args (IH e) (all args)
           end).
Qed.

Lemma mini_eval_args (args : list expr) :
  Forall (fun a => plain_expr a = true -> kti (eval a)) args ->
  forallb plain_expr args = true ->
  kti ((fix eval_args (args : list expr) : M mach (list value) :=
          match args with
          | [] => ret []
          | a :: rest =>
              v <- eval a ;; vs <- eval_args rest ;; ret (v :: vs)
          end) args).
Proof.
  induction 1 as [|a rest Ha _ IH]; intros Hplain;
    [apply (kti_ret (rt := Examples.rt)) |].
  cbn [forallb] in Hplain. apply andb_true_iff in Hplain as [Hpa Hrest].
  apply (kti_bind (rt := Examples.rt)); [now apply Ha |]. intros v.
  apply (kti_bind (rt := Examples.rt));
    [now apply IH | intros vs; apply (kti_ret (rt := Examples.rt))].
Qed.

(** A plain expression is evaluated on the namespace, the buffer and the
    figures alone. *)
Lemma mini_eval (e : expr) : plain_expr e = true -> kti (eval e).
Proof.
  induction e as [n|s| |b|x|a b IHa IHb|a b IHa IHb|f args IHargs
                  |obj attr args IHargs|e attr IHe|e key IHe IHkey
                  |e attr args IHe IHargs] using expr_induction;
    intros Hplain; cbn [plain_expr] in Hplain; try discriminate; cbn [eval].
  - apply (kti_ret (rt := Examples.rt)).
  - apply (kti_ret (rt := Examples.rt)).
  - apply (kti_ret (rt := Examples.rt)).
  - apply (kti_ret (rt := Examples.rt)).
  - apply mini_lookup_name.
  - apply andb_true_iff in Hplain as [Ha Hb].
    apply (kti_bind (rt := Examples.rt)); [now apply IHa |]. intros x.
    apply (kti_bind (rt := Examples.rt)); [now apply IHb |]. intros y.
    apply (kti_lift (rt := Examples.rt)).
  - apply andb_true_iff in Hplain as [Ha Hb].
    apply (kti_bind (rt := Examples.rt)); [now apply IHa |]. intros x.
    apply (kti_bind (rt := Examples.rt)); [now apply IHb |]. intros y.
    apply (kti_lift (rt := Examples.rt)).
  - apply (kti_bind (rt := Examples.rt)); [apply mini_lookup_name |].
    intros callee.
    apply (kti_bind (rt := Examples.rt)); [now apply mini_eval_args |].
    intros vs. destruct callee; try (destruct (is_reference _));
      try apply (kti_raise (rt := Examples.rt)).
    destruct (String.eqb name "print");
      [apply mini_print | apply (kti_raise (rt := Examples.rt))].
  - apply (kti_bind (rt := Examples.rt)); [apply mini_lookup_name |].
    intros receiver.
    apply (kti_bind_lift (rt := Examples.rt)). intros method Hmethod.
    apply (kti_bind (rt := Examples.rt)); [now apply mini_eval_args |].
    intros [|v vs]; [now apply (mini_get_method receiver attr)
                    | apply (kti_raise (rt := Examples.rt))].
Qed.

Lemma mini_exec_stmt (st : stmt) : plain_stmt st = true -> kti (exec_stmt st).
Proof.
  destruct st as [x e|obj key e|cls|name|e]; cbn [plain_stmt exec_stmt];
    intros Hplain; try discriminate.
  - apply (kti_bind (rt := Examples.rt)); [now apply mini_eval |]. intros v. apply mini_bind_name.
  - apply mini_raise_class.
  - apply mini_import_module.
  - apply (kti_bind (rt := Examples.rt)); [now apply mini_eval |]. intros _. apply (kti_ret (rt := Examples.rt)).
Qed.

Lemma mini_exec_module (body : list stmt) :
  forallb plain_stmt body = true -> kti (exec_module body).
Proof.
  intros Hplain. unfold exec_module.
  apply (kti_bind (rt := Examples.rt)); [apply mini_add_builtins |]. intros _.
  induction body as [|st rest IH]; [apply (kti_ret (rt := Examples.rt)) |].
  cbn [forallb] in Hplain. apply andb_true_iff in Hplain as [Hst Hrest].
  cbn [exec_stmts]. apply (kti_bind (rt := Examples.rt)); [now apply mini_exec_stmt |].
  intros _. now apply IH.
Qed.

Lemma forallb_removelast {A} (f : A -> bool) (l : list A) :
  forallb f l = true -> forallb f (removelast l) = true.
Proof.
  induction l as [|x [|y rest] IH]; [reflexivity | reflexivity |].
  intros Hall. cbn [forallb] in Hall. apply andb_true_iff in Hall as [Hx Hrest].
  change (removelast (x :: y :: rest)) with (x :: removelast (y :: rest)).
  cbn [forallb]. rewrite Hx. now apply IH.
Qed.

Lemma forallb_last {A} (f : A -> bool) (l : list A) (x : A) :
  forallb f l = true -> last l = Some x -> f x = true.
Proof.
  induction l as [|y [|z rest] IH]; [discriminate | |].
  - cbn. intros Hy [= <-]. now rewrite andb_true_r in Hy.
  - intros Hall. cbn [forallb] in Hall.
    apply andb_true_iff in Hall as [_ Hrest]. intros Hlast.
    apply IH; [exact Hrest | exact Hlast].
Qed.

(** A cell whose statements are plain is confined. *)
Lemma mini_plain_cell_confined (code : json) (body : list stmt) :
  parse code = Ok body ->
  forallb plain_stmt body = true ->
  confined (rt := Examples.rt) code.
Proof.
  intros Hparse Hplain. apply confined_by_parts. intros body' Hparse'.
  assert (body' = body) as -> by (change (parse code = Ok body') in Hparse';
                                  congruence).
  split; [| split].
  - change (kti (exec_source code)). unfold exec_source. rewrite Hparse.
    now apply mini_exec_module.
  - apply mini_exec_module. now apply forallb_removelast.
  - intros node e Hlast Hexpr. split.
    + change (kti (add_builtins ;; eval e)).
      apply (kti_bind (rt := Examples.rt)); [apply mini_add_builtins |]. intros _.
      apply mini_eval.
      pose proof (forallb_last _ _ _ Hplain Hlast) as Hnode.
      destruct node; try discriminate. now injection Hexpr as <-.
    + intros v. split; [apply (kti_ret (rt := Examples.rt)) |].
      change (kti (py_str v)). unfold py_str.
      destruct (is_reference v); [apply (kti_raise (rt := Examples.rt)) | apply (kti_ret (rt := Examples.rt))].
Qed.

End MiniConfinement.

(** ** The feature flag *)

(** What the router does with a decoded [get_completions] message. *)
Lemma handle_get_completions `{rt : PyRuntime}
    (ws : WebSocket) (session_id message : string)
    (fields : list (string * json)) (srv : server) :
  json_loads message = Ok (JObject fields) ->
  dict_get "type" fields = Some (JString "get_completions") ->
  handle_message ws session_id message srv
    = (completions <-
         (if negb (enable_autocomplete (global_settings srv)) then ret []
          else
            code <- lift (dict_index "code" fields) ;;
            line <- lift (dict_index "line" fields) ;;
            column <- lift (dict_index "column" fields) ;;
            get_completions session_id code line column) ;;
       send_json ws
         (completions_message (dict_get "request_id" fields) completions)) srv.
Proof.
  intros Hloads Htype. unfold handle_message. run_monad. rewrite Hloads.
  rewrite (json_eq_str_other _ _ "run_code" Htype) by discriminate.
  now rewrite (json_eq_str_true _ _ Htype).
Qed.

(** C5: the process starts with [enable_autocomplete] true.  A
    [get_completions] message handled while the flag is false is answered
    with one message of type [completions] that carries the [request_id]
    of the request and the empty list, and the trace gains that reply and
    nothing else: the completion library is not called.  Handled while
    the flag is true, the message is answered with the names
    [get_completions] returns, in a message of the same form.  The flag is
    read from the process at each request: a teacher's request that
    assigns it is in force at once, and still after any operations that
    are no such request and run no cell that reaches for the flag. *)
Theorem autocomplete_flag_gates_completions `{rt : PyRuntime} :
  enable_autocomplete (global_settings initial_server) = true
  /\ (forall ws session_id message fields srv,
        json_loads message = Ok (JObject fields) ->
        dict_get "type" fields = Some (JString "get_completions") ->
        enable_autocomplete (global_settings srv) = false ->
        handle_message ws session_id message srv
          = (Ok tt,
             add_event
               (SendJson ws
                  (JObject
                     [("type", JString "completions");
                      ("request_id",
                       default JNull (dict_get "request_id" fields));
                      ("completions", JArray [])]))
               srv))
  /\ (forall ws session_id message fields srv code line column,
        json_loads message = Ok (JObject fields) ->
        dict_get "type" fields = Some (JString "get_completions") ->
        enable_autocomplete (global_settings srv) = true ->
        dict_get "code" fields = Some code ->
        dict_get "line" fields = Some line ->
        dict_get "column" fields = Some column ->
        handle_message ws session_id message srv
          = match get_completions session_id code line column srv with
            | (Ok names, srv') =>
                (Ok tt,
                 add_event
                   (SendJson ws
                      (JObject
                         [("type", JString "completions");
                          ("request_id",
                           default JNull (dict_get "request_id" fields));
                          ("completions", JArray (JString <$> names))]))
                   srv')
            | (Raise e, srv') => (Raise e, srv')
            end)
  /\ (forall body fields v srv,
        json_loads body = Ok (JObject fields) ->
        dict_get "enable_autocomplete" fields = Some v ->
        global_settings (step (UpdateSettings (Some "teacher") body) srv)
          = Settings (truthy v)
        /\ forall ops,
             Forall (fun o => is_update o = false) ops ->
             Forall confined_op ops ->
             enable_autocomplete
               (global_settings
                  (run ops (step (UpdateSettings (Some "teacher") body) srv)))
               = truthy v).
Proof.
  split; [reflexivity |]. split; [| split].
  - intros ws session_id message fields srv Hloads Htype Hflag.
    rewrite (handle_get_completions _ _ _ _ _ Hloads Htype).
    rewrite Hflag. reflexivity.
  - intros ws session_id message fields srv code line column
      Hloads Htype Hflag Hcode Hline Hcolumn.
    rewrite (handle_get_completions _ _ _ _ _ Hloads Htype).
    rewrite Hflag. unfold dict_index. rewrite Hcode, Hline, Hcolumn.
    run_monad.
    now destruct (get_completions session_id code line column srv)
      as [[names|e] srv'].
  - intros body fields v srv Hloads Hfield.
    assert (Hnow : global_settings
                     (step (UpdateSettings (Some "teacher") body) srv)
                   = Settings (truthy v)).
    { unfold step. now rewrite (update_settings_assigns _ _ _ _ Hloads Hfield). }
    split; [exact Hnow |]. intros ops Hops Hconf.
    rewrite run_keeps_global_settings by assumption. now rewrite Hnow.
Qed.

(** With the flag off, a request for the completions of [pl] in ["alice"]
    gets the empty list and the library is not called; once the flag is
    on again, and after another message and another connection, the flag
    is on and the same request calls the library and gets [plt]. *)
Lemma autocomplete_flag_gates_completions_witness :
  handle_message 7 "alice" (Examples.get_completions_message "pl" "2")
      Examples.autocomplete_off
    = (Ok tt,
       add_event
         (SendJson 7
            (JObject [("type", JString "completions"); ("request_id", JInt 3);
                      ("completions", JArray [])]))
         Examples.autocomplete_off)
  /\ enable_autocomplete (global_settings Examples.reenabled) = true
  /\ handle_message 7 "alice" (Examples.get_completions_message "pl" "2")
       Examples.reenabled
     = (Ok tt,
        add_event
          (SendJson 7
             (JObject [("type", JString "completions"); ("request_id", JInt 3);
                       ("completions", JArray [JString "plt"])]))
          (add_event (JediInterpreter (JString "pl")) Examples.reenabled)).
Proof.
  pose proof (autocomplete_flag_gates_completions (rt := Examples.rt))
    as (_ & Hoff & Hon & Hlast).
  split; [| split].
  - apply (Hoff 7 "alice" (Examples.get_completions_message "pl" "2")
             [("type", JString "get_completions"); ("request_id", JInt 3);
              ("code", JString "pl"); ("line", JInt 0); ("column", JInt 2)]);
      reflexivity.
  - apply (proj2 (Hlast (Examples.flag_body "true")
                    [("enable_autocomplete", JBool true)] (JBool true)
                    Examples.autocomplete_off eq_refl eq_refl)).
    + repeat constructor.
    + repeat constructor. intros code Hcell.
      change (None = Some code) in Hcell. discriminate Hcell.
  - rewrite (Hon 7 "alice" (Examples.get_completions_message "pl" "2")
               [("type", JString "get_completions"); ("request_id", JInt 3);
                ("code", JString "pl"); ("line", JInt 0); ("column", JInt 2)]
               Examples.reenabled (JString "pl") (JInt 0) (JInt 2));
      reflexivity.
Defined.

(** ** The execution engine *)

Lemma execute_registered `{rt : PyRuntime}
    (srv : server) (session_id : string) (env : session) (code : json) :
  sessions srv !! session_id = Some env ->
  execute session_id code srv
    = match run_redirected code (enter session_id env srv) with
      | (Ok _, m) => (buf_getvalue (buf m), leave session_id env m srv)
      | (Raise e, m) => (Raise e, leave session_id env m srv)
      end.
Proof. intros Henv. unfold execute. now rewrite Henv. Qed.

Lemma length_snoc_gt_1 {A} (pre : list A) (x : A) :
  (1 <? List.length (pre ++ [x])%list)%nat
    = match pre with [] => false | _ => true end.
Proof.
  rewrite length_app. simpl. destruct pre; simpl; [reflexivity |].
  apply Nat.ltb_lt. lia.
Qed.

(** An operation on an open buffer is done; on a closed one it raises
    and changes nothing. *)
Lemma buf_update_open `{rt : PyRuntime} (f : StringIO.t -> StringIO.t) (m : mach) :
  StringIO.closed (buf m) = false ->
  buf_update f m
    = (Ok tt, Machine (session_locals m) (f (buf m)) (open_figures m) (around m)).
Proof. intros Hopen. unfold buf_update. now rewrite Hopen. Qed.

Lemma buf_update_closed `{rt : PyRuntime} (f : StringIO.t -> StringIO.t) (m : mach) :
  StringIO.closed (buf m) = true -> buf_update f m = (Raise closed_file, m).
Proof. intros Hclosed. unfold buf_update. now rewrite Hclosed. Qed.

Lemma write_keeps_open (s : string) (b : StringIO.t) :
  StringIO.closed (StringIO.write s b) = StringIO.closed b.
Proof. now destruct s. Qed.

(** A cell that ends in an expression: what is before it runs, the
    expression is evaluated, and its value goes to [display]. *)
Lemma run_cell_last_expression `{rt : PyRuntime}
    (code : json) (pre : list stmt) (node : stmt) (e : expr)
    (m m1 m2 : mach) (v : value) :
  ast_parse code = Ok (pre ++ [node])%list ->
  Expr_value node = Some e ->
  (match pre with [] => ret tt | _ => exec_module pre end) m = (Ok tt, m1) ->
  eval_expression e m1 = (Ok v, m2) ->
  run_cell code m = display v m2.
Proof.
  intros Hparse Hexpr Hpre Heval. unfold run_cell, bind at 1, lift.
  rewrite Hparse, last_snoc, Hexpr, length_snoc_gt_1, removelast_last.
  unfold bind.
  assert (Hpre' : (if match pre with [] => false | _ => true end
                   then exec_module pre else ret tt) m = (Ok tt, m1))
    by now destruct pre.
  now rewrite Hpre', Heval.
Qed.


(** A fault in the cell skips the figure step. *)
Lemma fault_skips_figure `{rt : PyRuntime} (code : json) (m0 m : mach) (e : exn) :
  run_cell code m0 = (Raise e, m) ->
  (run_cell code ;; show_figure) m0 = (Raise e, m).
Proof. intros Hcell. unfold bind. now rewrite Hcell. Qed.

(** On an open buffer the handler leaves the error fragment and nothing
    else in it, and touches neither the namespace, the figures nor the
    surroundings. *)
Lemma show_error_result `{rt : PyRuntime} (e : exn) (m : mach) :
  StringIO.closed (buf m) = false ->
  exists m',
    show_error e m = (Ok tt, m')
    /\ StringIO.closed (buf m') = false
    /\ StringIO.getvalue (buf m') = error_div (escape (exn_format_exc e))
    /\ session_locals m' = session_locals m
    /\ open_figures m' = open_figures m
    /\ around m' = around m.
Proof.
  intros Hopen. eexists. unfold show_error, buf_write, bind.
  rewrite (buf_update_open _ _ Hopen).
  rewrite buf_update_open by exact Hopen.
  rewrite buf_update_open by exact Hopen.
  split; [reflexivity |]. cbn [buf session_locals open_figures around].
  split; [now rewrite write_keeps_open |].
  split; [apply write_after_reset |]. now repeat split.
Qed.

(** On a closed buffer the handler raises at its first step. *)
Lemma show_error_closed `{rt : PyRuntime} (e : exn) (m : mach) :
  StringIO.closed (buf m) = true -> show_error e m = (Raise closed_file, m).
Proof.
  intros Hclosed. unfold show_error, bind.
  now rewrite (buf_update_closed _ _ Hclosed).
Qed.

(** C2, as the code has it: when parsing, running the cell, writing its
    value or encoding the figure raises an exception that derives from
    [Exception], and the cell has not closed the buffer its output is
    redirected to, [execute] returns one fragment, the escaped trace in an
    error [div], whatever was in the buffer at the fault; the namespace
    and the figures are as the fault left them, so no step after the fault
    ran.  When the cell has closed the buffer, the handler raises
    [ValueError] at its first step and [execute] raises it.  An exception
    that derives from [BaseException] only is not handled: [execute]
    raises it. *)
Theorem fault_becomes_error_fragment `{rt : PyRuntime}
    (srv : server) (session_id : string) (env : session) (code : json)
    (e : exn) (m : mach) :
  sessions srv !! session_id = Some env ->
  run_cell code (enter session_id env srv) = (Raise e, m)
  \/ (exists m1, run_cell code (enter session_id env srv) = (Ok tt, m1)
                 /\ show_figure m1 = (Raise e, m)) ->
  (exn_is_Exception e = true -> StringIO.closed (buf m) = false ->
   execute session_id code srv
     = (Ok ("<div class=" ++ dquote ++ "error" ++ dquote ++ ">"
              ++ escape (exn_format_exc e) ++ "</div>"),
        leave session_id env m srv))
  /\ (exn_is_Exception e = true -> StringIO.closed (buf m) = true ->
      execute session_id code srv
        = (Raise closed_file, leave session_id env m srv))
  /\ (exn_is_Exception e = false ->
      execute session_id code srv = (Raise e, leave session_id env m srv)).
Proof.
  intros Henv Hfault.
  assert (Hbody : (run_cell code ;; show_figure) (enter session_id env srv)
                  = (Raise e, m)).
  { destruct Hfault as [Hcell | (m1 & Hcell & Hfig)].
    - now apply fault_skips_figure.
    - unfold bind. now rewrite Hcell. }
  rewrite (execute_registered _ _ _ _ Henv).
  unfold run_redirected, try_except_Exception. rewrite Hbody.
  split; [| split].
  - intros -> Hopen.
    destruct (show_error_result e m Hopen)
      as (m' & -> & Hopen' & Hvalue & Hlocals & Hfigs & Haround).
    unfold leave, buf_getvalue. now rewrite Hopen', Hvalue, Hlocals, Hfigs, Haround.
  - intros -> Hclosed. now rewrite (show_error_closed e m Hclosed).
  - intros ->. reflexivity.
Qed.

(** [print("a"); 1/0] in ["alice"]: the fragment is the trace of the
    division by zero; the [a] printed before the fault is not in it. *)
Lemma fault_becomes_error_fragment_witness :
  fst (execute "alice" Examples.print_then_fault Examples.started)
    = Ok (error_div (escape (exn_format_exc Examples.zero_division))).
Proof.
  rewrite (proj1 (fault_becomes_error_fragment (rt := Examples.rt)
                    Examples.started "alice" Examples.alice_env
                    Examples.print_then_fault Examples.zero_division
                    Examples.at_fault eq_refl (or_introl eq_refl))
             eq_refl eq_refl).
  reflexivity.
Defined.

(** C2 as stated fails: [raise SystemExit] in a registered session raises
    during execution, and [execute] returns no fragment: it raises.  So
    does a cell that closes [sys.stdout] and then divides by zero: the
    handler cannot empty the closed buffer. *)
Lemma system_exit_escapes_execute :
  sessions Examples.started !! "alice" = Some Examples.alice_env
  /\ fst (run_cell (rt := Examples.rt) (JString "raise SystemExit")
            Examples.alice_machine)
     = Raise Examples.system_exit
  /\ fst (execute "alice" (JString "raise SystemExit") Examples.started)
     = Raise Examples.system_exit
  /\ fst (run_cell (rt := Examples.rt) Scenarios.close_then_fault
            Examples.alice_machine)
     = Raise Examples.zero_division
  /\ fst (execute "alice" Scenarios.close_then_fault Examples.started)
     = Raise closed_file.
Proof. repeat split; reflexivity. Qed.

(** ** Counting image tags *)

Lemma occurs_app (c : ascii) (s t : string) :
  occurs c (s ++ t) = occurs c s || occurs c t.
Proof.
  induction s as [|d s IH]; [reflexivity |].
  rewrite append_cons. simpl. rewrite IH. now rewrite orb_assoc.
Qed.

Lemma prefix_empty (t : string) : String.prefix "" t = true.
Proof. now destruct t. Qed.

Lemma prefix_app_self (p t : string) : String.prefix p (p ++ t) = true.
Proof.
  induction p as [|c p IH]; [apply prefix_empty |].
  rewrite append_cons. simpl. now destruct (ascii_dec c c).
Qed.

(** A pattern without [c] that starts before a [c] does not run over it. *)
Lemma prefix_stops_before (p : string) (c : ascii) (a t : string) :
  occurs c p = false ->
  String.prefix p (a ++ String c t) = String.prefix p a.
Proof.
  revert a. induction p as [|d p IH]; intros a Hp;
    [now rewrite !prefix_empty |].
  simpl in Hp. apply orb_false_elim in Hp as [Hcd Hp].
  destruct a as [|x a].
  - rewrite append_empty_l. simpl. destruct (ascii_dec d c) as [->|]; [| reflexivity].
    now rewrite Ascii.eqb_refl in Hcd.
  - rewrite append_cons. simpl. destruct (ascii_dec d x); [now apply IH | reflexivity].
Qed.

Lemma count_occurrences_app (c : ascii) (p a t : string) :
  occurs c p = false ->
  count_occurrences (String c p) (a ++ String c t)
    = (count_occurrences (String c p) a
       + count_occurrences (String c p) (String c t))%nat.
Proof.
  intros Hp. set (tail := count_occurrences (String c p) (String c t)).
  induction a as [|x a IH]; [reflexivity |].
  rewrite append_cons. cbn [count_occurrences]. rewrite IH.
  replace (String.prefix (String c p) (String x (a ++ String c t)))
    with (String.prefix (String c p) (String x a)); [lia |].
  simpl. destruct (ascii_dec c x); [| reflexivity].
  symmetry. now apply prefix_stops_before.
Qed.

Lemma count_occurrences_absent (c : ascii) (p s : string) :
  occurs c s = false -> count_occurrences (String c p) s = 0%nat.
Proof.
  induction s as [|d s IH]; [reflexivity |]. simpl. intros Hs.
  apply orb_false_elim in Hs as [Hcd Hs]. rewrite (IH Hs).
  destruct (ascii_dec c d) as [->|]; [| reflexivity].
  now rewrite Ascii.eqb_refl in Hcd.
Qed.

Lemma b64_digit_not_lt (n : N) : Ascii.eqb "<" (b64_digit n) = false.
Proof.
  unfold b64_digit. generalize (N.to_nat (n mod 64)). intros k.
  do 64 (destruct k as [|k]; [reflexivity |]). reflexivity.
Qed.

Lemma b64encode_no_lt (data : list byte) : occurs "<" (b64encode data) = false.
Proof.
  assert (H : forall n data, (List.length data <= n)%nat ->
                             occurs "<" (b64encode data) = false).
  { clear data. induction n as [|n IH]; intros data Hlen.
    - destruct data; [reflexivity | simpl in Hlen; lia].
    - destruct data as [|a [|b [|c rest]]]; cbn [b64encode occurs];
        rewrite ?b64_digit_not_lt; try reflexivity.
      simpl. apply IH. simpl in Hlen. lia. }
  now apply (H (List.length data)).
Qed.

(** Appending an image tag adds one image tag. *)
Lemma image_tags_app_img_tag (output b64 : string) :
  occurs "<" b64 = false ->
  image_tags (output ++ img_tag b64) = S (image_tags output).
Proof.
  intros Hb64. unfold image_tags.
  set (p := "img src=" ++ dquote ++ "data:image/png;base64,").
  assert (Hp : occurs "<" p = false) by reflexivity.
  assert (Htag : img_tag b64
                 = String "<" ((p ++ b64 ++ dquote ++ ">") ++ String "<" "br>")).
  { rewrite !append_assoc. reflexivity. }
  rewrite Htag. change img_open with (String "<" p).
  rewrite (count_occurrences_app "<" p output _ Hp).
  cbn [count_occurrences].
  replace (String.prefix (String "<" p)
             (String "<" ((p ++ b64 ++ dquote ++ ">") ++ String "<" "br>")))
    with true.
  2:{ simpl. rewrite append_assoc. now rewrite prefix_app_self. }
  rewrite (count_occurrences_app "<" p _ "br>" Hp).
  rewrite (count_occurrences_absent "<" p (p ++ b64 ++ dquote ++ ">")).
  2:{ rewrite !occurs_app, Hp, Hb64. reflexivity. }
  change (count_occurrences (String "<" p) "<br>") with 0%nat. lia.
Qed.

(** ** The figure step *)

Lemma close_removes {axes : Type} (fig : Pyplot.figure axes)
    (figs : Pyplot.registry axes) :
  Forall (fun g => Pyplot.number g <> Pyplot.number fig) (Pyplot.close fig figs).
Proof.
  unfold Pyplot.close. induction figs as [|g figs IH]; simpl; [constructor |].
  destruct (Nat.eqb_spec (Pyplot.number g) (Pyplot.number fig)); simpl;
    [exact IH | now constructor].
Qed.

Lemma length_append (s t : string) :
  String.length (s ++ t) = (String.length s + String.length t)%nat.
Proof.
  induction s as [|c s IH]; [reflexivity |].
  rewrite append_cons. simpl. now rewrite IH.
Qed.

(** A write at the end leaves the position at the end. *)
Lemma write_keeps_at_end (s : string) (b : StringIO.t) :
  StringIO.at_end b -> StringIO.at_end (StringIO.write s b).
Proof.
  intros Hend. pose proof (write_at_end s b Hend) as Hvalue.
  destruct Hend as [Hopen Hend]. split; [now rewrite write_keeps_open |].
  unfold StringIO.getvalue in Hvalue. rewrite Hvalue, length_append.
  destruct s as [|c s]; [simpl; lia |].
  unfold StringIO.write. cbn [StringIO.pos]. now rewrite Hend.
Qed.

(** What [execute] returns when the cell ran and its value was written. *)
Lemma execute_after_cell `{rt : PyRuntime}
    (srv : server) (session_id : string) (env : session) (code : json)
    (m1 : mach) :
  sessions srv !! session_id = Some env ->
  run_cell code (enter session_id env srv) = (Ok tt, m1) ->
  execute session_id code srv
    = match try_except_Exception show_figure show_error m1 with
      | (Ok _, m) => (buf_getvalue (buf m), leave session_id env m srv)
      | (Raise e, m) => (Raise e, leave session_id env m srv)
      end.
Proof.
  intros Henv Hcell. rewrite (execute_registered _ _ _ _ Henv).
  unfold run_redirected, try_except_Exception, bind. now rewrite Hcell.
Qed.

Lemma figure_step `{rt : PyRuntime}
    (srv : server) (session_id : string) (env : session) (code : json)
    (m1 : mach) :
  sessions srv !! session_id = Some env ->
  run_cell code (enter session_id env srv) = (Ok tt, m1) ->
  StringIO.closed (buf m1) = false ->
  let fig := fst (Pyplot.gcf (open_figures m1)) in
  let figs := snd (Pyplot.gcf (open_figures m1)) in
  (Pyplot.populated fig = true ->
   forall png, savefig_png fig = Ok png ->
   let fragment :=
     StringIO.getvalue (StringIO.write (img_tag (b64encode png)) (buf m1)) in
   execute session_id code srv
     = (Ok fragment,
        leave session_id env
          (Machine (session_locals m1) (buf m1) (Pyplot.close fig figs)
             (around m1)) srv)
   /\ Forall (fun g => Pyplot.number g <> Pyplot.number fig)
        (figures (snd (execute session_id code srv)))
   /\ (StringIO.at_end (buf m1) ->
       fragment = StringIO.getvalue (buf m1) ++ img_tag (b64encode png)
       /\ image_tags fragment = S (image_tags (StringIO.getvalue (buf m1)))))
  /\ (Pyplot.populated fig = false ->
      execute session_id code srv
        = (Ok (StringIO.getvalue (buf m1)),
           leave session_id env
             (Machine (session_locals m1) (buf m1) figs (around m1)) srv)).
Proof.
  intros Henv Hcell Hopen fig figs.
  rewrite (execute_after_cell _ _ _ _ _ Henv Hcell).
  unfold try_except_Exception, show_figure, plt_gcf, bind.
  subst fig figs. destruct (Pyplot.gcf (open_figures m1)) as [fig figs].
  cbn [fst snd]. split.
  - cbv zeta. intros Hpop png Hpng. rewrite Hpop. unfold lift. rewrite Hpng.
    unfold plt_close, buf_write, modify.
    rewrite buf_update_open by exact Hopen.
    unfold leave, buf_getvalue.
    cbn [fst snd session_locals buf open_figures figures around].
    rewrite write_keeps_open, Hopen.
    split; [reflexivity |]. split; [apply close_removes |].
    intros Hend.
    pose proof (write_at_end (img_tag (b64encode png)) _ Hend) as Hvalue.
    split; [exact Hvalue |]. rewrite Hvalue.
    apply (image_tags_app_img_tag (StringIO.getvalue (buf m1))),
      b64encode_no_lt.
  - intros Hpop. rewrite Hpop. unfold ret, buf_getvalue. cbn [buf].
    now rewrite Hopen.
Qed.

(** C7, as the code has it: after a cell that ran without a fault and
    left its output buffer open, when pyplot's current figure, the one
    [plt.gcf()] returns, has axes, one image tag holding the base64 text
    of the figure's PNG is written to the buffer, and that figure is
    closed: no open figure bears its number.  When the cell left the
    position of the buffer at its end, the fragment is the captured output
    followed by the tag, and has one image tag more than the captured
    output.  When the current figure has no axes, the fragment is the
    captured output as it is and no figure is closed, whatever the other
    open figures hold. *)
Theorem figure_is_shown_once_and_closed `{rt : PyRuntime}
    (srv : server) (session_id : string) (env : session) (code : json)
    (m1 : mach) :
  sessions srv !! session_id = Some env ->
  run_cell code (enter session_id env srv) = (Ok tt, m1) ->
  StringIO.closed (buf m1) = false ->
  let fig := fst (Pyplot.gcf (open_figures m1)) in
  let figs := snd (Pyplot.gcf (open_figures m1)) in
  (Pyplot.populated fig = true ->
   forall png, savefig_png fig = Ok png ->
   let fragment :=
     StringIO.getvalue (StringIO.write (img_tag (b64encode png)) (buf m1)) in
   execute session_id code srv
     = (Ok fragment,
        leave session_id env
          (Machine (session_locals m1) (buf m1) (Pyplot.close fig figs)
             (around m1)) srv)
   /\ Forall (fun g => Pyplot.number g <> Pyplot.number fig)
        (figures (snd (execute session_id code srv)))
   /\ (StringIO.at_end (buf m1) ->
       fragment = StringIO.getvalue (buf m1) ++ img_tag (b64encode png)
       /\ image_tags fragment = S (image_tags (StringIO.getvalue (buf m1)))))
  /\ (Pyplot.populated fig = false ->
      execute session_id code srv
        = (Ok (StringIO.getvalue (buf m1)),
           leave session_id env
             (Machine (session_locals m1) (buf m1) figs (around m1)) srv)).
Proof. apply figure_step. Qed.

(** C7 as stated fails.  After [plt.plot(); fig = plt.figure()] pyplot
    holds a figure with axes, the first one, but the current figure is the
    blank second one: the cell runs without a fault, the fragment is
    empty, with no image tag, and the populated figure stays open.  A
    figure left behind a shown one is shown by the next cell: after
    [plt.plot(); plt.figure(); plt.plot()], the cell [x = 1], which draws
    nothing, gets an image.  And a cell that prints the opening of an
    image tag and plots gets a fragment with two. *)
Lemma populated_figure_behind_current_is_not_shown :
  run_cell (rt := Examples.rt) Examples.plot_then_new_figure
      Examples.alice_machine
    = (Ok tt,
       Machine (<["fig" := Mini.VFigure 2]> Examples.with_builtins)
         StringIO.new Examples.plot_and_blank Examples.alice_alone)
  /\ existsb Pyplot.populated Examples.plot_and_blank = true
  /\ fst (execute "alice" Examples.plot_then_new_figure Examples.started)
     = Ok ""
  /\ image_tags "" = 0%nat
  /\ figures (snd (execute "alice" Examples.plot_then_new_figure
                     Examples.started))
     = Examples.plot_and_blank
  /\ fst (execute "alice" (JString "x = 1")
            (snd (execute "alice" Examples.two_plots Examples.started)))
     = Ok (img_tag "iVBORw0KGgoBAQ==")
  /\ fst (execute "alice" Scenarios.print_tag_and_plot Examples.started)
     = Ok (img_open ++ dquote ++ ">" ++ nl ++ "[]" ++ img_tag "iVBORw0KGgoBAQ==")
  /\ image_tags
       (img_open ++ dquote ++ ">" ++ nl ++ "[]" ++ img_tag "iVBORw0KGgoBAQ==")
     = 2%nat.
Proof. repeat split; reflexivity. Qed.

(** In ["alice"], [plt.plot()] leaves a figure with axes: the fragment is
    the text of the cell's value, [[]], then the image tag; the figure is
    closed, and the same cell run again gives the same. *)
Lemma figure_is_shown_once_and_closed_witness :
  fst (execute "alice" (JString "plt.plot()") Examples.started)
    = Ok Examples.plot_fragment
  /\ image_tags Examples.plot_fragment = 1%nat
  /\ figures (snd (execute "alice" (JString "plt.plot()") Examples.started))
     = []
  /\ fst (execute "alice" (JString "plt.plot()")
            (snd (execute "alice" (JString "plt.plot()") Examples.started)))
     = Ok Examples.plot_fragment.
Proof.
  pose proof (proj1 (figure_is_shown_once_and_closed (rt := Examples.rt)
                       Examples.started "alice" Examples.alice_env
                       (JString "plt.plot()") Examples.after_plot
                       eq_refl eq_refl eq_refl) eq_refl _ eq_refl)
    as (Hexec & _).
  rewrite Hexec. repeat split; reflexivity.
Defined.

(** ** What is shown for the value of a cell *)



(** ** Namespaces *)







(** ** Two cells of one session at once *)

Section Overlap.
Context `{rt : PyRuntime}.

Lemma overlapped_first_done (k : nat) (schedule : list thread)
    (b : list stmt) (m : mach) :
  overlapped (repeat FirstCell k ++ schedule) [] b m
    = overlapped schedule [] b m.
Proof. induction k as [|k IH]; [reflexivity | exact IH]. Qed.

Lemma overlapped_first (schedule : list thread) (a b : list stmt) (m : mach) :
  overlapped (repeat FirstCell (List.length a) ++ schedule) a b m
    = overlapped schedule [] b (in_turn a m).
Proof.
  revert m. induction a as [|st a IH]; intros m; [reflexivity |].
  cbn [List.length repeat app overlapped in_turn].
  destruct (exec_module [st] m) as [[u|e] m']; [apply IH |].
  apply overlapped_first_done.
Qed.

Lemma overlapped_second_done (k : nat) (m : mach) :
  overlapped (repeat SecondCell k) [] [] m = m.
Proof. induction k as [|k IH]; [reflexivity | exact IH]. Qed.

Lemma overlapped_second (b : list stmt) (m : mach) :
  overlapped (repeat SecondCell (List.length b)) [] b m = in_turn b m.
Proof.
  revert m. induction b as [|st b IH]; intros m; [reflexivity |].
  cbn [List.length repeat overlapped in_turn].
  destruct (exec_module [st] m) as [[u|e] m']; [apply IH |].
  apply overlapped_second_done.
Qed.

(** When the scheduler lets the first cell finish before the second
    starts, the session is left as by the one cell after the other. *)
Lemma overlapped_one_after_the_other (session_id : string) (env : session)
    (code_a code_b : json) (srv : server) :
  sessions srv !! session_id = Some env ->
  execute_overlapped
    (first_then_second (statements_of code_a) (statements_of code_b))
    session_id code_a code_b srv
    = leave session_id env
        (in_turn (statements_of code_b)
           (in_turn (statements_of code_a) (enter session_id env srv)))
        srv.
Proof.
  intros Henv. unfold execute_overlapped, first_then_second. rewrite Henv.
  now rewrite overlapped_first, overlapped_second.
Qed.

End Overlap.


(** ** More of the router and the registry *)

(** A message that decodes to something other than an object has no
    [get]: the handler raises [AttributeError] and changes nothing. *)
Theorem non_object_message_raises `{rt : PyRuntime}
    (ws : WebSocket) (session_id message : string) (data : json) (srv : server) :
  json_loads message = Ok data ->
  (forall fields, data <> JObject fields) ->
  exists e,
    handle_message ws session_id message srv = (Raise e, srv)
    /\ exn_class e = "AttributeError".
Proof.
  intros Hloads Hshape. unfold handle_message. run_monad. rewrite Hloads.
  destruct data; try (eexists; split; reflexivity).
  now destruct (Hshape fields).
Qed.

Lemma non_object_message_raises_witness :
  exists e,
    handle_message 7 "alice" "[1, 2]" Examples.started
      = (Raise e, Examples.started)
    /\ exn_class e = "AttributeError".
Proof.
  apply (non_object_message_raises (rt := Examples.rt) 7 "alice" "[1, 2]"
           (JArray [JInt 1; JInt 2]));
    [reflexivity | discriminate].
Defined.

(** A [run_code] message with its [code] and [cell_id] runs the cell in the
    session of the connection and sends back on the connection one
    message of type [output] with the [cell_id] and the fragment as its
    [output]; if [execute] raises, nothing is sent. *)
Theorem run_code_replies_with_fragment `{rt : PyRuntime}
    (ws : WebSocket) (session_id message : string)
    (fields : list (string * json)) (code cell_id : json) (srv : server) :
  json_loads message = Ok (JObject fields) ->
  dict_get "type" fields = Some (JString "run_code") ->
  dict_get "code" fields = Some code ->
  dict_get "cell_id" fields = Some cell_id ->
  handle_message ws session_id message srv
    = match execute session_id code srv with
      | (Ok output, srv') =>
          (Ok tt,
           add_event
             (SendJson ws
                (JObject [("type", JString "output"); ("cell_id", cell_id);
                          ("output", JString output)]))
             srv')
      | (Raise e, srv') => (Raise e, srv')
      end.
Proof.
  intros Hloads Htype Hcode Hcell. unfold handle_message. run_monad.
  rewrite Hloads, (json_eq_str_true _ _ Htype). unfold dict_index.
  rewrite Hcode, Hcell.
  now destruct (execute session_id code srv) as [[output|e] srv'].
Qed.

(** Cell [c1] of ["alice"] holds [1 + 1]: the reply carries [2]. *)
Lemma run_code_replies_with_fragment_witness :
  trace (snd (handle_message 7 "alice" (Examples.run_code_message "c1" "1 + 1")
                Examples.started))
    = (trace Examples.started
         ++ [SendJson 7
               (JObject [("type", JString "output"); ("cell_id", JString "c1");
                         ("output", JString "2")])])%list.
Proof.
  rewrite (run_code_replies_with_fragment (rt := Examples.rt) 7 "alice"
             (Examples.run_code_message "c1" "1 + 1")
             [("type", JString "run_code"); ("cell_id", JString "c1");
              ("code", JString "1 + 1")]
             (JString "1 + 1") (JString "c1") Examples.started
             eq_refl eq_refl eq_refl eq_refl).
  reflexivity.
Defined.

(** Once its channel has closed a session is gone with its namespace: the
    registry has no entry for it, and a cell sent for it gets the
    session-expired fragment. *)
Theorem disconnect_discards_session `{rt : PyRuntime}
    (srv : server) (session_id : string) (code : json) :
  sessions (step (Disconnect session_id) srv) !! session_id = None
  /\ fst (execute session_id code (step (Disconnect session_id) srv))
     = Ok session_expired.
Proof.
  assert (Hgone : sessions (step (Disconnect session_id) srv) !! session_id
                  = None).
  { unfold step, disconnect. run_monad.
    destruct (sessions srv !! session_id) eqn:Hsid; simpl;
      [apply lookup_delete_eq | exact Hsid]. }
  split; [exact Hgone |]. unfold execute. now rewrite Hgone.
Qed.

(** ** Requests that miss a member *)

(** A [run_code] message without [code] raises [KeyError] before anything
    runs.  One with [code] but without [cell_id] runs the cell, so what the
    cell did to the namespace stays, and raises [KeyError] where the reply
    is built: nothing is sent. *)
Theorem run_code_missing_member `{rt : PyRuntime}
    (ws : WebSocket) (session_id message : string)
    (fields : list (string * json)) (srv : server) :
  json_loads message = Ok (JObject fields) ->
  dict_get "type" fields = Some (JString "run_code") ->
  (dict_get "code" fields = None ->
   handle_message ws session_id message srv = (Raise (KeyError "code"), srv))
  /\ (forall code,
        dict_get "code" fields = Some code ->
        dict_get "cell_id" fields = None ->
        handle_message ws session_id message srv
          = (match fst (execute session_id code srv) with
             | Ok _ => Raise (KeyError "cell_id")
             | Raise e => Raise e
             end,
             snd (execute session_id code srv))
        /\ trace (snd (handle_message ws session_id message srv)) = trace srv).
Proof.
  intros Hloads Htype.
  assert (Hrun : handle_message ws session_id message srv
                 = (code <- lift (dict_index "code" fields) ;;
                    output <- execute session_id code ;;
                    cell_id <- lift (dict_index "cell_id" fields) ;;
                    send_json ws (output_message cell_id output)) srv).
  { unfold handle_message. unfold bind at 1. unfold lift at 1.
    now rewrite Hloads, (json_eq_str_true _ _ Htype). }
  rewrite Hrun. unfold dict_index. split.
  - intros ->. reflexivity.
  - intros code -> ->. run_monad.
    pose proof (execute_keeps_trace session_id code srv) as Htrace.
    destruct (execute session_id code srv) as [[output|e] srv']; simpl in *;
      now split.
Qed.

(** ["alice"] sends [x = 5] without a [cell_id]: she gets no reply, and her
    namespace binds [x]. *)
Lemma run_code_missing_member_witness :
  fst (handle_message 7 "alice" Scenarios.run_without_cell_id Examples.started)
    = Raise (KeyError "cell_id")
  /\ trace (snd (handle_message 7 "alice" Scenarios.run_without_cell_id
                   Examples.started))
     = trace Examples.started
  /\ sessions (snd (handle_message 7 "alice" Scenarios.run_without_cell_id
                      Examples.started)) !! "alice"
     = Some (Session (value := Mini.value)
               (<["x" := Mini.VInt 5]> Examples.with_builtins) 7).
Proof.
  destruct (proj2 (run_code_missing_member (rt := Examples.rt) 7 "alice"
                     Scenarios.run_without_cell_id
                     [("type", JString "run_code"); ("code", JString "x = 5")]
                     Examples.started eq_refl eq_refl)
              (JString "x = 5") eq_refl eq_refl) as [Hrun Htrace].
  split; [| split].
  - rewrite Hrun. reflexivity.
  - exact Htrace.
  - rewrite Hrun. reflexivity.
Defined.

(** ** Completion faults *)

(** When [line + 1] or the completion library raises an exception that
    derives from [Exception], [get_completions] prints the error and
    returns the empty list: the client gets an answer, and the process
    changes in its trace only. *)
Theorem completion_fault_gives_empty_list `{rt : PyRuntime}
    (session_id : string) (code line column : json) (env : session)
    (e : exn) (srv : server) :
  sessions srv !! session_id = Some env ->
  size (locals env) <> 0%nat ->
  match add_one line with
  | Ok line1 => jedi_complete code (locals env) line1 column
  | Raise e' => Raise e'
  end = Raise e ->
  exn_is_Exception e = true ->
  get_completions session_id code line column srv
    = (Ok [],
       add_event (Print ("Completion error: " ++ exn_str e))
         (add_event (JediInterpreter code) srv)).
Proof.
  intros Henv Hsize Hfault Hexc. unfold get_completions.
  unfold bind at 1. unfold get_state. rewrite Henv. simpl.
  destruct (decide (size (locals env) = 0%nat)) as [Hzero|_];
    [now destruct Hsize |].
  unfold try_except_Exception. run_monad.
  destruct (add_one line) as [line1|e'].
  - rewrite Hfault, Hexc. reflexivity.
  - injection Hfault as ->. rewrite Hexc. reflexivity.
Qed.

(** A cursor past the end of the line: the library refuses the column, and
    the names are the empty list. *)
Lemma completion_fault_gives_empty_list_witness :
  fst (get_completions "alice" (JString "pl") (JInt 0) (JInt 9) Examples.started)
    = Ok []
  /\ trace (snd (get_completions "alice" (JString "pl") (JInt 0) (JInt 9)
                   Examples.started))
     = (trace Examples.started
          ++ [JediInterpreter (JString "pl");
              Print "Completion error: `column` parameter is not in a valid range"])%list.
Proof.
  rewrite (completion_fault_gives_empty_list (rt := Examples.rt) "alice"
             (JString "pl") (JInt 0) (JInt 9) Examples.alice_env
             (Mini.error "ValueError" "`column` parameter is not in a valid range")
             Examples.started eq_refl).
  - split; reflexivity.
  - intros Hsize. change (2 = 0)%nat in Hsize. discriminate Hsize.
  - reflexivity.
  - reflexivity.
Defined.

(** ** A connection, from accept to its end *)

Section Connections.
Context `{rt : PyRuntime}.







(** A connection of one session whose cells keep to themselves leaves
    the other sessions' entries alone. *)
Lemma endpoint_keeps_other_sessions (ws : WebSocket) (session_id other : string)
    (messages : list string) :
  other <> session_id ->
  Forall confined_message messages ->
  keeps (fun srv => sessions srv !! other)
    (websocket_endpoint ws session_id messages).
Proof.
  intros Hne Hconf. unfold websocket_endpoint. apply keeps_bind.
  - intros srv. unfold connect. run_monad.
    destruct (sessions srv !! session_id); simpl; [reflexivity |].
    now rewrite lookup_insert_ne.
  - intros _. induction Hconf as [|message rest Hmessage _ IH]; simpl.
    + intros srv. unfold disconnect. run_monad.
      destruct (sessions srv !! session_id); simpl; [| reflexivity].
      now rewrite lookup_delete_ne.
    + apply keeps_bind; [| intros _; exact IH].
      apply (keeps_handle_message (fun s => sessions s !! other)); [easy |].
      intros code Hcell srv0.
      now apply (execute_confined session_id code srv0 (Hmessage code Hcell)).
Qed.

Lemma endpoint_keeps_global_settings (ws : WebSocket) (session_id : string)
    (messages : list string) :
  Forall confined_message messages ->
  keeps global_settings (websocket_endpoint ws session_id messages).
Proof.
  intros Hconf. unfold websocket_endpoint. apply keeps_bind.
  - intros srv. unfold connect. run_monad.
    now destruct (sessions srv !! session_id).
  - intros _. induction Hconf as [|message rest Hmessage _ IH]; simpl.
    + intros srv. unfold disconnect. run_monad.
      now destruct (sessions srv !! session_id).
    + apply keeps_bind; [| intros _; exact IH].
      apply (keeps_handle_message global_settings); [easy |].
      intros code Hcell srv0.
      now apply (execute_confined session_id code srv0 (Hmessage code Hcell)).
Qed.

End Connections.


(** Whatever is sent on the connection of one session, as long as the
    cells it runs keep to themselves, and however the connection ends,
    the entries of the other sessions and the autocomplete flag are as
    before. *)
Theorem connection_keeps_other_sessions `{rt : PyRuntime}
    (ws : WebSocket) (session_id other : string) (messages : list string)
    (srv : server) :
  other <> session_id ->
  Forall confined_message messages ->
  sessions (snd (websocket_endpoint ws session_id messages srv)) !! other
    = sessions srv !! other
  /\ global_settings (snd (websocket_endpoint ws session_id messages srv))
     = global_settings srv.
Proof.
  intros Hne Hconf. split.
  - now apply (endpoint_keeps_other_sessions ws session_id other messages Hne).
  - now apply endpoint_keeps_global_settings.
Qed.

(** The cell ["carol"] sends, [x = 1], keeps to itself, and her design
    asks for no cell. *)
Lemma carol_keeps_to_herself :
  Forall (confined_message (rt := Examples.rt)) Scenarios.carol_messages.
Proof.
  repeat constructor; intros code Hcell.
  - change (Some (JString "x = 1") = Some code) in Hcell.
    injection Hcell as <-.
    apply (mini_plain_cell_confined (JString "x = 1")
             [Mini.Assign "x" (Mini.Num 1)]); reflexivity.
  - change (None = Some code) in Hcell. discriminate Hcell.
Qed.

(** ["carol"] connects, runs a cell, sends a design to ["alice"] and
    leaves: the entry of ["alice"] is the one she connected with. *)
Lemma connection_keeps_other_sessions_witness :
  sessions (snd (websocket_endpoint 8 "carol" Scenarios.carol_messages
                   Examples.started)) !! "alice"
    = Some Examples.alice_env.
Proof.
  exact (proj1 (connection_keeps_other_sessions (rt := Examples.rt) 8 "carol"
                  "alice" Scenarios.carol_messages Examples.started
                  ltac:(discriminate) carol_keeps_to_herself)).
Defined.

(** ** Escaped text *)

Lemma count_char_app (c : ascii) (a b : string) :
  count_occurrences (String c "") (a ++ b)
    = (count_occurrences (String c "") a + count_occurrences (String c "") b)%nat.
Proof.
  induction a as [|x a IH]; [reflexivity |].
  rewrite append_cons. cbn [count_occurrences]. rewrite IH.
  replace (String.prefix (String c "") (String x (a ++ b)))
    with (String.prefix (String c "") (String x a)); [lia |].
  simpl. destruct (ascii_dec c x); [| reflexivity]. now rewrite !prefix_empty.
Qed.

Lemma escape_char_no_markup (c d : ascii) :
  In c ["<"; ">"; "034"; "039"]%char -> occurs c (escape_char d) = false.
Proof.
  intros Hc. unfold escape_char.
  destruct (Ascii.eqb d "&") eqn:Hamp;
    [destruct Hc as [<-|[<-|[<-|[<-|[]]]]]; reflexivity |].
  destruct (Ascii.eqb d "<") eqn:Hlt;
    [destruct Hc as [<-|[<-|[<-|[<-|[]]]]]; reflexivity |].
  destruct (Ascii.eqb d ">") eqn:Hgt;
    [destruct Hc as [<-|[<-|[<-|[<-|[]]]]]; reflexivity |].
  destruct (Ascii.eqb d "034") eqn:Hdq;
    [destruct Hc as [<-|[<-|[<-|[<-|[]]]]]; reflexivity |].
  destruct (Ascii.eqb d "039") eqn:Hsq;
    [destruct Hc as [<-|[<-|[<-|[<-|[]]]]]; reflexivity |].
  cbn [occurs]. rewrite orb_false_r, Ascii.eqb_sym.
  destruct Hc as [<-|[<-|[<-|[<-|[]]]]]; assumption.
Qed.

Lemma escape_no_markup (c : ascii) (text : string) :
  In c ["<"; ">"; "034"; "039"]%char -> occurs c (escape text) = false.
Proof.
  intros Hc. induction text as [|d text IH]; [reflexivity |].
  cbn [escape]. now rewrite occurs_app, escape_char_no_markup, IH.
Qed.

(** However the text reads, its escaped form holds no angle bracket and no
    quote; so the error fragment has the brackets and quotes of its [div]
    and no others: a trace cannot open an element or close the [div]. *)
Theorem escaped_text_adds_no_markup (text : string) (c : ascii) :
  In c ["<"; ">"; "034"; "039"]%char ->
  occurs c (escape text) = false
  /\ count_occurrences (String c "") (error_div (escape text))
     = count_occurrences (String c "") (error_div "").
Proof.
  intros Hc. pose proof (escape_no_markup c text Hc) as Hfree.
  split; [exact Hfree |]. unfold error_div.
  rewrite !count_char_app.
  now rewrite (count_occurrences_absent c "" (escape text) Hfree).
Qed.

Lemma escaped_text_adds_no_markup_witness :
  occurs "<" (escape "</div><script>") = false
  /\ count_occurrences "<" (error_div (escape "</div><script>")) = 2%nat.
Proof.
  destruct (escaped_text_adds_no_markup "</div><script>" "<"
              (or_introl eq_refl)) as [Hfree Hcount].
  split; [exact Hfree |]. rewrite Hcount. reflexivity.
Defined.

(** ** The order of a fragment *)

(** A cell that prints, ends in an expression whose value is shown as
    text, and leaves a current figure with axes: the fragment is what was
    printed, then the escaped text of the value, then the image tag, each
    after the other when the cell left the buffer's position at its
    end. *)
Theorem fragment_is_output_then_value_then_image `{rt : PyRuntime}
    (srv : server) (session_id : string) (env : session) (code : json)
    (pre : list stmt) (node : stmt) (e : expr) (m1 m2 m3 : mach) (v : value)
    (text : string) (png : list byte) :
  sessions srv !! session_id = Some env ->
  ast_parse code = Ok (pre ++ [node])%list ->
  Expr_value node = Some e ->
  (match pre with [] => ret tt | _ => exec_module pre end)
    (enter session_id env srv)
    = (Ok tt, m1) ->
  eval_expression e m1 = (Ok v, m2) ->
  is_DataFrame v = false ->
  is_None v = false ->
  py_str v m2 = (Ok text, m3) ->
  StringIO.at_end (buf m3) ->
  Pyplot.populated (fst (Pyplot.gcf (open_figures m3))) = true ->
  savefig_png (fst (Pyplot.gcf (open_figures m3))) = Ok png ->
  fst (execute session_id code srv)
    = Ok (StringIO.getvalue (buf m3) ++ escape text
            ++ img_tag (b64encode png)).
Proof.
  intros Henv Hparse Hexpr Hpre Heval Hframe Hnone Hstr Hend Hpop Hpng.
  assert (Hcell : run_cell code (enter session_id env srv)
                  = (Ok tt,
                     Machine (session_locals m3)
                       (StringIO.write (escape text) (buf m3))
                       (open_figures m3) (around m3))).
  { rewrite (run_cell_last_expression code pre node e _ m1 m2 v
               Hparse Hexpr Hpre Heval).
    unfold display. rewrite Hframe, Hnone. simpl. unfold bind.
    rewrite Hstr. unfold buf_write.
    now rewrite buf_update_open by apply Hend. }
  destruct (figure_step srv session_id env code _ Henv Hcell) as [Hshown _].
  { cbn [buf]. rewrite write_keeps_open. apply Hend. }
  destruct (Hshown Hpop png Hpng) as (Hexec & _).
  rewrite Hexec. cbn [fst buf]. f_equal.
  rewrite (write_at_end _ _ (write_keeps_at_end _ _ Hend)).
  rewrite (write_at_end _ _ Hend). apply append_assoc.
Qed.

(** [print("a"); plt.plot()] in ["alice"]: the printed line, the text of
    the value, the image. *)
Lemma fragment_is_output_then_value_then_image_witness :
  fst (execute "alice" Scenarios.print_then_plot Examples.started)
    = Ok ("a" ++ nl ++ "[]" ++ img_tag "iVBORw0KGgoBAQ==").
Proof.
  rewrite (fragment_is_output_then_value_then_image (rt := Examples.rt)
             Examples.started "alice" Examples.alice_env
             Scenarios.print_then_plot
             [Mini.ExprStmt (Mini.Call "print" [Mini.Str "a"])]
             (Mini.ExprStmt (Mini.Method "plt" "plot" []))
             (Mini.Method "plt" "plot" [])
             Scenarios.after_print Scenarios.after_print_plotted
             Scenarios.after_print_plotted Mini.VEmptyList "[]"
             [x89; x50; x4e; x47; x0d; x0a; x1a; x0a; x01; x01]
             eq_refl eq_refl eq_refl eq_refl eq_refl eq_refl eq_refl eq_refl
             (conj eq_refl eq_refl) eq_refl eq_refl).
  reflexivity.
Defined.

(** ** The settings endpoints *)

Lemma update_refused `{rt : PyRuntime}
    (user_role : option string) (body : string) (srv : server) :
  user_role <> Some "teacher" ->
  update_settings user_role body srv = (Ok unauthorized, srv).
Proof.
  intros Hrole. unfold update_settings.
  destruct user_role as [role|]; [| reflexivity].
  destruct (String.eqb_spec role "teacher") as [->|]; [now destruct Hrole |].
  reflexivity.
Qed.

Lemma not_teacher (user_role : option string) (body : string) :
  is_teacher_update (UpdateSettings user_role body) = false ->
  user_role <> Some "teacher".
Proof. simpl. intros Hflag ->. discriminate. Qed.

Lemma step_keeps_flag_without_teacher `{rt : PyRuntime} (o : op) (srv : server) :
  is_teacher_update o = false ->
  confined_op o ->
  global_settings (step o srv) = global_settings srv.
Proof.
  intros Hflag Hop. destruct o as [ws sid|sid|ws sid message|role body];
    try now apply step_keeps_global_settings.
  simpl. now rewrite (update_refused role body srv (not_teacher _ _ Hflag)).
Qed.

Lemma run_keeps_flag_without_teacher `{rt : PyRuntime}
    (ops : list op) (srv : server) :
  Forall (fun o => is_teacher_update o = false) ops ->
  Forall confined_op ops ->
  global_settings (run ops srv) = global_settings srv.
Proof.
  intros Hops. revert srv. induction Hops as [|o ops Ho _ IH];
    intros srv Hconf.
  - reflexivity.
  - apply Forall_cons_1 in Hconf as [Hop Hconf]. unfold run in *. simpl.
    rewrite IH by exact Hconf. now apply step_keeps_flag_without_teacher.
Qed.

(** The operations after the teacher's request run no cell. *)
Lemma later_ops_run_no_cell :
  Forall (confined_op (rt := Examples.rt)) Scenarios.later_ops.
Proof.
  repeat constructor. intros code Hcell.
  change (None = Some code) in Hcell. discriminate Hcell.
Qed.

(** Whoever calls the settings endpoint without the teacher's role is
    refused with status 403 and changes nothing; so over any history
    without a teacher's request, connections, refused requests and cells
    that keep to themselves included, the flag is as it was. *)
Theorem only_a_teacher_changes_the_flag `{rt : PyRuntime}
    (ops : list op) (srv : server) :
  Forall (fun o => is_teacher_update o = false) ops ->
  (Forall confined_op ops ->
   global_settings (run ops srv) = global_settings srv)
  /\ (forall user_role body,
        In (UpdateSettings user_role body) ops ->
        forall s, update_settings user_role body s = (Ok unauthorized, s)).
Proof.
  intros Hops. split; [now apply run_keeps_flag_without_teacher |].
  intros user_role body Hin s. apply update_refused.
  rewrite List.Forall_forall in Hops. exact (not_teacher _ _ (Hops _ Hin)).
Qed.

(** The teacher has turned the flag off; a student's request to set it
    does not turn it back. *)
Lemma only_a_teacher_changes_the_flag_witness :
  global_settings (run Scenarios.later_ops Examples.autocomplete_off)
    = Settings false.
Proof.
  rewrite (proj1 (only_a_teacher_changes_the_flag (rt := Examples.rt)
                    Scenarios.later_ops Examples.autocomplete_off
                    ltac:(repeat constructor))
             later_ops_run_no_cell).
  reflexivity.
Defined.

(** A cell that goes through [__main__.global_settings] turns the flag
    off with no request to the settings endpoint. *)
Example cell_reaches_the_flag :
  global_settings
    (snd (execute "alice" Scenarios.turn_flag_off Examples.started))
    = Settings false.
Proof. reflexivity. Qed.

(** Once a teacher's request has set the flag from a value [v], every
    logged-in user reads [bool(v)] from the settings endpoint, until a
    teacher's next request or a cell that reaches for the flag: the value
    read is the truth value of what was sent, not what was sent. *)
Theorem settings_round_trip `{rt : PyRuntime}
    (body : string) (fields : list (string * json)) (v : json)
    (ops : list op) (role : string) (srv : server) :
  json_loads body = Ok (JObject fields) ->
  dict_get "enable_autocomplete" fields = Some v ->
  Forall (fun o => is_teacher_update o = false) ops ->
  Forall confined_op ops ->
  role <> "" ->
  let later := run ops (step (UpdateSettings (Some "teacher") body) srv) in
  get_settings (Some role) later
    = (Ok (200%nat, JObject [("enable_autocomplete", JBool (truthy v))]),
       later).
Proof.
  intros Hloads Hfield Hops Hconf Hrole later.
  assert (Hflag : global_settings later = Settings (truthy v)).
  { unfold later. rewrite (run_keeps_flag_without_teacher _ _ Hops Hconf).
    simpl. now rewrite (update_settings_assigns body fields v srv Hloads Hfield). }
  unfold get_settings. destruct role as [|c role]; [now destruct Hrole |].
  run_monad. now rewrite Hflag.
Qed.

(** The flag is off and a teacher sends the text [false] for it: text
    that is not empty is true, so a student then reads that the flag is
    on. *)
Lemma settings_round_trip_witness :
  fst (get_settings (Some "student")
         (run Scenarios.later_ops
            (step (UpdateSettings (Some "teacher") Scenarios.flag_as_text)
               Examples.autocomplete_off)))
    = Ok (200%nat, JObject [("enable_autocomplete", JBool true)]).
Proof.
  rewrite (settings_round_trip (rt := Examples.rt) Scenarios.flag_as_text
             [("enable_autocomplete", JString "false")] (JString "false")
             Scenarios.later_ops "student" Examples.autocomplete_off
             eq_refl eq_refl ltac:(repeat constructor) later_ops_run_no_cell
             ltac:(discriminate)).
  reflexivity.
Defined.

(** ** Saving a file *)

Section SaveFileFacts.
Context `{rt : PyRuntime}.
Variable isabs : string -> bool.
Variable open_fails : string -> option exn.
Variable write_fails : string -> option exn.

Lemma allowed_role (user_role : option string) :
  match user_role with
  | Some role => String.eqb role "admin" || String.eqb role "teacher"
  | None => false
  end = true ->
  user_role = Some "admin" \/ user_role = Some "teacher".
Proof.
  destruct user_role as [role|]; [| discriminate]. intros Hrole.
  apply orb_true_iff in Hrole as [Hrole|Hrole];
    apply String.eqb_eq in Hrole; subst; auto.
Qed.

(** What the endpoint does once the body is decoded to an object whose
    filename is text that is not refused and can be opened. *)
Lemma save_file_opened (role body : string) (fields : list (string * json))
    (name : string) (log : list file_event) :
  role = "admin" \/ role = "teacher" ->
  json_loads body = Ok (JObject fields) ->
  dict_get "filename" fields = Some (JString name) ->
  contains ".." name = false ->
  isabs name = false ->
  open_fails name = None ->
  save_file isabs open_fails write_fails (Some role) body log
    = match dict_get "content" fields with
      | Some (JString text) =>
          match write_fails text with
          | Some e => (Raise e, (log ++ [FileOpen name; FileClose])%list)
          | None =>
              (Ok (saved name),
               (log ++ [FileOpen name; FileWrite text; FileClose])%list)
          end
      | _ =>
          (Raise (TypeError "write() argument must be str"),
           (log ++ [FileOpen name; FileClose])%list)
      end.
Proof.
  intros Hrole Hloads Hname Hdots Habs Hopen. unfold save_file.
  replace (String.eqb role "admin" || String.eqb role "teacher") with true
    by (destruct Hrole as [-> | ->]; reflexivity).
  unfold file_emit. run_monad. rewrite Hloads, Hname.
  unfold refused_name. rewrite Hdots, Habs. cbn [orb]. rewrite Hopen. simpl.
  destruct (dict_get "content" fields) as [[| | | |text| |]|]; simpl;
    rewrite <- ?app_assoc; try reflexivity.
  destruct (write_fails text); simpl; rewrite <- ?app_assoc; reflexivity.
Qed.

End SaveFileFacts.

(** Whatever the request, the endpoint opens at most one file, and only
    for a caller whose role is admin or teacher, under a name that holds
    no [..] and is not absolute; in every other case it touches no
    file. *)
Theorem save_file_opens_only_plain_relative_names `{rt : PyRuntime}
    (isabs : string -> bool) (open_fails write_fails : string -> option exn)
    (user_role : option string) (body : string) (log : list file_event) :
  let log' := snd (save_file isabs open_fails write_fails user_role body log) in
  log' = log
  \/ exists name rest,
       log' = (log ++ FileOpen name :: rest)%list
       /\ opened rest = []
       /\ contains ".." name = false
       /\ isabs name = false
       /\ (user_role = Some "admin" \/ user_role = Some "teacher").
Proof.
  cbv zeta. unfold save_file.
  destruct (match user_role with
            | Some role => String.eqb role "admin" || String.eqb role "teacher"
            | None => false
            end) eqn:Hrole; [| now left].
  apply allowed_role in Hrole. unfold file_emit. run_monad.
  destruct (json_loads body) as [data|e]; [| now left].
  destruct data as [| | | | | |fields]; try now left.
  destruct (dict_get "filename" fields) as [filename|]; [| now left].
  destruct filename as [| | | |name|items|members]; try now left.
  - cbn -[contains]. destruct (contains ".." name) eqn:Hdots; [now left |].
    destruct (isabs name) eqn:Habs; [now left |]. cbn -[contains].
    destruct (open_fails name) as [e|]; [now left |]. right. exists name.
    destruct (dict_get "content" fields) as [[| | | |text| |]|]; simpl;
      try (exists [FileClose]; rewrite <- app_assoc; now repeat split).
    destruct (write_fails text); simpl.
    + exists [FileClose]. rewrite <- app_assoc. now repeat split.
    + exists [FileWrite text; FileClose]. rewrite <- !app_assoc.
      now repeat split.
  - simpl. destruct (existsb _ items); now left.
  - simpl. destruct (dict_get ".." members); now left.
Qed.

(** The file is opened, and so emptied, before the content is looked at:
    a request whose content is missing or is not text leaves the named
    file empty and fails with [TypeError]. *)
Theorem save_file_empties_file_before_checking_content `{rt : PyRuntime}
    (isabs : string -> bool) (open_fails write_fails : string -> option exn)
    (role body : string) (fields : list (string * json)) (name : string)
    (log : list file_event) :
  role = "admin" \/ role = "teacher" ->
  json_loads body = Ok (JObject fields) ->
  dict_get "filename" fields = Some (JString name) ->
  contains ".." name = false ->
  isabs name = false ->
  open_fails name = None ->
  (forall text, dict_get "content" fields <> Some (JString text)) ->
  exists e,
    save_file isabs open_fails write_fails (Some role) body log
      = (Raise e, (log ++ [FileOpen name; FileClose])%list)
    /\ exn_class e = "TypeError".
Proof.
  intros Hrole Hloads Hname Hdots Habs Hopen Hcontent.
  rewrite (save_file_opened isabs open_fails write_fails role body fields name
             log Hrole Hloads Hname Hdots Habs Hopen).
  destruct (dict_get "content" fields) as [[| | | |text| |]|];
    try (eexists; split; reflexivity).
  now destruct (Hcontent text).
Qed.

(** A teacher's request to save [notes.txt] that has no [content]. *)
Lemma save_file_empties_file_before_checking_content_witness :
  exists e,
    save_file (rt := Examples.rt) Scenarios.posix_isabs Scenarios.no_fault
        Scenarios.no_fault (Some "teacher") Scenarios.save_without_content []
      = (Raise e, [FileOpen "notes.txt"; FileClose])
    /\ exn_class e = "TypeError".
Proof.
  apply (save_file_empties_file_before_checking_content (rt := Examples.rt)
           Scenarios.posix_isabs Scenarios.no_fault Scenarios.no_fault
           "teacher" Scenarios.save_without_content
           [("filename", JString "notes.txt")] "notes.txt" []);
    try reflexivity; [now right | discriminate].
Defined.

(** The endpoint answers only when it touched no file, with status 403 or
    400, or when the file was opened under the requested name, the
    requested content written to it, and the file closed, with status
    200. *)
Theorem save_file_answers_after_complete_write `{rt : PyRuntime}
    (isabs : string -> bool) (open_fails write_fails : string -> option exn)
    (user_role : option string) (body : string) (log log' : list file_event)
    (response : nat * json) :
  save_file isabs open_fails write_fails user_role body log
    = (Ok response, log') ->
  (response = only_teachers /\ log' = log)
  \/ (response = invalid_filename /\ log' = log)
  \/ exists fields name text,
       json_loads body = Ok (JObject fields)
       /\ dict_get "filename" fields = Some (JString name)
       /\ dict_get "content" fields = Some (JString text)
       /\ response = saved name
       /\ log' = (log ++ [FileOpen name; FileWrite text; FileClose])%list.
Proof.
  unfold save_file.
  destruct (match user_role with
            | Some role => String.eqb role "admin" || String.eqb role "teacher"
            | None => false
            end) eqn:Hrole;
    [| intros [= <- <-]; now left].
  unfold file_emit. run_monad.
  destruct (json_loads body) as [data|e] eqn:Hloads; [| discriminate].
  destruct data as [| | | | | |fields]; try discriminate.
  destruct (dict_get "filename" fields) as [filename|] eqn:Hname;
    [| discriminate].
  destruct filename as [| | | |name|items|members]; try discriminate.
  - cbn -[contains]. destruct (contains ".." name || isabs name);
      [intros [= <- <-]; right; now left |]. cbn -[contains].
    destruct (open_fails name) as [e|]; [discriminate |].
    destruct (dict_get "content" fields) as [[| | | |text| |]|] eqn:Hcontent;
      try discriminate. simpl.
    destruct (write_fails text); simpl; [discriminate |].
    intros [= <- <-]. right. right. exists fields, name, text.
    rewrite <- !app_assoc. now repeat split.
  - simpl. destruct (existsb _ items); [| discriminate].
    intros [= <- <-]. right. now left.
  - simpl. destruct (dict_get ".." members); [| discriminate].
    intros [= <- <-]. right. now left.
Qed.

(** A teacher saves [x = 1] as [notes.txt]. *)
Lemma save_file_answers_after_complete_write_witness :
  save_file (rt := Examples.rt) Scenarios.posix_isabs Scenarios.no_fault
      Scenarios.no_fault (Some "teacher") Scenarios.save_notes []
    = (Ok (saved "notes.txt"),
       [FileOpen "notes.txt"; FileWrite "x = 1"; FileClose])
  /\ exists fields name text,
       json_loads (PyRuntime := Examples.rt) Scenarios.save_notes
         = Ok (JObject fields)
       /\ dict_get "filename" fields = Some (JString name)
       /\ dict_get "content" fields = Some (JString text)
       /\ [FileOpen "notes.txt"; FileWrite "x = 1"; FileClose]
          = [FileOpen name; FileWrite text; FileClose].
Proof.
  split; [reflexivity |].
  destruct (save_file_answers_after_complete_write (rt := Examples.rt)
              Scenarios.posix_isabs Scenarios.no_fault Scenarios.no_fault
              (Some "teacher") Scenarios.save_notes []
              [FileOpen "notes.txt"; FileWrite "x = 1"; FileClose]
              (saved "notes.txt") eq_refl)
    as [[Hresp _]|[[Hresp _]|(fields & name & text & Hl & Hn & Hc & _ & Hlog)]];
    [discriminate Hresp | discriminate Hresp |].
  exists fields, name, text. now repeat split.
Defined.

(** ** Comma lists *)

Section StrippingFacts.

Variable two : ascii -> ascii -> bool.
Variable three : ascii -> ascii -> ascii -> bool.

(** Stripping cuts a front off. *)
Lemma strip_front_suffix (s : string) :
  exists a, s = a ++ strip_front two three s.
Proof.
  assert (H : forall n s, (String.length s <= n)%nat ->
                          exists a, s = a ++ strip_front two three s).
  { clear s. induction n as [|n IH]; intros s Hlen.
    - destruct s; [now exists "" | simpl in Hlen; lia].
    - destruct s as [|x rest]; [now exists "" |]. simpl in Hlen.
      cbn [strip_front]. destruct (is_ascii_space x).
      { destruct (IH rest ltac:(lia)) as [a Ha]. exists (String x a).
        rewrite append_cons. now rewrite <- Ha. }
      destruct rest as [|y rest1]; [now exists "" |]. simpl in Hlen.
      destruct (two x y).
      { destruct (IH rest1 ltac:(lia)) as [a Ha].
        exists (String x (String y a)). rewrite !append_cons.
        now rewrite <- Ha. }
      destruct rest1 as [|z rest2]; [now exists "" |]. simpl in Hlen.
      destruct (three x y z); [| now exists ""].
      destruct (IH rest2 ltac:(lia)) as [a Ha].
      exists (String x (String y (String z a))). rewrite !append_cons.
      now rewrite <- Ha. }
  now apply (H (String.length s)).
Qed.

(** What is left does not start with a removed character. *)
Lemma strip_front_clean (s : string) :
  starts_removed two three (strip_front two three s) = false.
Proof.
  assert (H : forall n s, (String.length s <= n)%nat ->
                starts_removed two three (strip_front two three s) = false).
  { clear s. induction n as [|n IH]; intros s Hlen.
    - destruct s; [reflexivity | simpl in Hlen; lia].
    - destruct s as [|x rest]; [reflexivity |]. simpl in Hlen.
      cbn [strip_front]. destruct (is_ascii_space x) eqn:Hx;
        [apply IH; lia |].
      destruct rest as [|y rest1];
        [cbn [starts_removed]; now rewrite Hx |]. simpl in Hlen.
      destruct (two x y) eqn:Hxy; [apply IH; lia |].
      destruct rest1 as [|z rest2];
        [cbn [starts_removed]; now rewrite Hx, Hxy |]. simpl in Hlen.
      destruct (three x y z) eqn:Hxyz; [apply IH; lia |].
      cbn [starts_removed]. now rewrite Hx, Hxy, Hxyz. }
  now apply (H (String.length s)).
Qed.

(** A text that starts with a removed character starts with it whatever
    follows. *)
Lemma starts_removed_app (p t : string) :
  starts_removed two three p = true -> starts_removed two three (p ++ t) = true.
Proof.
  destruct p as [|x [|y [|z rest]]]; [discriminate | | |];
    rewrite ?append_cons, ?append_empty_l; cbn [starts_removed]; intros Hp;
    (destruct (is_ascii_space x); [reflexivity |]); try discriminate;
    (destruct (two x y); [reflexivity |]); try discriminate; exact Hp.
Qed.

End StrippingFacts.

Lemma rev_app_spec (s acc : string) :
  String.rev_app s acc = String.rev s ++ acc.
Proof.
  unfold String.rev. revert acc.
  induction s as [|c s IH]; intros acc; [reflexivity |]. simpl.
  rewrite IH, (IH (String c "")), append_assoc. reflexivity.
Qed.

Lemma rev_cons (c : ascii) (s : string) :
  String.rev (String c s) = String.rev s ++ String c "".
Proof. exact (rev_app_spec s (String c "")). Qed.

Lemma rev_append (a b : string) :
  String.rev (a ++ b) = String.rev b ++ String.rev a.
Proof.
  induction a as [|c a IH].
  - rewrite append_empty_l. change (String.rev "") with "".
    now rewrite append_empty_r.
  - now rewrite append_cons, !rev_cons, IH, append_assoc.
Qed.

Lemma rev_involutive (s : string) : String.rev (String.rev s) = s.
Proof.
  induction s as [|c s IH]; [reflexivity |].
  rewrite rev_cons, rev_append, IH. reflexivity.
Qed.

Lemma occurs_rev (c : ascii) (s : string) :
  occurs c (String.rev s) = occurs c s.
Proof.
  induction s as [|d s IH]; [reflexivity |].
  rewrite rev_cons, occurs_app, IH. simpl.
  now rewrite orb_false_r, orb_comm.
Qed.

(** [rstrip] cuts an end off. *)
Lemma rstrip_prefix (s : string) : exists t, s = rstrip s ++ t.
Proof.
  destruct (strip_front_suffix two_byte_space_rev three_byte_space_rev
              (String.rev s)) as [a Ha].
  exists (String.rev a). unfold rstrip. rewrite <- rev_append, <- Ha.
  now rewrite rev_involutive.
Qed.

Lemma py_strip_keeps_absent (c : ascii) (s : string) :
  occurs c s = false -> occurs c (py_strip s) = false.
Proof.
  intros Hs. unfold py_strip.
  destruct (strip_front_suffix two_byte_space three_byte_space s) as [a Ha].
  fold (lstrip s) in Ha.
  destruct (rstrip_prefix (lstrip s)) as [t Ht].
  rewrite Ha, Ht, !occurs_app in Hs.
  apply orb_false_elim in Hs as [_ Hs]. now apply orb_false_elim in Hs as [Hs _].
Qed.

Lemma py_strip_clean (s : string) :
  starts_space (py_strip s) = false /\ ends_space (py_strip s) = false.
Proof.
  unfold py_strip. split.
  - destruct (starts_space (rstrip (lstrip s))) eqn:Hstart; [| reflexivity].
    destruct (rstrip_prefix (lstrip s)) as [t Ht].
    pose proof (strip_front_clean two_byte_space three_byte_space s) as Hclean.
    fold (lstrip s) in Hclean. rewrite Ht in Hclean.
    unfold starts_space in Hstart.
    now rewrite (starts_removed_app _ _ _ t Hstart) in Hclean.
  - unfold ends_space, rstrip. rewrite rev_involutive. apply strip_front_clean.
Qed.

Lemma split_comma_not_nil (s : string) : split_comma s <> [].
Proof.
  induction s as [|c s IH]; [discriminate |]. simpl.
  destruct (Ascii.eqb c ","); [discriminate |].
  now destruct (split_comma s).
Qed.

Lemma split_comma_length (s : string) :
  List.length (split_comma s) = S (count_occurrences "," s).
Proof.
  induction s as [|c s IH]; [reflexivity |].
  cbn [split_comma count_occurrences String.prefix].
  destruct (Ascii.eqb_spec c ",") as [->|Hne].
  - simpl. rewrite IH, prefix_empty. reflexivity.
  - destruct (ascii_dec "," c) as [<-|_]; [now destruct Hne |].
    pose proof (split_comma_not_nil s) as Hnil.
    destruct (split_comma s) as [|x others]; [now destruct Hnil |].
    simpl in *. exact IH.
Qed.

Lemma split_comma_no_comma (s x : string) :
  In x (split_comma s) -> occurs "," x = false.
Proof.
  revert x. induction s as [|c s IH]; intros x.
  - intros [<-|[]]. reflexivity.
  - simpl. destruct (Ascii.eqb c ",") eqn:Hc.
    + intros [<-|Hin]; [reflexivity | now apply IH].
    + destruct (split_comma s) as [|y others]; simpl.
      * intros [<-|[]]. cbn [occurs]. now rewrite Ascii.eqb_sym, Hc.
      * intros [<-|Hin]; [| apply IH; now right].
        cbn [occurs]. rewrite Ascii.eqb_sym, Hc. apply IH. now left.
Qed.

(** Every entry of a comma list is trimmed: it holds no comma, does not
    start with white space and does not end with white space. *)
Theorem comma_list_entries_are_trimmed (field : option string) (x : string) :
  In x (comma_list field) ->
  occurs "," x = false /\ starts_space x = false /\ ends_space x = false.
Proof.
  unfold comma_list. destruct field as [[|c s]|]; try (intros []).
  intros Hin. apply in_map_iff in Hin as (y & <- & Hy).
  split; [| apply py_strip_clean].
  apply py_strip_keeps_absent. exact (split_comma_no_comma _ _ Hy).
Qed.

Lemma comma_list_entries_are_trimmed_witness :
  comma_list (Some " 1st , 2nd ") = ["1st"; "2nd"]
  /\ occurs "," "2nd" = false
  /\ starts_space "2nd" = false
  /\ ends_space "2nd" = false.
Proof.
  split; [reflexivity |].
  apply (comma_list_entries_are_trimmed (Some " 1st , 2nd ") "2nd").
  right. left. reflexivity.
Defined.

Lemma comma_list_length (field : option string) :
  List.length (comma_list field)
    = match field with
      | None | Some EmptyString => 0%nat
      | Some s => S (count_occurrences "," s)
      end.
Proof.
  destruct field as [[|c s]|]; try reflexivity.
  unfold comma_list. now rewrite length_map, split_comma_length.
Qed.

Lemma comma_list_nil (field : option string) :
  comma_list field = [] <-> field = None \/ field = Some "".
Proof.
  pose proof (comma_list_length field) as Hlen.
  destruct field as [[|c s]|].
  - split; auto.
  - split; [| intros [|]; discriminate].
    intros Hnil. rewrite Hnil in Hlen. discriminate.
  - split; auto.
Qed.

(** A column that is [NULL] or empty gives the empty list, and no other
    column does: a filled column gives one entry more than it has commas,
    empty entries included. *)
Theorem comma_list_has_one_entry_per_comma (field : option string) :
  List.length (comma_list field)
    = match field with
      | None | Some EmptyString => 0%nat
      | Some s => S (count_occurrences "," s)
      end
  /\ (comma_list field = [] <-> field = None \/ field = Some "").
Proof. split; [apply comma_list_length | apply comma_list_nil]. Qed.

(** ** The query for a student's assignments *)

Lemma str_join_cons (sep x y : string) (rest : list string) :
  str_join sep (x :: y :: rest) = x ++ sep ++ str_join sep (y :: rest).
Proof. reflexivity. Qed.

Lemma count_placeholders {A} (l : list A) :
  count_occurrences "?" (placeholders l) = List.length l.
Proof.
  unfold placeholders. induction l as [|x [|y rest] IH]; try reflexivity.
  cbn [List.map] in *. rewrite str_join_cons, !count_char_app, IH.
  reflexivity.
Qed.

Lemma count_assignments_query (semester_placeholders subject_placeholders : string) :
  count_occurrences "?"
    (assignments_query semester_placeholders subject_placeholders)
    = S (count_occurrences "?" semester_placeholders
         + count_occurrences "?" subject_placeholders).
Proof.
  unfold assignments_query. rewrite !count_char_app.
  set (a := count_occurrences "?" semester_placeholders).
  set (b := count_occurrences "?" subject_placeholders).
  vm_compute count_occurrences. lia.
Qed.

(** When the endpoint queries, the query has as many placeholders as it
    binds parameters: one for the student, then one for each semester and
    one for each subject, in that order. *)
Theorem assignments_query_binds_every_placeholder
    (user_id : Z) (semesters subjects : option string)
    (sql : string) (params : list sql_value) :
  student_assignments_query user_id semesters subjects = Some (sql, params) ->
  count_occurrences "?" sql = List.length params
  /\ params
     = (SqlInt user_id :: List.map SqlText (comma_list semesters)
          ++ List.map SqlText (comma_list subjects))%list.
Proof.
  unfold student_assignments_query.
  destruct (comma_list semesters) as [|x xs] eqn:Hsem; [discriminate |].
  destruct (comma_list subjects) as [|y ys] eqn:Hsub; [discriminate |].
  intros [= <- <-]. split; [| reflexivity].
  rewrite count_assignments_query, !count_placeholders.
  cbn [List.length List.map]. rewrite length_app. cbn [List.length].
  rewrite !length_map. lia.
Qed.

Lemma assignments_query_binds_every_placeholder_witness :
  exists sql,
    student_assignments_query 4 (Some "1, 2") (Some "Math")
      = Some (sql, [SqlInt 4; SqlText "1"; SqlText "2"; SqlText "Math"])
    /\ count_occurrences "?" sql = 4%nat.
Proof.
  eexists. split; [reflexivity |].
  exact (proj1 (assignments_query_binds_every_placeholder 4 (Some "1, 2")
                  (Some "Math") _ _ eq_refl)).
Defined.

(** The endpoint answers with the empty list, without a query, exactly
    when a column of the student is [NULL] or empty; a column of blanks
    or of commas is queried for, with empty texts as parameters. *)
Theorem no_query_iff_a_column_is_empty
    (user_id : Z) (semesters subjects : option string) :
  student_assignments_query user_id semesters subjects = None
  <-> (semesters = None \/ semesters = Some ""
       \/ subjects = None \/ subjects = Some "").
Proof.
  pose proof (comma_list_nil semesters) as Hsem.
  pose proof (comma_list_nil subjects) as Hsub.
  unfold student_assignments_query.
  destruct (comma_list semesters) as [|x xs].
  { split; [intros _ | reflexivity].
    destruct (proj1 Hsem eq_refl); auto. }
  destruct (comma_list subjects) as [|y ys].
  { split; [intros _ | reflexivity].
    destruct (proj1 Hsub eq_refl); auto. }
  split; [discriminate |].
  intros [H|[H|[H|H]]];
    [discriminate (proj2 Hsem (or_introl H))
     | discriminate (proj2 Hsem (or_intror H))
     | discriminate (proj2 Hsub (or_introl H))
     | discriminate (proj2 Hsub (or_intror H))].
Qed.

(** ** Grading a question *)

Lemma dict_get_setitem_ne (k k' : string) (v : json)
    (fields : list (string * json)) :
  k <> k' -> dict_get k (dict_setitem k' v fields) = dict_get k fields.
Proof.
  intros Hne. induction fields as [|[k0 old] rest IH]; simpl.
  - destruct (String.eqb_spec k' k) as [->|]; [now destruct Hne | reflexivity].
  - destruct (String.eqb_spec k0 k') as [->|Hk0]; simpl.
    + destruct (String.eqb_spec k' k) as [->|]; [now destruct Hne | reflexivity].
    + now rewrite IH.
Qed.

Lemma dict_get_setitem_eq (k : string) (v : json) (fields : list (string * json)) :
  dict_get k (dict_setitem k v fields) = Some v.
Proof.
  induction fields as [|[k0 old] rest IH]; simpl.
  - now rewrite String.eqb_refl.
  - destruct (String.eqb k0 k) eqn:Hk0; simpl; now rewrite Hk0.
Qed.

(** Assigning the value a key has changes nothing. *)
Lemma dict_setitem_same (k : string) (v : json) (fields : list (string * json)) :
  dict_get k fields = Some v -> dict_setitem k v fields = fields.
Proof.
  induction fields as [|[k0 old] rest IH]; simpl; [discriminate |].
  destruct (String.eqb k0 k); [now intros [= ->] |].
  intros Hrest. now rewrite IH.
Qed.

Section GradingFacts.

Variable py_eq : json -> json -> bool.
Variable py_getitem : json -> json -> result json.

(** What the loop does when it returns. *)
Lemma update_first_spec (items items' : list json)
    (question_index status score : json) (found : bool) :
  update_first py_eq items question_index status score = Ok (items', found) ->
  if found then
    exists pre g post,
      items = (pre ++ JObject g :: post)%list
      /\ forallb (passed_over py_eq question_index) pre = true
      /\ py_eq (or_none (dict_get "question_index" g)) question_index = true
      /\ items'
         = (pre ++ JObject (dict_setitem "score" score
                              (dict_setitem "status" status g)) :: post)%list
  else
    items' = items /\ forallb (passed_over py_eq question_index) items = true.
Proof.
  revert items' found. induction items as [|item rest IH]; intros items' found.
  - intros [= <- <-]. now split.
  - cbn [update_first]. destruct item as [| | | | | |g]; try discriminate.
    destruct (py_eq (or_none (dict_get "question_index" g)) question_index)
      eqn:Hmatch.
    + intros [= <- <-]. now exists [], g, rest.
    + destruct (update_first py_eq rest question_index status score)
        as [[rest' found']|e]; [| discriminate].
      intros [= <- <-]. specialize (IH rest' found' eq_refl).
      destruct found'.
      * destruct IH as (pre & g' & post & -> & Hpre & Hg' & ->).
        exists (JObject g :: pre), g', post. repeat split; try assumption.
        cbn [forallb passed_over]. now rewrite Hmatch.
      * destruct IH as [-> Hrest]. split; [reflexivity |].
        cbn [forallb passed_over]. now rewrite Hmatch.
Qed.

(** The loop goes past the grades it passes over. *)
Lemma update_first_passes (pre rest : list json)
    (question_index status score : json) :
  forallb (passed_over py_eq question_index) pre = true ->
  update_first py_eq (pre ++ rest) question_index status score
    = match update_first py_eq rest question_index status score with
      | Ok (rest', found) => Ok ((pre ++ rest')%list, found)
      | Raise e => Raise e
      end.
Proof.
  induction pre as [|item pre IH]; intros Hpre.
  - simpl. now destruct (update_first py_eq rest _ _ _) as [[rest' found]|e].
  - cbn [forallb] in Hpre. apply andb_true_iff in Hpre as [Hitem Hpre].
    destruct item as [| | | | | |g]; try discriminate.
    cbn [passed_over] in Hitem. apply negb_true_iff in Hitem.
    rewrite <- app_comm_cons. cbn [update_first]. rewrite Hitem, (IH Hpre).
    now destruct (update_first py_eq rest _ _ _) as [[rest' found]|e].
Qed.

(** A grade that was given the status and the score is a grade of the
    same question, and giving them again changes nothing. *)
Lemma regrade_same (g : list (string * json)) (status score : json) :
  let g' := dict_setitem "score" score (dict_setitem "status" status g) in
  dict_get "question_index" g' = dict_get "question_index" g
  /\ dict_setitem "score" score (dict_setitem "status" status g') = g'.
Proof.
  cbv zeta. split.
  - now rewrite !dict_get_setitem_ne by discriminate.
  - rewrite (dict_setitem_same "status" status).
    + apply dict_setitem_same, dict_get_setitem_eq.
    + rewrite dict_get_setitem_ne by discriminate. apply dict_get_setitem_eq.
Qed.

Lemma grade_update_list (items : list json)
    (questions question_index status score : json) :
  score_of py_getitem questions question_index status = Ok score ->
  grade_update py_eq py_getitem (JArray items) questions question_index status
    = match update_first py_eq items question_index status score with
      | Ok (items', true) => Ok (JArray items')
      | Ok (items', false) =>
          Ok (JArray (items' ++ [new_grade question_index status score])%list)
      | Raise e => Raise e
      end.
Proof. intros Hscore. unfold grade_update. now rewrite Hscore. Qed.

End GradingFacts.

(** When the grades are stored, one grade differs from before: the first
    grade of the question has the new status and score, at its place and
    with its other members; or, when the question had no grade, the new
    grade is at the end.  The score is the marks of the question for the
    status [correct], and 0 for any other status, whatever the index. *)
Theorem grade_update_changes_one_grade
    (py_eq : json -> json -> bool) (py_getitem : json -> json -> result json)
    (items : list json) (questions question_index status stored : json) :
  grade_update py_eq py_getitem (JArray items) questions question_index status
    = Ok stored ->
  exists score,
    score_of py_getitem questions question_index status = Ok score
    /\ (json_eq_str (Some status) "correct" = false -> score = JInt 0)
    /\ ((exists pre g post,
           items = (pre ++ JObject g :: post)%list
           /\ forallb (passed_over py_eq question_index) pre = true
           /\ py_eq (or_none (dict_get "question_index" g)) question_index = true
           /\ stored
              = JArray (pre ++ JObject (dict_setitem "score" score
                                          (dict_setitem "status" status g))
                          :: post)%list)
        \/ (forallb (passed_over py_eq question_index) items = true
            /\ stored
               = JArray (items ++ [new_grade question_index status score])%list)).
Proof.
  destruct (score_of py_getitem questions question_index status)
    as [score|e] eqn:Hscore;
    [| unfold grade_update; rewrite Hscore; discriminate].
  rewrite (grade_update_list py_eq py_getitem items _ _ _ _ Hscore).
  intros Hstored. exists score. split; [reflexivity |]. split.
  { intros Hstatus. unfold score_of in Hscore. rewrite Hstatus in Hscore.
    now injection Hscore. }
  destruct (update_first py_eq items question_index status score)
    as [[items' found]|e] eqn:Hloop; [| discriminate].
  pose proof (update_first_spec py_eq _ _ _ _ _ _ Hloop) as Hspec.
  destruct found; injection Hstored as <-.
  - left. destruct Hspec as (pre & g & post & Hitems & Hpre & Hg & ->).
    now exists pre, g, post.
  - right. now destruct Hspec as [-> Hitems].
Qed.

(** The second question is graded [correct]: its grade, the second one,
    gets the status and the three marks; the first grade stays. *)
Lemma grade_update_changes_one_grade_witness :
  grade_update Scenarios.small_eq Scenarios.small_getitem
      (JArray Scenarios.first_grades) Scenarios.two_questions (JInt 1)
      (JString "correct")
    = Ok (JArray [Scenarios.grade 0 "wrong" 0; Scenarios.grade 1 "correct" 3])
  /\ exists score,
       score_of Scenarios.small_getitem Scenarios.two_questions (JInt 1)
           (JString "correct")
         = Ok score
       /\ score = JInt 3.
Proof.
  split; [reflexivity |].
  destruct (grade_update_changes_one_grade Scenarios.small_eq
              Scenarios.small_getitem Scenarios.first_grades
              Scenarios.two_questions (JInt 1) (JString "correct") _ eq_refl)
    as (score & Hscore & _).
  exists score. split; [exact Hscore |]. now injection Hscore.
Defined.

(** Grading a question again with the same status stores the grades that
    are stored already: no second grade of the question is added.  This
    needs the index to equal itself, as every decoded value that holds no
    NaN does. *)
Theorem grading_twice_is_grading_once
    (py_eq : json -> json -> bool) (py_getitem : json -> json -> result json)
    (grades questions question_index status stored : json) :
  py_eq question_index question_index = true ->
  grade_update py_eq py_getitem grades questions question_index status
    = Ok stored ->
  grade_update py_eq py_getitem stored questions question_index status
    = Ok stored.
Proof.
  intros Hrefl Hstored.
  destruct (score_of py_getitem questions question_index status)
    as [score|e] eqn:Hscore;
    [| unfold grade_update in Hstored; rewrite Hscore in Hstored; discriminate].
  destruct grades as [| | | |text|items|fields];
    try (unfold grade_update in Hstored; rewrite Hscore in Hstored;
         discriminate).
  { unfold grade_update in Hstored. rewrite Hscore in Hstored.
    now destruct text. }
  2:{ unfold grade_update in Hstored. rewrite Hscore in Hstored.
      now destruct fields. }
  rewrite (grade_update_list py_eq py_getitem items _ _ _ _ Hscore) in Hstored.
  destruct (update_first py_eq items question_index status score)
    as [[items' found]|e] eqn:Hloop; [| discriminate].
  pose proof (update_first_spec py_eq _ _ _ _ _ _ Hloop) as Hspec.
  destruct found; injection Hstored as <-;
    rewrite (grade_update_list py_eq py_getitem _ _ _ _ _ Hscore).
  - destruct Hspec as (pre & g & post & _ & Hpre & Hg & ->).
    destruct (regrade_same g status score) as [Hindex Hsame].
    rewrite (update_first_passes py_eq pre _ _ _ _ Hpre).
    cbn [update_first]. now rewrite Hindex, Hg, Hsame.
  - destruct Hspec as [-> Hitems].
    rewrite (update_first_passes py_eq items _ _ _ _ Hitems).
    unfold new_grade. cbn [update_first].
    change (or_none (dict_get "question_index"
                       [("question_index", question_index); ("status", status);
                        ("score", score)]))
      with question_index.
    rewrite Hrefl. reflexivity.
Qed.

(** The first question, graded [wrong] twice on a submission without
    grades, has one grade. *)
Lemma grading_twice_is_grading_once_witness :
  grade_update Scenarios.small_eq Scenarios.small_getitem
      (JArray [Scenarios.grade 0 "wrong" 0]) Scenarios.two_questions (JInt 0)
      (JString "wrong")
    = Ok (JArray [Scenarios.grade 0 "wrong" 0]).
Proof.
  apply (grading_twice_is_grading_once Scenarios.small_eq
           Scenarios.small_getitem (JArray []) Scenarios.two_questions
           (JInt 0) (JString "wrong")); reflexivity.
Defined.
